(** * minimal-bot: the event router, the command interpreter and the
      diff analyzers of the webhook bot, embedded from
      [utils.py], [config.py], [bot.py] and [github_app.py].

    - Text is [string] over the code points 0..255; the character tables
      ([isspace], [lower], the class [\w]) are the ones Python applies
      to these code points.
    - A pattern of the catalogs is a sequence of character classes, each
      taken once, [*] or [+], which is the shape of every pattern in the
      source; [Re.search] decides whether some substring matches.
    - A payload is a record whose top-level keys may be absent; the
      objects below them are typed.
    - A handler runs in the monad [M]: it reads a [World] (the answers
      of the platform, the iteration order of sets, [random.choice], the
      review suggester), appends every call of [github_api] to a trace,
      and returns or raises. *)

From Stdlib Require Import ZArith List String Ascii Bool Lia Permutation.
Import ListNotations.
Local Open Scope string_scope.
Local Open Scope Z_scope.
Local Open Scope list_scope.

(* ===================================================================== *)
(** * Python text primitives *)
(* ===================================================================== *)

Module Py.

(** [ch.isspace()]: TAB..CR, FS..US, SPACE, NEL and NBSP. *)
Definition isspace (c : ascii) : bool :=
  let n := nat_of_ascii c in
  ((9 <=? n) && (n <=? 13) || (28 <=? n) && (n <=? 32)
   || (n =? 133) || (n =? 160))%nat.

(** [ch.lower()]: A..Z and the accented capitals 192..222 (not the
    multiplication sign 215) move up by 32. *)
Definition lower_char (c : ascii) : ascii :=
  let n := nat_of_ascii c in
  if ((65 <=? n) && (n <=? 90)
      || (192 <=? n) && (n <=? 222) && negb (n =? 215))%nat
  then ascii_of_nat (n + 32) else c.

(** [s.lower()] *)
Fixpoint lower (s : string) : string :=
  match s with
  | EmptyString => EmptyString
  | String c s' => String (lower_char c) (lower s')
  end.

(** [s.lstrip()], [s.rstrip()] and [s.strip()] *)
Fixpoint lstrip (s : string) : string :=
  match s with
  | EmptyString => EmptyString
  | String c s' => if isspace c then lstrip s' else s
  end.

Fixpoint rstrip (s : string) : string :=
  match s with
  | EmptyString => EmptyString
  | String c s' =>
      match rstrip s' with
      | EmptyString => if isspace c then EmptyString else String c EmptyString
      | r => String c r
      end
  end.

Definition strip (s : string) : string := rstrip (lstrip s).

(** [s.startswith(p)] *)
Definition startswith (s p : string) : bool := String.prefix p s.

(** [sub in s] *)
Fixpoint contains (sub s : string) : bool :=
  if String.prefix sub s then true
  else match s with
       | EmptyString => false
       | String _ s' => contains sub s'
       end.

(** [s.split()]: the maximal runs of non-whitespace characters.
    [split_run s] is the run that starts [s] (empty when [s] starts with
    whitespace) and the tokens after it. *)
Definition cons_token (t : string) (ts : list string) : list string :=
  match t with
  | EmptyString => ts
  | _ => t :: ts
  end.

Fixpoint split_run (s : string) : string * list string :=
  match s with
  | EmptyString => (EmptyString, [])
  | String c s' =>
      let (t, ts) := split_run s' in
      if isspace c then (EmptyString, cons_token t ts) else (String c t, ts)
  end.

Definition split (s : string) : list string :=
  let (t, ts) := split_run s in cons_token t ts.

(** [s.split(sep)] for a non-empty [sep]: the pieces between the
    occurrences of [sep], found left to right without overlap.  [skip]
    counts the characters of a separator still to be passed over. *)
Fixpoint split_from (sep : string) (skip : nat) (s : string) : list string :=
  match s with
  | EmptyString => [EmptyString]
  | String c s' =>
      match skip with
      | S k => split_from sep k s'
      | O =>
          if String.prefix sep s
          then EmptyString :: split_from sep (Nat.pred (String.length sep)) s'
          else match split_from sep 0 s' with
               | p :: ps => String c p :: ps
               | [] => [String c EmptyString]
               end
      end
  end.

Definition split_on (sep s : string) : list string := split_from sep 0 s.

(** [s.endswith(p)] and [s.endswith((p1, p2, ...))] *)
Definition endswith (s p : string) : bool :=
  let n := String.length s in
  let m := String.length p in
  if (m <=? n)%nat then String.eqb (substring (n - m) m s) p else false.

Definition endswith_any (s : string) (ps : list string) : bool :=
  existsb (endswith s) ps.

(** [s[:n]] and [s[n:]] *)
Definition take (n : nat) (s : string) : string := substring 0 n s.

Definition from (n : nat) (s : string) : string :=
  substring n (String.length s - n) s.

(** Truth value of a list: the empty list is falsy. *)
Definition nonempty {A : Type} (l : list A) : bool :=
  match l with
  | [] => false
  | _ :: _ => true
  end.

(** A [set] of texts, kept as its members in insertion order; the order
    in which a set is iterated is not this one (see [set_order]). *)
Definition set_add (x : string) (s : list string) : list string :=
  if existsb (String.eqb x) s then s else s ++ [x].

(** Truth value of an optional text: [None] and [''] are falsy. *)
Definition truthy (o : option string) : bool :=
  match o with
  | Some (String _ _) => true
  | _ => false
  end.

End Py.

(* ===================================================================== *)
(** * The regular expressions of the catalogs *)
(* ===================================================================== *)

(** Every pattern of [config.py] and [utils.py] is a sequence of items,
    an item being a character class taken once, [*] or [+].  [search]
    is [re.search]: some substring of the text matches the sequence. *)
Module Re.

Inductive cset :=
| Lit (a : ascii)             (* a literal character *)
| Space                       (* \s *)
| Word                        (* \w *)
| Dot                         (* .  : anything but a newline *)
| OneOf (l : list ascii)      (* [...] *)
| NoneOf (l : list ascii).    (* [^...] *)

Inductive quant := One | Star | Plus.

Definition pattern := list (cset * quant).

(** The class [\w]: digits, letters (with the letters, superscripts and
    fractions above 127) and the underscore. *)
Definition isword (c : ascii) : bool :=
  let n := nat_of_ascii c in
  ((48 <=? n) && (n <=? 57) || (65 <=? n) && (n <=? 90) || (n =? 95)
   || (97 <=? n) && (n <=? 122)
   || (n =? 170) || (n =? 178) || (n =? 179) || (n =? 181)
   || (n =? 185) || (n =? 186) || (188 <=? n) && (n <=? 190)
   || (192 <=? n) && (n <=? 214) || (216 <=? n) && (n <=? 246)
   || (248 <=? n) && (n <=? 255))%nat.

(** With [re.IGNORECASE] ([icase]) characters are compared lower-cased. *)
Definition same_char (icase : bool) (a c : ascii) : bool :=
  if icase then Ascii.eqb (Py.lower_char a) (Py.lower_char c)
  else Ascii.eqb a c.

Definition accepts (icase : bool) (k : cset) (c : ascii) : bool :=
  match k with
  | Lit a => same_char icase a c
  | Space => Py.isspace c
  | Word => isword c
  | Dot => negb (Ascii.eqb c "010")
  | OneOf l => existsb (fun a => same_char icase a c) l
  | NoneOf l => negb (existsb (fun a => same_char icase a c) l)
  end.

(** [match_here icase p s]: some prefix of [s] matches [p]. *)
Fixpoint match_here (icase : bool) (p : pattern) (s : string) : bool :=
  match p with
  | [] => true
  | (k, One) :: p' =>
      match s with
      | String c s' =>
          if accepts icase k c then match_here icase p' s' else false
      | EmptyString => false
      end
  | (k, Star) :: p' =>
      (fix star (s : string) : bool :=
         if match_here icase p' s then true
         else match s with
              | String c s' => if accepts icase k c then star s' else false
              | EmptyString => false
              end) s
  | (k, Plus) :: p' =>
      match s with
      | String c s' =>
          if accepts icase k c
          then (fix star (s : string) : bool :=
                  if match_here icase p' s then true
                  else match s with
                       | String c s' =>
                           if accepts icase k c then star s' else false
                       | EmptyString => false
                       end) s'
          else false
      | EmptyString => false
      end
  end.

(** [re.search(p, s)] (with [re.IGNORECASE] when [icase]) is truthy. *)
Fixpoint search (icase : bool) (p : pattern) (s : string) : bool :=
  if match_here icase p s then true
  else match s with
       | String _ s' => search icase p s'
       | EmptyString => false
       end.

(** The literal text [s] as a pattern. *)
Fixpoint lits (s : string) : pattern :=
  match s with
  | EmptyString => []
  | String c s' => (Lit c, One) :: lits s'
  end.

End Re.

(* ===================================================================== *)
(** * config.py: the pattern catalog *)
(* ===================================================================== *)

Module Config.
Import Re.

(** [LANGUAGE_LABELS] *)
Definition LANGUAGE_LABELS : list (string * string) :=
  [ (".py", "python"); (".pyx", "python");
    (".js", "javascript"); (".jsx", "javascript");
    (".ts", "typescript"); (".tsx", "typescript");
    (".java", "java"); (".kt", "kotlin");
    (".cpp", "c++"); (".c", "c++"); (".h", "c++");
    (".go", "golang");
    (".rs", "rust");
    (".rb", "ruby");
    (".php", "php");
    (".swift", "swift");
    (".cs", "c#");
    (".scala", "scala");
    (".r", "r") ].

(** [CONTENT_LABELS], a dict iterated in insertion order. *)
Definition CONTENT_LABELS : list (string * list string) :=
  [ ("documentation", [".md"; ".txt"; ".rst"; ".adoc"]);
    ("config", [".yml"; ".yaml"; ".json"; ".toml"; ".ini"; ".cfg"]);
    ("styling", [".css"; ".scss"; ".sass"; ".less"]);
    ("frontend", [".html"; ".htm"; ".vue"; ".svelte"]);
    ("database", [".sql"; ".db"; ".sqlite"]);
    ("docker", ["dockerfile"; "docker-compose"]);
    ("ci/cd", [".github"; ".gitlab-ci"; ".travis"; ".circleci"]) ].

(** The number of entries of [JOKES] and of [MOTIVATIONAL_QUOTES]. *)
Definition JOKES_count : nat := 6.
Definition MOTIVATIONAL_QUOTES_count : nat := 6.

(** The class of the two quote characters. *)
Definition quotes : list ascii := ["034"%char; "'"%char].

(** [SECURITY_PATTERNS], a dict iterated in insertion order. *)
Definition SECURITY_PATTERNS : list (string * list pattern) :=
  [ ("hardcoded_secrets",
      [ (* password\s*=\s*[quotes][^quotes]+[quotes] *)
        lits "password" ++ [(Space, Star); (Lit "=", One); (Space, Star);
          (OneOf quotes, One); (NoneOf quotes, Plus); (OneOf quotes, One)];
        lits "api_key" ++ [(Space, Star); (Lit "=", One); (Space, Star);
          (OneOf quotes, One); (NoneOf quotes, Plus); (OneOf quotes, One)];
        lits "secret" ++ [(Space, Star); (Lit "=", One); (Space, Star);
          (OneOf quotes, One); (NoneOf quotes, Plus); (OneOf quotes, One)];
        lits "token" ++ [(Space, Star); (Lit "=", One); (Space, Star);
          (OneOf quotes, One); (NoneOf quotes, Plus); (OneOf quotes, One)] ]);
    ("dangerous_functions",
      [ (* eval\s*\( *)
        lits "eval" ++ [(Space, Star); (Lit "(", One)];
        lits "exec" ++ [(Space, Star); (Lit "(", One)];
        lits "system" ++ [(Space, Star); (Lit "(", One)];
        lits "shell_exec" ++ [(Space, Star); (Lit "(", One)] ]);
    ("sql_injection",
      [ (* execute\s*\(\s*[quotes].*\+.*[quotes] *)
        lits "execute" ++ [(Space, Star); (Lit "(", One); (Space, Star);
          (OneOf quotes, One); (Dot, Star); (Lit "+", One); (Dot, Star);
          (OneOf quotes, One)];
        lits "query" ++ [(Space, Star); (Lit "(", One); (Space, Star);
          (OneOf quotes, One); (Dot, Star); (Lit "+", One); (Dot, Star);
          (OneOf quotes, One)] ]) ].

End Config.

(* ===================================================================== *)
(** * utils.py: the diff analyzers *)
(* ===================================================================== *)

(** One entry of the platform's changed-file list.  [changes] and
    [patch] are read with [.get], so they may be absent. *)
Record FileChange := mkFile {
  filename : string;
  changes : option Z;
  patch : option string
}.

Inductive RiskLevel := low | medium | high.

Record ComplexitySignal := mkComplexity {
  score : Z;
  total_lines : Z;
  file_count : Z;
  risk_level : RiskLevel
}.

(** A finding of the security scan: the dict with the keys
    ['type'], ['file'] and ['severity']. *)
(** What [generate_pr_summary] reports: the complexity signal, the
    first breaking files (none when the line is left out) and the sorted
    languages. *)
Record PRSummary := mkSummary {
  sum_complexity : ComplexitySignal;
  sum_breaking_files : list string;
  sum_languages : list string
}.

Record Finding := mkFinding {
  ftype : string;
  ffile : string;
  severity : string
}.

Module Utils.
Import Re.

(** [f.get('changes', 0)] *)
Definition get_changes (f : FileChange) : Z :=
  match changes f with Some n => n | None => 0 end.

(** [sum(f.get('changes', 0) for f in files)] *)
Definition sum_changes (files : list FileChange) : Z :=
  fold_left (fun acc f => acc + get_changes f) files 0.

Definition analyze_code_complexity (files : list FileChange) : ComplexitySignal :=
  let total_lines := sum_changes files in
  let file_count := Z.of_nat (List.length files) in
  let complexity_score := 0 in
  let complexity_score :=
    if total_lines >? 500 then complexity_score + 3
    else if total_lines >? 200 then complexity_score + 2
    else if total_lines >? 50 then complexity_score + 1
    else complexity_score in
  let complexity_score :=
    if file_count >? 10 then complexity_score + 2
    else if file_count >? 5 then complexity_score + 1
    else complexity_score in
  {| score := complexity_score;
     total_lines := total_lines;
     file_count := file_count;
     risk_level := if complexity_score >=? 4 then high
                   else if complexity_score >=? 2 then medium
                   else low |}.

(** The text of [file['patch']], read only where [file.get('patch')]
    is truthy. *)
Definition patch_text (f : FileChange) : string :=
  match patch f with Some t => t | None => EmptyString end.

Definition breaking_patterns : list pattern :=
  [ (* def\s+\w+\([^)]*\)\s*-> *)
    lits "def" ++ [(Space, Plus); (Word, Plus); (Lit "(", One);
      (NoneOf [")"%char], Star); (Lit ")", One); (Space, Star);
      (Lit "-", One); (Lit ">", One)];
    (* class\s+\w+\([^)]*\): *)
    lits "class" ++ [(Space, Plus); (Word, Plus); (Lit "(", One);
      (NoneOf [")"%char], Star); (Lit ")", One); (Lit ":", One)];
    (* import\s+\w+ *)
    lits "import" ++ [(Space, Plus); (Word, Plus)];
    (* from\s+\w+\s+import *)
    lits "from" ++ [(Space, Plus); (Word, Plus); (Space, Plus)] ++ lits "import";
    (* @\w+ *)
    [(Lit "@", One); (Word, Plus)] ].

(** The inner loop of [detect_breaking_changes]: the file name is
    appended at the first pattern found, and the loop is left there. *)
Fixpoint breaking_scan (patterns : list pattern) (file : FileChange)
    (breaking_files : list string) : list string :=
  match patterns with
  | [] => breaking_files
  | pattern :: rest =>
      if search false pattern (patch_text file)
      then breaking_files ++ [filename file]
      else breaking_scan rest file breaking_files
  end.

Definition detect_breaking_changes (files : list FileChange) : list string :=
  fold_left
    (fun breaking_files file =>
       if Py.truthy (patch file)
       then breaking_scan breaking_patterns file breaking_files
       else breaking_files)
    files [].

(** The loop over the patterns of one category. *)
Definition scan_patterns (category filename patch_content : string)
    (patterns : list pattern) (vulnerabilities : list Finding) : list Finding :=
  fold_left
    (fun vulnerabilities pattern =>
       if search true pattern patch_content
       then vulnerabilities ++
            [ {| ftype := category;
                 ffile := filename;
                 severity := if String.eqb category "hardcoded_secrets"
                             then "high" else "medium" |} ]
       else vulnerabilities)
    patterns vulnerabilities.

Definition scan_for_vulnerabilities (files : list FileChange) : list Finding :=
  fold_left
    (fun vulnerabilities file =>
       if negb (Py.truthy (patch file)) then vulnerabilities
       else
         let patch_content := Py.lower (patch_text file) in
         let filename := filename file in
         fold_left
           (fun vulnerabilities '(category, patterns) =>
              scan_patterns category filename patch_content patterns
                vulnerabilities)
           Config.SECURITY_PATTERNS vulnerabilities)
    files [].

(** ['.' + name.split('.')[-1] if '.' in name else ''] *)
Definition extension (name : string) : string :=
  if Py.contains "." name
  then String "." (last (Py.split_on "." name) EmptyString)
  else EmptyString.

(** The language extensions of the summary, without their dot, in
    sorted order: [sorted(languages)] keeps those that were added. *)
Definition summary_languages : list string :=
  ["go"; "java"; "js"; "py"; "rb"; "rs"; "ts"].

Definition generate_pr_summary (files : list FileChange) (pr_title : string)
  : PRSummary :=
  let complexity := analyze_code_complexity files in
  let breaking_files := detect_breaking_changes files in
  (* Language breakdown *)
  let languages :=
    fold_left
      (fun languages file =>
         let ext := extension (filename file) in
         if existsb (String.eqb ext)
              [".py"; ".js"; ".ts"; ".java"; ".go"; ".rs"; ".rb"]
         then Py.set_add (Py.from 1 ext) languages
         else languages)
      files [] in
  {| sum_complexity := complexity;
     sum_breaking_files := firstn 3 breaking_files;
     sum_languages :=
       filter (fun l => existsb (String.eqb l) languages) summary_languages |}.

(** An entry of the platform's contributor list; a key may be missing. *)
Record Contributor := mkContributor {
  c_login : option string;
  c_contributions : option Z;
  c_avatar_url : option string
}.

(** An entry of the statistics: the keys ['login'], ['contributions']
    and ['avatar']. *)
Record ContributorStat := mkStat {
  st_login : string;
  st_contributions : Z;
  st_avatar : string
}.

(** The loop of [get_contributor_stats]; [None] when reading a key
    raises [KeyError]. *)
Fixpoint collect_stats (contributors : list Contributor)
    (stats : list ContributorStat) : option (list ContributorStat) :=
  match contributors with
  | [] => Some stats
  | contributor :: rest =>
      match c_login contributor, c_contributions contributor,
            c_avatar_url contributor with
      | Some login, Some contributions, Some avatar =>
          collect_stats rest
            (stats ++ [ {| st_login := login;
                           st_contributions := contributions;
                           st_avatar := avatar |} ])
      | _, _, _ => None
      end
  end.

(** [github_api_func] takes the method and the path and answers with
    the list, or raises ([None]); whatever is raised inside the [try]
    gives the empty list. *)
Definition get_contributor_stats
    (github_api_func : string -> string -> option (list Contributor))
    (repo : string) : list ContributorStat :=
  match github_api_func "GET"
          ("/repos/" ++ repo ++ "/contributors?per_page=10")%string with
  | Some contributors =>
      match collect_stats (firstn 5 contributors) [] with
      | Some stats => stats
      | None => []
      end
  | None => []
  end.

(** What [format_time_ago] shows: a number and its unit, or the word
    [recently]. *)
Inductive TimeAgo :=
| DaysAgo (n : Z)
| HoursAgo (n : Z)
| MinutesAgo (n : Z)
| Recently.

(** The number of microseconds of a day. *)
Definition day_us : Z := 86400 * 1000000.

(** [format_time_ago]: [parsed] is the instant the timestamp denotes, in
    microseconds, [None] when parsing it raises; [now] is the reading of
    the clock.  The difference is a [timedelta]: its [days] may be
    negative, its [seconds] lie within one day. *)
Definition format_time_ago (parsed : option Z) (now : Z) : TimeAgo :=
  match parsed with
  | Some dt =>
      let diff := now - dt in
      let days := diff / day_us in
      let seconds := (diff mod day_us) / 1000000 in
      if days >? 0 then DaysAgo days
      else if seconds >? 3600 then HoursAgo (seconds / 3600)
      else MinutesAgo (seconds / 60)
  | None => Recently
  end.

(** The run of [\w] characters that starts [s]. *)
Fixpoint word_run (s : string) : string :=
  match s with
  | String c s' => if isword c then String c (word_run s') else EmptyString
  | EmptyString => EmptyString
  end.

(** [re.findall(r'@(\w+)', text)]: the matches found left to right, the
    search resuming after each match; [skip] counts the characters of a
    match still to be passed over. *)
Fixpoint mentions_from (skip : nat) (text : string) : list string :=
  match text with
  | EmptyString => []
  | String c s' =>
      match skip with
      | S k => mentions_from k s'
      | O =>
          if Ascii.eqb c "@"
          then match word_run s' with
               | EmptyString => mentions_from 0 s'
               | user => user :: mentions_from (String.length user) s'
               end
          else mentions_from 0 s'
      end
  end.

Definition extract_mentioned_users (text : string) : list string :=
  mentions_from 0 text.

Inductive Suggestion :=
| MoreDetails           (* Consider providing more details about the issue *)
| StepsToReproduce      (* For bug reports, please include steps to reproduce *)
| ExplainUseCase.       (* For feature requests, please explain the use case *)

(** [issue_body.lower()], which raises [AttributeError] ([None]) on a
    body that is [None]. *)
Definition body_lower (issue_body : option string) : option string :=
  match issue_body with
  | Some b => Some (Py.lower b)
  | None => None
  end.

(** [generate_issue_template_suggestion]; [None] when it raises. *)
Definition generate_issue_template_suggestion (issue_title : string)
    (issue_body : option string) : option (list Suggestion) :=
  let suggestions := [] in
  let suggestions :=
    if negb (Py.truthy issue_body)
       || match issue_body with
          | Some b => (String.length b <? 50)%nat
          | None => false
          end
    then suggestions ++ [MoreDetails] else suggestions in
  match (if Py.contains "bug" (Py.lower issue_title)
         then match body_lower issue_body with
              | Some b => Some (negb (Py.contains "reproduce" b))
              | None => None
              end
         else Some false) with
  | None => None
  | Some missing_steps =>
      let suggestions :=
        if (missing_steps : bool) then suggestions ++ [StepsToReproduce]
        else suggestions in
      match (if Py.contains "feature" (Py.lower issue_title)
             then match body_lower issue_body with
                  | Some b => Some (negb (Py.contains "why" b))
                  | None => None
                  end
             else Some false) with
      | None => None
      | Some missing_reason =>
          Some (if (missing_reason : bool)
                then suggestions ++ [ExplainUseCase] else suggestions)
      end
  end.

End Utils.

(* ===================================================================== *)
(** * Events, platform calls and the handler monad *)
(* ===================================================================== *)

(** The payload objects the handlers read.  The top-level keys of a
    payload depend on the kind of event, so each may be absent; reading
    an absent key raises [KeyError]. *)
Record PullRequest := mkPullRequest {
  pr_number : Z;
  pr_user_login : string;
  pr_merged : option bool;          (* pr.get('merged') *)
  pr_title : string
}.

Record Issue := mkIssue {
  issue_number : Z;
  issue_title : string;
  issue_body : option string        (* null for an empty description *)
}.

Record Comment := mkComment {
  comment_body : string;
  comment_user_login : string
}.

Record Payload := mkPayload {
  action : option string;
  repository_full_name : option string;
  pull_request : option PullRequest;
  issue : option Issue;
  comment : option Comment;
  installation_id : option Z        (* payload.get('installation', {}).get('id') *)
}.

(** A delivery: the [X-GitHub-Event] header and the parsed body. *)
Record Delivery := mkDelivery {
  event : option string;
  payload : Payload
}.

(** Objects of the platform's answers. *)
Record Commit := mkCommit {
  commit_author : option string     (* commit['author']['login']; author may be null *)
}.

Record ClosedPull := mkClosedPull {
  cp_title : string;
  cp_number : Z;
  cp_user_login : string;
  cp_merged_at : option string
}.

Inductive ReviewIssue :=
| ConsiderTests
| LargeFilesDetected (files : list string)
| ConsiderDocs.

Inductive SecurityIssue :=
| PotentialPassword (file : string)
| PotentialSecret (file : string)
| DangerousEval (file : string)
| SqlRisk (file : string).

(** The comment bodies, by template and the values filled in; the text
    of a template is the one of the file that posts it. *)
Inductive CommentBody :=
| BWelcome (author project : string)
| BWelcomeApp (author : string)
| BPRReview (issues : list ReviewIssue)
| BSecurityScan (issues : list SecurityIssue)
| BSecurityReport (vulnerabilities : list Finding)
| BAIReview (review : string)
| BSummary (summary : PRSummary)
| BThanks (author : string)
| BHelp
| BAssigned (assignee : string)
| BLabelAdded (label : string)
| BClosedBy (commenter : string)
| BChangelog (entries : list (string * Z * string))
| BJoke (index : nat)
| BQuote (index : nat).

(** The calls of [github_api], by method and endpoint (under
    [/repos/{repo}]) with the data sent. *)
Inductive Request :=
| GetPullFiles (repo : string) (pr_number : Z)
    (* GET /pulls/{pr_number}/files *)
| GetContents (repo path : string)
    (* GET /contents/{path} *)
| GetCommits (repo path : string) (per_page : Z)
    (* GET /commits?path={path}&per_page={per_page} *)
| GetAuthorPulls (repo author : string)
    (* GET /pulls?author={author}&state=all *)
| GetRepo (repo : string)
    (* GET /repos/{repo} *)
| GetClosedPulls (repo : string) (per_page : Z)
    (* GET /pulls?state=closed&sort=updated&per_page={per_page} *)
| PostLabels (repo : string) (number : Z) (labels : list string)
    (* POST /issues/{number}/labels *)
| PostComment (repo : string) (number : Z) (body : CommentBody)
    (* POST /issues/{number}/comments *)
| PostAssignees (repo : string) (number : Z) (assignees : list string)
    (* POST /issues/{number}/assignees *)
| PostReviewers (repo : string) (number : Z) (reviewers : list string)
    (* POST /pulls/{number}/requested_reviewers *)
| PatchState (repo : string) (number : Z) (state : string).
    (* PATCH /issues/{number} *)

Definition is_mutation (r : Request) : bool :=
  match r with
  | PostLabels _ _ _ | PostComment _ _ _ | PostAssignees _ _ _
  | PostReviewers _ _ _ | PatchState _ _ _ => true
  | _ => false
  end.

(** What a handler runs against: the platform's answers (the [nat] is
    the number of calls made before; [None] is a call that raised), and
    the process (iteration order of a [set], [random.choice], the
    review suggester). *)
Record World := mkWorld {
  pull_files : nat -> string -> Z -> option (list FileChange);
  contents : nat -> string -> string -> option bool;
  commits : nat -> string -> string -> option (list Commit);
  author_pulls : nat -> string -> string -> option nat;
  repo_name : nat -> string -> option (option string);
  closed_pulls : nat -> string -> Z -> option (list ClosedPull);
  accepts_mutation : nat -> Request -> bool;
  set_order : list string -> list string;
  random_index : nat -> nat;
  OPENAI_KEY : bool;
  suggest : string -> option string
}.

Inductive exn := KeyError | IndexError | ApiError.

Inductive outcome (A : Type) :=
| Ok (a : A)
| Raised (e : exn).
Arguments Ok {A} a.
Arguments Raised {A} e.

(** A handler: it reads the world, extends the trace of calls and
    returns or raises. *)
Definition M (A : Type) : Type :=
  World -> list Request -> outcome A * list Request.

Definition ret {A : Type} (a : A) : M A := fun _ tr => (Ok a, tr).

Definition raise {A : Type} (e : exn) : M A := fun _ tr => (Raised e, tr).

Definition bind {A B : Type} (m : M A) (f : A -> M B) : M B :=
  fun w tr =>
    match m w tr with
    | (Ok a, tr') => f a w tr'
    | (Raised e, tr') => (Raised e, tr')
    end.

Declare Scope handler_scope.
Delimit Scope handler_scope with handler.
Notation "x <- m ;; k" := (bind m (fun x => k))
  (at level 61, m at next level, right associativity) : handler_scope.
Notation "m ;; k" := (bind m (fun _ => k))
  (at level 61, right associativity) : handler_scope.
Local Open Scope handler_scope.

(** [try: m except: pass] *)
Definition try_pass (m : M unit) : M unit :=
  fun w tr =>
    match m w tr with
    | (Raised _, tr') => (Ok tt, tr')
    | r => r
    end.

(** [d[key]] on a key that may be absent. *)
Definition item {A : Type} (o : option A) : M A :=
  match o with
  | Some a => ret a
  | None => raise KeyError
  end.

(** [l[i]] *)
Definition index {A : Type} (l : list A) (i : nat) : M A :=
  match nth_error l i with
  | Some a => ret a
  | None => raise IndexError
  end.

(** [github_api('GET', ...)]: the call is recorded and the platform
    answers or the call raises. *)
Definition get {A : Type} (r : Request) (answer : World -> nat -> option A)
  : M A :=
  fun w tr =>
    match answer w (List.length tr) with
    | Some a => (Ok a, tr ++ [r])
    | None => (Raised ApiError, tr ++ [r])
    end.

(** [github_api('POST', ...)] and [github_api('PATCH', ...)], whose
    answer is not read. *)
Definition send (r : Request) : M unit :=
  fun w tr =>
    if accepts_mutation w (List.length tr) r then (Ok tt, tr ++ [r])
    else (Raised ApiError, tr ++ [r]).

Definition ask {A : Type} (field : World -> A) : M A :=
  fun w tr => (Ok (field w), tr).

(** A loop that carries [acc] through the handler monad. *)
Fixpoint for_each {A B : Type} (l : list A) (acc : B) (body : B -> A -> M B)
  : M B :=
  match l with
  | [] => ret acc
  | x :: l' => acc' <- body acc x ;; for_each l' acc' body
  end.

(** [a and b] where evaluating [b] may raise. *)
Definition and_then (a : bool) (b : M bool) : M bool :=
  if a then b else ret false.

(** [event == name] for the header value, [None] when absent. *)
Definition is_event (e : option string) (name : string) : bool :=
  match e with
  | Some s => String.eqb s name
  | None => false
  end.

(* ===================================================================== *)
(** * bot.py *)
(* ===================================================================== *)

Module Bot.

Definition auto_label_pr (repo : string) (pr_number : Z)
    (files : list FileChange) : M unit :=
  let '(labels, lines_changed) :=
    fold_left
      (fun '(labels, lines_changed) file =>
         let lines_changed := lines_changed + Utils.get_changes file in
         let filename := Py.lower (filename file) in
         (* Language detection *)
         let labels :=
           if Py.endswith_any filename [".py"; ".pyx"]
           then Py.set_add "python" labels
           else if Py.endswith_any filename [".js"; ".jsx"; ".ts"; ".tsx"]
           then Py.set_add "javascript" labels
           else if Py.endswith_any filename [".java"; ".kt"]
           then Py.set_add "java" labels
           else if Py.endswith_any filename [".cpp"; ".c"; ".h"]
           then Py.set_add "c++" labels
           else if Py.endswith filename ".go" then Py.set_add "golang" labels
           else if Py.endswith filename ".rs" then Py.set_add "rust" labels
           else if Py.endswith filename ".rb" then Py.set_add "ruby" labels
           else if Py.endswith filename ".php" then Py.set_add "php" labels
           else if Py.endswith filename ".swift" then Py.set_add "swift" labels
           else labels in
         (* File type detection *)
         let labels :=
           if Py.endswith_any filename [".md"; ".txt"; ".rst"]
           then Py.set_add "documentation" labels
           else if Py.contains "test" filename
                   || Py.endswith_any filename [".test.js"; "_test.py"]
           then Py.set_add "tests" labels
           else if Py.endswith_any filename [".yml"; ".yaml"; ".json"; ".toml"]
           then Py.set_add "config" labels
           else if Py.endswith_any filename [".css"; ".scss"; ".sass"]
           then Py.set_add "styling" labels
           else if Py.endswith_any filename [".html"; ".htm"]
           then Py.set_add "frontend" labels
           else if Py.contains "docker" filename
                   || String.eqb filename "dockerfile"
           then Py.set_add "docker" labels
           else if Py.endswith filename ".sql" then Py.set_add "database" labels
           else if Py.contains "api" filename || Py.contains "endpoint" filename
           then Py.set_add "api" labels
           else if Py.contains "security" filename
                   || Py.contains "auth" filename
           then Py.set_add "security" labels
           else if Py.contains "performance" filename
                   || Py.contains "optimize" filename
           then Py.set_add "performance" labels
           else labels in
         (* Directory-based labels *)
         let labels :=
           if Py.contains "/frontend/" filename || Py.contains "/ui/" filename
           then Py.set_add "frontend" labels
           else if Py.contains "/backend/" filename
                   || Py.contains "/server/" filename
           then Py.set_add "backend" labels
           else if Py.contains "/mobile/" filename
                   || Py.contains "/android/" filename
                   || Py.contains "/ios/" filename
           then Py.set_add "mobile" labels
           else if Py.contains "/infra/" filename
                   || Py.contains "/deploy/" filename
           then Py.set_add "infrastructure" labels
           else labels in
         (labels, lines_changed))
      files ([], 0) in
  (* Size labels *)
  let labels :=
    if lines_changed >? 500 then Py.set_add "large" labels
    else if lines_changed >? 100 then Py.set_add "medium" labels
    else Py.set_add "small" labels in
  if Py.nonempty labels
  then (order <- ask set_order ;;
        send (PostLabels repo pr_number (order labels)))
  else ret tt.

(** The loop over [commits[:3]] of one file. *)
Definition add_commit_authors (commits : list Commit) (author : string)
    (reviewers : list string) : list string :=
  fold_left
    (fun reviewers commit =>
       match commit_author commit with
       | Some login =>
           if negb (String.eqb login author) then Py.set_add login reviewers
           else reviewers
       | None => reviewers
       end)
    (firstn 3 commits) reviewers.

(** The body of the loop over the files. *)
Definition file_reviewers (repo author : string) (reviewers : list string)
    (file : FileChange) : M (list string) :=
  (* Get file blame to find frequent contributors *)
  blame <- get (GetContents repo (filename file))
               (fun w k => contents w k repo (filename file)) ;;
  if (blame : bool)
  then (commits <- get (GetCommits repo (filename file) 5)
                       (fun w k => commits w k repo (filename file)) ;;
        ret (add_commit_authors commits author reviewers))
  else ret reviewers.

Definition gather_reviewers (repo : string) (files : list FileChange)
    (author : string) : M (list string) :=
  for_each files [] (file_reviewers repo author).

Definition auto_assign_reviewers (repo : string) (pr_number : Z)
    (files : list FileChange) (author : string) : M unit :=
  reviewers <- gather_reviewers repo files author ;;
  if Py.nonempty reviewers
  then (order <- ask set_order ;;
        send (PostReviewers repo pr_number (firstn 3 (order reviewers))))
  else ret tt.

Definition welcome_contributor (repo : string) (pr_number : Z)
    (author : string) : M unit :=
  prs <- get (GetAuthorPulls repo author)
             (fun w k => author_pulls w k repo author) ;;
  if (prs =? 1)%nat
  then (repo_info <- get (GetRepo repo) (fun w k => repo_name w k repo) ;;
        let project :=
          match repo_info with Some name => name | None => "this project" end in
        send (PostComment repo pr_number (BWelcome author project)))
  else ret tt.

Definition check_pr_requirements (repo : string) (pr_number : Z)
    (files : list FileChange) : M unit :=
  let issues := [] in
  (* Check for tests *)
  let has_tests :=
    existsb (fun f => Py.contains "test" (Py.lower (filename f))) files in
  let has_code :=
    existsb (fun f => Py.endswith_any (filename f)
                        [".py"; ".js"; ".ts"; ".java"; ".go"]) files in
  let issues :=
    if has_code && negb has_tests then issues ++ [ConsiderTests] else issues in
  (* Check for large files *)
  let large_files :=
    map filename (filter (fun f => Utils.get_changes f >? 300) files) in
  let issues :=
    if Py.nonempty large_files
    then issues ++ [LargeFilesDetected (firstn 3 large_files)] else issues in
  (* Check for documentation *)
  let has_docs :=
    existsb (fun f => Py.endswith_any (filename f) [".md"; ".rst"; ".txt"])
      files in
  let issues :=
    if (Z.of_nat (List.length files) >? 5) && negb has_docs
    then issues ++ [ConsiderDocs] else issues in
  if Py.nonempty issues
  then send (PostComment repo pr_number (BPRReview issues))
  else ret tt.

(** [generate_changelog]: the merged ones among the first ten closed
    pull requests. *)
Definition generate_changelog (repo : string) : M CommentBody :=
  prs <- get (GetClosedPulls repo 20) (fun w k => closed_pulls w k repo 20) ;;
  ret (BChangelog
         (map (fun pr => (cp_title pr, cp_number pr, cp_user_login pr))
            (filter (fun pr => Py.truthy (cp_merged_at pr)) (firstn 10 prs)))).

Definition security_scan_pr (files : list FileChange) : list SecurityIssue :=
  fold_left
    (fun security_issues file =>
       if Py.truthy (patch file)
       then
         let patch := Py.lower (Utils.patch_text file) in
         (* Basic security checks *)
         let security_issues :=
           if Py.contains "password" patch && Py.contains "=" patch
           then security_issues ++ [PotentialPassword (filename file)]
           else security_issues in
         let security_issues :=
           if Py.contains "api_key" patch || Py.contains "secret" patch
           then security_issues ++ [PotentialSecret (filename file)]
           else security_issues in
         let security_issues :=
           if Py.contains "eval(" patch || Py.contains "exec(" patch
           then security_issues ++ [DangerousEval (filename file)]
           else security_issues in
         let security_issues :=
           if Py.contains "sql" patch
              && (Py.contains "drop" patch || Py.contains "delete" patch)
           then security_issues ++ [SqlRisk (filename file)]
           else security_issues in
         security_issues
       else security_issues)
    files [].

(** [ai_code_review]: nothing without a key or when the request fails. *)
Definition ai_code_review (diff_text : string) : M (option string) :=
  key <- ask OPENAI_KEY ;;
  if (key : bool)
  then (suggester <- ask suggest ;; ret (suggester (Py.take 2000 diff_text)))
  else ret None.

(** The handler sequence of [pull_request] / [opened]. *)
Definition pr_opened (repo : string) (pr_number : Z) (author : string)
  : M unit :=
  files <- get (GetPullFiles repo pr_number)
               (fun w k => pull_files w k repo pr_number) ;;
  (* All the automation *)
  auto_label_pr repo pr_number files ;;
  auto_assign_reviewers repo pr_number files author ;;
  welcome_contributor repo pr_number author ;;
  check_pr_requirements repo pr_number files ;;
  (* Security scan *)
  let security_issues := security_scan_pr files in
  (if Py.nonempty security_issues
   then send (PostComment repo pr_number (BSecurityScan security_issues))
   else ret tt) ;;
  (* AI code review (if OpenAI key provided) *)
  key <- ask OPENAI_KEY ;;
  if (key : bool) && (Z.of_nat (List.length files) <=? 5)
  then (let diff_text :=
          String.concat (String "010" EmptyString)
            (map Utils.patch_text (firstn 3 files)) in
        ai_review <- ai_code_review diff_text ;;
        if Py.truthy ai_review
        then send (PostComment repo pr_number
                     (BAIReview (match ai_review with
                                 | Some t => t
                                 | None => EmptyString
                                 end)))
        else ret tt)
  else ret tt.

(** The handler of [issues] / [opened]. *)
Definition issue_opened (p : Payload) : M unit :=
  issue <- item (issue p) ;;
  repo <- item (repository_full_name p) ;;
  (* Auto-label issues *)
  let title := Py.lower (issue_title issue) in
  let body := if Py.truthy (issue_body issue)
              then Py.lower (match issue_body issue with
                             | Some b => b
                             | None => EmptyString
                             end)
              else EmptyString in
  let labels := [] in
  let labels :=
    if Py.contains "bug" title || Py.contains "error" title
       || Py.contains "broken" title
    then labels ++ ["bug"] else labels in
  let labels :=
    if Py.contains "feature" title || Py.contains "enhancement" title
    then labels ++ ["enhancement"] else labels in
  let labels :=
    if Py.contains "question" title || Py.contains "?" title
    then labels ++ ["question"] else labels in
  let labels :=
    if Py.contains "help" title || Py.contains "support" title
    then labels ++ ["help wanted"] else labels in
  let labels :=
    if Py.contains "urgent" title || Py.contains "critical" title
    then labels ++ ["priority: high"] else labels in
  if Py.nonempty labels
  then send (PostLabels repo (issue_number issue) labels)
  else ret tt.

(** The branch of the verbs that start with [/assign]. *)
Definition assign_command (repo : string) (issue_number : Z)
    (comment : string) : M unit :=
  if Py.contains "@" comment
  then (after <- index (Py.split_on "@" comment) 1 ;;
        assignee <- index (Py.split after) 0 ;;
        send (PostAssignees repo issue_number [assignee]) ;;
        send (PostComment repo issue_number (BAssigned assignee)))
  else ret tt.

(** The branch of the verbs that start with [/label]. *)
Definition label_command (repo : string) (issue_number : Z)
    (comment : string) : M unit :=
  after <- index (Py.split_on "/label " comment) 1 ;;
  let label := Py.strip after in
  send (PostLabels repo issue_number [label]) ;;
  send (PostComment repo issue_number (BLabelAdded label)).

(** The number of entries of the lists [jokes] and [quotes]. *)
Definition jokes_count : nat := 4.
Definition quotes_count : nat := 4.

(** [random.choice] over a list of [n] entries: the chosen position. *)
Definition random_choice (n : nat) : M nat :=
  pick <- ask random_index ;; ret (pick n mod n)%nat.

(** Command processing. *)
Definition run_command (repo : string) (issue_number : Z)
    (commenter comment : string) : M unit :=
  if Py.startswith comment "/"
  then (cmd <- index (Py.split (Py.lower comment)) 0 ;;
        if String.eqb cmd "/help"
        then send (PostComment repo issue_number BHelp)
        else if Py.startswith cmd "/assign"
        then assign_command repo issue_number comment
        else if Py.startswith cmd "/label"
        then label_command repo issue_number comment
        else if String.eqb cmd "/close"
        then (send (PatchState repo issue_number "closed") ;;
              send (PostComment repo issue_number (BClosedBy commenter)))
        else if String.eqb cmd "/changelog"
        then (changelog <- generate_changelog repo ;;
              send (PostComment repo issue_number changelog))
        else if String.eqb cmd "/joke"
        then (i <- random_choice jokes_count ;;
              send (PostComment repo issue_number (BJoke i)))
        else if String.eqb cmd "/motivate"
        then (i <- random_choice quotes_count ;;
              send (PostComment repo issue_number (BQuote i)))
        else ret tt)
  else ret tt.

(** The route [/webhook]; the result is the status of the response. *)
Definition webhook (d : Delivery) : M Z :=
  let event := event d in
  let payload := payload d in
  (if is_event event "pull_request"
   then (action <- item (action payload) ;;
         repo <- item (repository_full_name payload) ;;
         pr <- item (pull_request payload) ;;
         let pr_number := pr_number pr in
         let author := pr_user_login pr in
         if String.eqb action "opened"
         then pr_opened repo pr_number author
         else if String.eqb action "closed"
                 && match pr_merged pr with Some b => b | None => false end
         then (* Thank contributor *)
              send (PostComment repo pr_number (BThanks author))
         else ret tt)
   else if is_event event "issues"
   then (action <- item (action payload) ;;
         if String.eqb action "opened" then issue_opened payload else ret tt)
   else
     (created <- and_then (is_event event "issue_comment")
                   (action <- item (action payload) ;;
                    ret (String.eqb action "created")) ;;
      if (created : bool)
      then (c <- item (comment payload) ;;
            let comment := Py.strip (comment_body c) in
            repo <- item (repository_full_name payload) ;;
            issue <- item (issue payload) ;;
            let issue_number := issue_number issue in
            let commenter := comment_user_login c in
            (* Command processing *)
            run_command repo issue_number commenter comment)
      else ret tt)) ;;
  ret 200.

End Bot.

(* ===================================================================== *)
(** * github_app.py *)
(* ===================================================================== *)

(** Every call of this file's [github_api] first fetches an installation
    token; that request belongs to the platform client and a failure of
    it is a failure of the call. *)
Module GithubApp.

Definition lookup (key : string) (table : list (string * string))
  : option string :=
  match find (fun kv => String.eqb (fst kv) key) table with
  | Some kv => Some (snd kv)
  | None => None
  end.

Definition auto_label_pr (repo : string) (pr_number : Z)
    (files : list FileChange) : M unit :=
  let labels := [] in
  let lines_changed := Utils.sum_changes files in
  (* Language and content detection *)
  let labels :=
    fold_left
      (fun labels file =>
         let filename := Py.lower (filename file) in
         let ext := Utils.extension filename in
         let labels :=
           match lookup ext Config.LANGUAGE_LABELS with
           | Some label => Py.set_add label labels
           | None => labels
           end in
         fold_left
           (fun labels '(label, extensions) =>
              if existsb (fun e => Py.endswith filename e
                                   || Py.contains e filename) extensions
              then Py.set_add label labels
              else labels)
           Config.CONTENT_LABELS labels)
      files labels in
  (* Size labels *)
  let labels :=
    if lines_changed >? 500 then Py.set_add "size/large" labels
    else if lines_changed >? 100 then Py.set_add "size/medium" labels
    else Py.set_add "size/small" labels in
  if Py.nonempty labels
  then (order <- ask set_order ;;
        send (PostLabels repo pr_number (order labels)))
  else ret tt.

Definition security_scan_and_comment (repo : string) (pr_number : Z)
    (files : list FileChange) : M unit :=
  let vulnerabilities := Utils.scan_for_vulnerabilities files in
  if Py.nonempty vulnerabilities
  then send (PostComment repo pr_number (BSecurityReport vulnerabilities))
  else ret tt.

(** [ai_code_review]: the request and the comment are inside one
    [try], whatever fails there is dropped. *)
Definition ai_code_review (files : list FileChange) (repo : string)
    (pr_number : Z) : M unit :=
  key <- ask OPENAI_KEY ;;
  if negb key || (Z.of_nat (List.length files) >? 5)
  then ret tt
  else
    let diff_text :=
      String.concat (String "010" EmptyString)
        (map (fun f => Py.take 1000 (Utils.patch_text f)) (firstn 3 files)) in
    try_pass
      (suggester <- ask suggest ;;
       match suggester diff_text with
       | Some review =>
           send (PostComment repo pr_number (BAIReview review))
       | None => raise ApiError
       end).

(** The handler sequence of [pull_request] / [opened]. *)
Definition pr_opened (repo : string) (pr : PullRequest) : M unit :=
  let pr_number := pr_number pr in
  let author := pr_user_login pr in
  files <- get (GetPullFiles repo pr_number)
               (fun w k => pull_files w k repo pr_number) ;;
  (* All automations *)
  auto_label_pr repo pr_number files ;;
  security_scan_and_comment repo pr_number files ;;
  (* Welcome new contributors *)
  prs <- get (GetAuthorPulls repo author)
             (fun w k => author_pulls w k repo author) ;;
  (if (prs =? 1)%nat
   then send (PostComment repo pr_number (BWelcomeApp author))
   else ret tt) ;;
  (* AI review for small PRs *)
  ai_code_review files repo pr_number ;;
  (* PR summary *)
  let summary := Utils.generate_pr_summary files (pr_title pr) in
  send (PostComment repo pr_number (BSummary summary)).

(** The handler of [issues] / [opened]. *)
Definition issue_opened (p : Payload) : M unit :=
  issue <- item (issue p) ;;
  repo <- item (repository_full_name p) ;;
  let title := Py.lower (issue_title issue) in
  (* Auto-label issues *)
  let labels := [] in
  let labels :=
    if existsb (fun word => Py.contains word title)
         ["bug"; "error"; "broken"; "crash"]
    then labels ++ ["bug"] else labels in
  let labels :=
    if existsb (fun word => Py.contains word title)
         ["feature"; "enhancement"; "add"]
    then labels ++ ["enhancement"] else labels in
  let labels :=
    if existsb (fun word => Py.contains word title)
         ["question"; "?"; "how"]
    then labels ++ ["question"] else labels in
  let labels :=
    if existsb (fun word => Py.contains word title)
         ["urgent"; "critical"; "important"]
    then labels ++ ["priority: high"] else labels in
  if Py.nonempty labels
  then send (PostLabels repo (issue_number issue) labels)
  else ret tt.

(** The branch of the verbs that start with [/assign], entered when the
    comment has an [@]. *)
Definition assign_command (repo : string) (issue_number : Z)
    (comment : string) : M unit :=
  after <- index (Py.split_on "@" comment) 1 ;;
  assignee <- index (Py.split after) 0 ;;
  send (PostAssignees repo issue_number [assignee]).

(** The branch of the verbs that start with [/label]. *)
Definition label_command (repo : string) (issue_number : Z)
    (comment : string) : M unit :=
  after <- index (Py.split_on "/label " comment) 1 ;;
  let label := Py.strip after in
  send (PostLabels repo issue_number [label]).

Definition random_choice (n : nat) : M nat :=
  pick <- ask random_index ;; ret (pick n mod n)%nat.

Definition run_command (repo : string) (issue_number : Z) (comment : string)
  : M unit :=
  if Py.startswith comment "/"
  then (cmd <- index (Py.split (Py.lower comment)) 0 ;;
        if String.eqb cmd "/help"
        then send (PostComment repo issue_number BHelp)
        else if Py.startswith cmd "/assign" && Py.contains "@" comment
        then assign_command repo issue_number comment
        else if Py.startswith cmd "/label"
        then label_command repo issue_number comment
        else if String.eqb cmd "/close"
        then send (PatchState repo issue_number "closed")
        else if String.eqb cmd "/changelog"
        then (prs <- get (GetClosedPulls repo 10)
                         (fun w k => closed_pulls w k repo 10) ;;
              let changelog :=
                BChangelog
                  (map (fun pr => (cp_title pr, cp_number pr, cp_user_login pr))
                     (filter (fun pr => Py.truthy (cp_merged_at pr))
                        (firstn 5 prs))) in
              send (PostComment repo issue_number changelog))
        else if String.eqb cmd "/joke"
        then (i <- random_choice Config.JOKES_count ;;
              send (PostComment repo issue_number (BJoke i)))
        else if String.eqb cmd "/motivate"
        then (i <- random_choice Config.MOTIVATIONAL_QUOTES_count ;;
              send (PostComment repo issue_number (BQuote i)))
        else ret tt)
  else ret tt.

(** [not installation_id] *)
Definition no_installation (p : Payload) : bool :=
  match installation_id p with
  | Some id => id =? 0
  | None => true
  end.

(** The route [/webhook]; the result is the status of the response. *)
Definition webhook (d : Delivery) : M Z :=
  let event := event d in
  let payload := payload d in
  if no_installation payload then ret 400
  else
    (if is_event event "pull_request"
     then (action <- item (action payload) ;;
           repo <- item (repository_full_name payload) ;;
           pr <- item (pull_request payload) ;;
           let pr_number := pr_number pr in
           let author := pr_user_login pr in
           if String.eqb action "opened"
           then pr_opened repo pr
           else if String.eqb action "closed"
                   && match pr_merged pr with Some b => b | None => false end
           then send (PostComment repo pr_number (BThanks author))
           else ret tt)
     else
       (opened <- and_then (is_event event "issues")
                    (action <- item (action payload) ;;
                     ret (String.eqb action "opened")) ;;
        if (opened : bool)
        then issue_opened payload
        else
          (created <- and_then (is_event event "issue_comment")
                        (action <- item (action payload) ;;
                         ret (String.eqb action "created")) ;;
           if (created : bool)
           then (c <- item (comment payload) ;;
                 let comment := Py.strip (comment_body c) in
                 repo <- item (repository_full_name payload) ;;
                 issue <- item (issue payload) ;;
                 let issue_number := issue_number issue in
                 run_command repo issue_number comment)
           else ret tt))) ;;
    ret 200.

End GithubApp.

(* ===================================================================== *)
(** * The specification's wording of the analyzers, and sample inputs *)
(* ===================================================================== *)

Module Spec.
Import Re.

(** The lines changed over all files. *)
Fixpoint total_changes (files : list FileChange) : Z :=
  match files with
  | [] => 0
  | f :: files' => Utils.get_changes f + total_changes files'
  end.

(** The complexity score as the specification words it. *)
Definition lines_bucket (t : Z) : Z :=
  if 500 <? t then 3 else if 200 <? t then 2 else if 50 <? t then 1 else 0.

Definition files_bucket (n : Z) : Z :=
  if 10 <? n then 2 else if 5 <? n then 1 else 0.

Definition tier (s : Z) : RiskLevel :=
  if 4 <=? s then high else if 2 <=? s then medium else low.

(** A file qualifies as breaking when it has patch text and any pattern
    is found in it. *)
Definition is_breaking (f : FileChange) : bool :=
  Py.truthy (patch f)
  && existsb (fun p => search false p (Utils.patch_text f))
       Utils.breaking_patterns.

(** The (file, category, pattern) triples, files in input order, then
    categories and patterns in catalog order. *)
Definition triples (files : list FileChange)
  : list (FileChange * string * pattern) :=
  flat_map
    (fun f =>
       flat_map (fun cp => map (fun p => (f, fst cp, p)) (snd cp))
         Config.SECURITY_PATTERNS)
    files.

(** A triple yields a finding when the file has patch text and the
    pattern is found in the lower-cased patch. *)
Definition triple_matches (t : FileChange * string * pattern) : bool :=
  let '(f, _, p) := t in
  Py.truthy (patch f) && search true p (Py.lower (Utils.patch_text f)).

Definition severity_of (category : string) : string :=
  if String.eqb category "hardcoded_secrets" then "high" else "medium".

Definition finding_of (t : FileChange * string * pattern) : Finding :=
  let '(f, category, _) := t in
  {| ftype := category; ffile := filename f;
     severity := severity_of category |}.

Definition findings (files : list FileChange) : list Finding :=
  map finding_of (filter triple_matches (triples files)).

(** The findings of one file. *)
Definition file_findings (f : FileChange) : list Finding :=
  map finding_of (filter triple_matches (triples [f])).

(** ** Events *)

Definition present {A : Type} (o : option A) : bool :=
  match o with
  | Some _ => true
  | None => false
  end.

(** A well-formed inbound event names its type and carries the action,
    the repository and the object of its type. *)
Definition well_formed (d : Delivery) : bool :=
  match event d with
  | Some e =>
      present (action (payload d))
      && present (repository_full_name (payload d))
      && (if String.eqb e "pull_request"
          then present (pull_request (payload d)) else true)
      && (if String.eqb e "issues"
          then present (issue (payload d)) else true)
      && (if String.eqb e "issue_comment"
          then present (issue (payload d)) && present (comment (payload d))
          else true)
  | None => false
  end.

(** The rows of the routing table. *)
Definition routing_table : list (string * string) :=
  [ ("pull_request", "opened"); ("pull_request", "closed");
    ("issues", "opened"); ("issue_comment", "created") ].

Definition routed (d : Delivery) : bool :=
  match event d, action (payload d) with
  | Some e, Some a =>
      existsb (fun row => String.eqb e (fst row) && String.eqb a (snd row))
        routing_table
  | _, _ => false
  end.

(** [d] is an [issue_comment] / [created] event on issue [number] of
    [repo], whose comment, by [commenter], has the stripped body [text]. *)
Definition is_command (d : Delivery) (repo : string) (number : Z)
    (commenter text : string) : Prop :=
  event d = Some "issue_comment" /\
  action (payload d) = Some "created" /\
  repository_full_name (payload d) = Some repo /\
  (exists i, issue (payload d) = Some i /\ issue_number i = number) /\
  (exists c, comment (payload d) = Some c /\
             comment_user_login c = commenter /\
             Py.strip (comment_body c) = text).

(** [d] is an [issues] / [opened] event for issue [i] of [repo]. *)
Definition is_issue_opened (d : Delivery) (repo : string) (i : Issue) : Prop :=
  event d = Some "issues" /\
  action (payload d) = Some "opened" /\
  repository_full_name (payload d) = Some repo /\
  issue (payload d) = Some i.

(** ** Issue labels *)

(** A keyword scan: every rule one of whose keywords occurs in the
    title adds its label, in the order of the rules. *)
Definition keyword_scan (rules : list (list string * string))
    (title : string) : list string :=
  map snd
    (filter (fun rule => existsb (fun word => Py.contains word title)
                           (fst rule))
       rules).

(** The rules of [bot.py] and of [github_app.py]. *)
Definition bot_issue_rules : list (list string * string) :=
  [ (["bug"; "error"; "broken"], "bug");
    (["feature"; "enhancement"], "enhancement");
    (["question"; "?"], "question");
    (["help"; "support"], "help wanted");
    (["urgent"; "critical"], "priority: high") ].

Definition app_issue_rules : list (list string * string) :=
  [ (["bug"; "error"; "broken"; "crash"], "bug");
    (["feature"; "enhancement"; "add"], "enhancement");
    (["question"; "?"; "how"], "question");
    (["urgent"; "critical"; "important"], "priority: high") ].

(** What both handlers do with the labels found. *)
Definition label_issue (repo : string) (i : Issue) (labels : list string)
  : M unit :=
  if Py.nonempty labels then send (PostLabels repo (issue_number i) labels)
  else ret tt.

(** ** Reviewers *)

(** The iteration order of a set is some order of its members. *)
Definition set_order_ok (w : World) : Prop :=
  forall l, Permutation (set_order w l) l.

(** The specification's wording of the reviewer list: the authors of the
    first three commits of each file, the pull request's author left
    out, in the order first encountered, cut at three. *)
Definition candidates (history : list Commit) (author : string)
  : list string :=
  flat_map
    (fun c => match commit_author c with
              | Some login => if String.eqb login author then [] else [login]
              | None => []
              end)
    (firstn 3 history).

Fixpoint first_occurrences (seen l : list string) : list string :=
  match l with
  | [] => []
  | x :: l' =>
      if existsb (String.eqb x) seen then first_occurrences seen l'
      else x :: first_occurrences (x :: seen) l'
  end.

Definition first_encountered (histories : list (list Commit))
    (author : string) : list string :=
  firstn 3
    (first_occurrences [] (flat_map (fun h => candidates h author) histories)).

(** The set of candidates in the order of insertion: every author of
    one of the first three commits of a history, the author of the pull
    request left out, once. *)
Definition candidate_set (histories : list (list Commit)) (author : string)
  : list string :=
  first_occurrences [] (flat_map (fun h => candidates h author) histories).

(** The commit histories that the platform returned to the calls of the
    trace [tr], whose first call is the [k]-th of the run. *)
Fixpoint histories_read (w : World) (k : nat) (tr : list Request)
  : list (list Commit) :=
  match tr with
  | [] => []
  | GetCommits repo path _ :: tr' =>
      match commits w k repo path with
      | Some history => history :: histories_read w (S k) tr'
      | None => histories_read w (S k) tr'
      end
  | _ :: tr' => histories_read w (S k) tr'
  end.

(** Where a candidate comes from: a commit among the first three that
    the platform returned for a changed file. *)
Definition from_history (w : World) (repo : string) (files : list FileChange)
    (author x : string) : Prop :=
  x <> author /\
  exists file k history,
    In file files /\
    commits w k repo (filename file) = Some history /\
    In (Some x) (map commit_author (firstn 3 history)).

(** ** Commands *)

(** The login the assign branch reads: the first whitespace-delimited
    token of the text between the first [@] and the next one. *)
Definition mention (text : string) : option string :=
  match Py.split_on "@" text with
  | _ :: after :: _ => hd_error (Py.split after)
  | _ => None
  end.

(** The specification's wording of the login: the characters that
    follow the first [@], up to the next whitespace. *)
Fixpoint after_first (a : ascii) (s : string) : option string :=
  match s with
  | EmptyString => None
  | String c s' => if Ascii.eqb c a then Some s' else after_first a s'
  end.

Fixpoint until_space (s : string) : string :=
  match s with
  | EmptyString => EmptyString
  | String c s' =>
      if Py.isspace c then EmptyString else String c (until_space s')
  end.

Definition token_after_at (text : string) : option string :=
  option_map until_space (after_first "@" text).

(** ** Commands and calls *)

(** The verbs the interpreter acts on: five by exact match, two by
    prefix. *)
Definition recognised (cmd : string) : bool :=
  existsb (String.eqb cmd)
    ["/help"; "/close"; "/changelog"; "/joke"; "/motivate"]
  || Py.startswith cmd "/assign" || Py.startswith cmd "/label".


(** A platform on which every [POST] and [PATCH] fails: the call of
    [github_api] raises. *)
Definition rejects_all (w : World) : Prop :=
  forall k r, accepts_mutation w k r = false.

(** The number of [POST] and [PATCH] calls of a trace. *)
Definition mutations (tr : list Request) : nat :=
  List.length (filter is_mutation tr).

(** A handler that is left at the first mutation the platform rejects:
    it returns only when it attempted none, and it attempts one at
    most. *)
Definition stops_at_rejection {A : Type} (w : World) (m : M A) : Prop :=
  forall tr,
    (forall a, fst (m w tr) = Ok a -> mutations (snd (m w tr)) = mutations tr) /\
    (mutations (snd (m w tr)) <= mutations tr + 1)%nat.

(** ** Labels of a pull request *)

(** The size label of each file: above 500 lines, above 100, or less. *)
Definition bot_size_label (files : list FileChange) : string :=
  if Utils.sum_changes files >? 500 then "large"
  else if Utils.sum_changes files >? 100 then "medium"
  else "small".

Definition app_size_label (files : list FileChange) : string :=
  if Utils.sum_changes files >? 500 then "size/large"
  else if Utils.sum_changes files >? 100 then "size/medium"
  else "size/small".

Definition bot_sizes : list string := ["large"; "medium"; "small"].

Definition app_sizes : list string :=
  ["size/large"; "size/medium"; "size/small"].

(** The labels [github_app.py] gives one file: the language of its
    extension, and every content label one of whose matchers occurs in
    the lower-cased name. *)
Definition app_file_labels (f : FileChange) : list string :=
  let name := Py.lower (filename f) in
  match GithubApp.lookup (Utils.extension name) Config.LANGUAGE_LABELS with
  | Some label => [label]
  | None => []
  end
  ++ map fst
       (filter (fun rule => existsb (fun e => Py.contains e name) (snd rule))
          Config.CONTENT_LABELS).

(** The file that an issue of [security_scan_pr] names. *)
Definition issue_file (issue : SecurityIssue) : string :=
  match issue with
  | PotentialPassword file | PotentialSecret file
  | DangerousEval file | SqlRisk file => file
  end.

(** What a loop over the files keeps true of the label set [l] that
    grew from [base]: it stays free of duplicates, gains none of the
    size labels, and gains [n] labels at most. *)
Definition grown_from (sizes base : list string) (n : nat)
    (l : list string) : Prop :=
  (NoDup base -> NoDup l) /\
  (forall s, In s sizes -> In s l -> In s base) /\
  (List.length l <= List.length base + n)%nat.

(** ** The other analyzers *)

(** Every character of [s] is of the class [\w]. *)
Fixpoint all_word (s : string) : bool :=
  match s with
  | EmptyString => true
  | String c s' => isword c && all_word s'
  end.

(** A contributor entry that has its three keys, and its statistics. *)
Definition complete (c : Utils.Contributor) : bool :=
  present (Utils.c_login c) && present (Utils.c_contributions c)
  && present (Utils.c_avatar_url c).

Definition stat_of (c : Utils.Contributor) : Utils.ContributorStat :=
  {| Utils.st_login :=
       match Utils.c_login c with Some l => l | None => EmptyString end;
     Utils.st_contributions :=
       match Utils.c_contributions c with Some n => n | None => 0 end;
     Utils.st_avatar :=
       match Utils.c_avatar_url c with Some a => a | None => EmptyString end |}.

(** The three categories of the security catalog. *)
Definition security_categories : list string :=
  ["hardcoded_secrets"; "dangerous_functions"; "sql_injection"].

End Spec.

Module Samples.

Definition six_files : list FileChange :=
  mkFile "a.py" (Some 501) None
  :: repeat (mkFile "b.py" None None) 5.

(** Three changed files: an import, no patch, a decorator. *)
Definition three_files : list FileChange :=
  [ mkFile "app.py" (Some 3) (Some "+import os");
    mkFile "logo.png" (Some 0) None;
    mkFile "views.py" (Some 9) (Some "+@login_required") ].

(** A platform that accepts every call and has nothing to report; sets
    are iterated in insertion order. *)
Definition quiet_world : World :=
  {| pull_files := fun _ _ _ => Some [];
     contents := fun _ _ _ => Some false;
     commits := fun _ _ _ => Some [];
     author_pulls := fun _ _ _ => Some 0%nat;
     repo_name := fun _ _ => Some None;
     closed_pulls := fun _ _ _ => Some [];
     accepts_mutation := fun _ _ => true;
     set_order := fun l => l;
     random_index := fun _ => 0%nat;
     OPENAI_KEY := false;
     suggest := fun _ => None |}.

(** A comment with the given body on issue 7 of [octo/repo]. *)
Definition comment_delivery (body : string) : Delivery :=
  {| event := Some "issue_comment";
     payload :=
       {| action := Some "created";
          repository_full_name := Some "octo/repo";
          pull_request := None;
          issue := Some (mkIssue 7 "Login fails" None);
          comment := Some (mkComment body "dana");
          installation_id := Some 42 |} |}.

(** An opened issue, number 12 of [octo/repo]. *)
Definition issue_delivery (title : string) (body : option string) : Delivery :=
  {| event := Some "issues";
     payload :=
       {| action := Some "opened";
          repository_full_name := Some "octo/repo";
          pull_request := None;
          issue := Some (mkIssue 12 title body);
          comment := None;
          installation_id := Some 42 |} |}.

(** A platform on which every path exists and was last changed by
    alice, then bob; sets are iterated in the reverse of the insertion
    order. *)
Definition reversing_world : World :=
  {| pull_files := fun _ _ _ => Some [];
     contents := fun _ _ _ => Some true;
     commits := fun _ _ _ =>
       Some [mkCommit (Some "alice"); mkCommit (Some "bob")];
     author_pulls := fun _ _ _ => Some 0%nat;
     repo_name := fun _ _ => Some None;
     closed_pulls := fun _ _ _ => Some [];
     accepts_mutation := fun _ _ => true;
     set_order := @rev string;
     random_index := fun _ => 0%nat;
     OPENAI_KEY := false;
     suggest := fun _ => None |}.

(** A push event, which no row of the routing table names. *)
Definition push_delivery : Delivery :=
  {| event := Some "push";
     payload :=
       {| action := Some "created";
          repository_full_name := Some "octo/repo";
          pull_request := None;
          issue := None;
          comment := None;
          installation_id := Some 42 |} |}.

(** A delivery of the given type whose payload has no key but the
    installation. *)
Definition bare_delivery (e : option string) : Delivery :=
  {| event := e;
     payload :=
       {| action := None;
          repository_full_name := None;
          pull_request := None;
          issue := None;
          comment := None;
          installation_id := Some 42 |} |}.

(** A closed pull request, number 3 of [octo/repo], by erin. *)
Definition closed_delivery (merged : option bool) : Delivery :=
  {| event := Some "pull_request";
     payload :=
       {| action := Some "closed";
          repository_full_name := Some "octo/repo";
          pull_request := Some (mkPullRequest 3 "erin" merged "Fix login");
          issue := None;
          comment := None;
          installation_id := Some 42 |} |}.

(** A platform that answers every read like [quiet_world] and rejects
    every mutation. *)
Definition rejecting_world : World :=
  {| pull_files := fun _ _ _ => Some [mkFile "a.py" (Some 4) None];
     contents := fun _ _ _ => Some false;
     commits := fun _ _ _ => Some [];
     author_pulls := fun _ _ _ => Some 0%nat;
     repo_name := fun _ _ => Some None;
     closed_pulls := fun _ _ _ => Some [];
     accepts_mutation := fun _ _ => false;
     set_order := fun l => l;
     random_index := fun _ => 0%nat;
     OPENAI_KEY := true;
     suggest := fun _ => Some "Looks fine." |}.

End Samples.

(* ===================================================================== *)
(** * Properties of the complexity signal *)
(* ===================================================================== *)

Module ComplexityFacts.
Import Utils Spec Samples.

Lemma sum_changes_from (files : list FileChange) (a : Z) :
  fold_left (fun acc f => acc + get_changes f) files a
  = a + sum_changes files.
Proof.
  unfold sum_changes. revert a.
  induction files as [|f files IH]; intros a; simpl.
  - lia.
  - rewrite IH. rewrite (IH (get_changes f)). lia.
Qed.

Lemma sum_changes_cons f files :
  sum_changes (f :: files) = get_changes f + sum_changes files.
Proof. unfold sum_changes at 1. simpl. apply sum_changes_from. Qed.

Lemma sum_changes_total files : sum_changes files = total_changes files.
Proof.
  induction files as [|f files IH]; [reflexivity|].
  rewrite sum_changes_cons, IH. reflexivity.
Qed.

Ltac split_tests :=
  repeat match goal with
    | |- context [?a >? ?b] => rewrite (Z.gtb_ltb a b)
    | |- context [?a >=? ?b] => rewrite (Z.geb_leb a b)
    | |- context [?a <? ?b] => destruct (Z.ltb_spec a b)
    | |- context [?a <=? ?b] => destruct (Z.leb_spec a b)
    end.

Lemma score_formula files :
  score (analyze_code_complexity files)
  = lines_bucket (sum_changes files)
    + files_bucket (Z.of_nat (List.length files)).
Proof.
  unfold analyze_code_complexity, lines_bucket, files_bucket; simpl.
  split_tests; lia.
Qed.

Lemma risk_formula files :
  risk_level (analyze_code_complexity files)
  = tier (score (analyze_code_complexity files)).
Proof.
  unfold analyze_code_complexity, tier; simpl.
  rewrite !Z.geb_leb. reflexivity.
Qed.

(** C1: the score is the lines bucket (3 above 500, 2 above 200, 1 above
    50) plus the files bucket (2 above 10, 1 above 5), the risk level is
    high from 4, medium from 2 and low below; 501 lines in at most 5 files
    score 3 (medium), 501 lines in 6 files score 4 (high). *)
Theorem complexity_score_and_risk (files : list FileChange) :
  let r := analyze_code_complexity files in
  total_lines r = total_changes files /\
  file_count r = Z.of_nat (List.length files) /\
  score r = lines_bucket (total_lines r) + files_bucket (file_count r) /\
  risk_level r = tier (score r) /\
  (total_lines r = 501 -> file_count r <= 5 ->
   score r = 3 /\ risk_level r = medium) /\
  (total_lines r = 501 -> file_count r = 6 ->
   score r = 4 /\ risk_level r = high).
Proof.
  intros r.
  assert (Hs : score r = lines_bucket (total_lines r)
                         + files_bucket (file_count r))
    by apply score_formula.
  assert (Hr : risk_level r = tier (score r)) by apply risk_formula.
  split; [apply sum_changes_total|]. split; [reflexivity|].
  split; [exact Hs|]. split; [exact Hr|]. split.
  - intros Ht Hc. rewrite Hr, Hs, Ht.
    assert (Hf : files_bucket (file_count r) = 0)
      by (unfold files_bucket; split_tests; lia).
    rewrite Hf. split; reflexivity.
  - intros Ht Hc. rewrite Hr, Hs, Ht, Hc. split; reflexivity.
Qed.

Lemma complexity_score_and_risk_witness :
  let r := analyze_code_complexity six_files in
  total_lines r = 501 /\ file_count r = 6 /\
  score r = 4 /\ risk_level r = high.
Proof.
  intros r.
  assert (Ht : total_lines r = 501) by reflexivity.
  assert (Hc : file_count r = 6) by reflexivity.
  split; [exact Ht|]. split; [exact Hc|].
  exact (proj2 (proj2 (proj2 (proj2 (proj2
    (complexity_score_and_risk six_files))))) Ht Hc).
Defined.

(** C9: a high risk level needs more than 200 lines and more than 5
    files, and the score never exceeds 5. *)
Theorem high_risk_needs_lines_and_files (files : list FileChange) :
  let r := analyze_code_complexity files in
  (risk_level r = high -> total_lines r > 200 /\ file_count r > 5) /\
  score r <= 5.
Proof.
  intros r. subst r.
  unfold analyze_code_complexity; simpl.
  split_tests; split; try lia; intros Hhigh; try discriminate Hhigh; lia.
Qed.

Lemma high_risk_needs_lines_and_files_witness :
  let r := analyze_code_complexity six_files in
  risk_level r = high /\ total_lines r > 200 /\ file_count r > 5.
Proof.
  intros r.
  assert (H : risk_level r = high) by reflexivity.
  split; [exact H|].
  exact (proj1 (high_risk_needs_lines_and_files six_files) H).
Defined.

End ComplexityFacts.

(* ===================================================================== *)
(** * Properties of the pattern scans *)
(* ===================================================================== *)

Module AnalyzerFacts.
Import Re Utils Spec Samples.

(** The inner loop appends the name once, when some pattern is found. *)
Lemma breaking_scan_spec patterns file acc :
  breaking_scan patterns file acc
  = if existsb (fun p => search false p (patch_text file)) patterns
    then acc ++ [filename file] else acc.
Proof.
  induction patterns as [|p ps IH]; simpl.
  - reflexivity.
  - destruct (search false p (patch_text file)); simpl; [reflexivity|exact IH].
Qed.

Lemma detect_breaking_from files acc :
  fold_left
    (fun breaking_files file =>
       if Py.truthy (patch file)
       then breaking_scan breaking_patterns file breaking_files
       else breaking_files)
    files acc
  = acc ++ map filename (filter is_breaking files).
Proof.
  revert acc. induction files as [|f files IH]; intros acc.
  - simpl. now rewrite app_nil_r.
  - cbn [fold_left filter]. rewrite IH, breaking_scan_spec.
    unfold is_breaking.
    destruct (Py.truthy (patch f)); cbn [andb]; [|reflexivity].
    destruct (existsb _ breaking_patterns); cbn [map]; [|reflexivity].
    now rewrite <- app_assoc.
Qed.

Lemma NoDup_map_filter {A B : Type} (g : A -> B) (keep : A -> bool) l :
  NoDup (map g l) -> NoDup (map g (filter keep l)).
Proof.
  induction l as [|x l IH]; simpl; intros H.
  - constructor.
  - inversion H as [|y ys Hnotin Hnodup]; subst.
    destruct (keep x); simpl; [constructor|]; auto.
    intros Hin. apply Hnotin.
    apply in_map_iff in Hin. destruct Hin as [z [Hz Hin]].
    apply filter_In in Hin. apply in_map_iff. exists z. tauto.
Qed.

(** C7: the result is the paths of the files that have patch text in
    which a breaking pattern is found, each such file once, in the order
    of the input. *)
Theorem detect_breaking_changes_spec (files : list FileChange) :
  detect_breaking_changes files = map filename (filter is_breaking files) /\
  (forall path,
     In path (detect_breaking_changes files) <->
     exists f, In f files /\ filename f = path /\
               Py.truthy (patch f) = true /\
               exists p, In p breaking_patterns /\
                         search false p (patch_text f) = true) /\
  (NoDup (map filename files) -> NoDup (detect_breaking_changes files)).
Proof.
  assert (E : detect_breaking_changes files
              = map filename (filter is_breaking files))
    by (unfold detect_breaking_changes; now rewrite detect_breaking_from).
  split; [exact E|]. split.
  - intros path. rewrite E, in_map_iff. split.
    + intros [f [Hname Hin]]. apply filter_In in Hin.
      destruct Hin as [Hin Hb]. unfold is_breaking in Hb.
      apply andb_true_iff in Hb. destruct Hb as [Ht Hex].
      apply existsb_exists in Hex. exists f. auto.
    + intros [f [Hin [Hname [Ht Hex]]]]. exists f. split; [exact Hname|].
      apply filter_In. split; [exact Hin|]. unfold is_breaking.
      rewrite Ht. cbn [andb]. apply existsb_exists. exact Hex.
  - intros Hnd. rewrite E. now apply NoDup_map_filter.
Qed.

Lemma detect_breaking_changes_spec_witness :
  NoDup (map filename three_files) /\
  detect_breaking_changes three_files = ["app.py"; "views.py"] /\
  NoDup (detect_breaking_changes three_files).
Proof.
  assert (Hnd : NoDup (map filename three_files)).
  { simpl. repeat constructor; simpl; intuition discriminate. }
  split; [exact Hnd|]. split; [reflexivity|].
  exact (proj2 (proj2 (detect_breaking_changes_spec three_files)) Hnd).
Defined.

Lemma filter_flat_map {A B : Type} (keep : B -> bool) (g : A -> list B) l :
  filter keep (flat_map g l) = flat_map (fun x => filter keep (g x)) l.
Proof.
  induction l as [|x l IH]; simpl; [reflexivity|].
  now rewrite filter_app, IH.
Qed.

Lemma map_flat_map {A B C : Type} (h : B -> C) (g : A -> list B) l :
  map h (flat_map g l) = flat_map (fun x => map h (g x)) l.
Proof.
  induction l as [|x l IH]; simpl; [reflexivity|].
  now rewrite map_app, IH.
Qed.

Lemma filter_map_comm {A B : Type} (keep : B -> bool) (g : A -> B) l :
  filter keep (map g l) = map g (filter (fun x => keep (g x)) l).
Proof.
  induction l as [|x l IH]; simpl; [reflexivity|].
  destruct (keep (g x)); simpl; now rewrite IH.
Qed.

(** The loop over the patterns of one category appends one finding per
    pattern found, in the order of the patterns. *)
Lemma scan_patterns_spec category name text patterns acc :
  scan_patterns category name text patterns acc
  = acc ++ map (fun _ => {| ftype := category; ffile := name;
                            severity := severity_of category |})
             (filter (fun p => search true p text) patterns).
Proof.
  unfold scan_patterns. revert acc.
  induction patterns as [|p ps IH]; intros acc; cbn [fold_left filter].
  - simpl. now rewrite app_nil_r.
  - rewrite IH. destruct (search true p text); cbn [map].
    + now rewrite <- app_assoc.
    + reflexivity.
Qed.

Lemma scan_categories_spec name text cats acc :
  fold_left
    (fun vulnerabilities '(category, patterns) =>
       scan_patterns category name text patterns vulnerabilities)
    cats acc
  = acc ++ flat_map
             (fun cp =>
                map (fun _ => {| ftype := fst cp; ffile := name;
                                 severity := severity_of (fst cp) |})
                  (filter (fun p => search true p text) (snd cp)))
             cats.
Proof.
  revert acc. induction cats as [|[category patterns] cats IH]; intros acc.
  - simpl. now rewrite app_nil_r.
  - cbn [fold_left flat_map fst snd]. rewrite IH, scan_patterns_spec.
    now rewrite <- app_assoc.
Qed.

Lemma file_findings_spec (f : FileChange) :
  file_findings f
  = if Py.truthy (patch f)
    then flat_map
           (fun cp =>
              map (fun _ => {| ftype := fst cp; ffile := filename f;
                               severity := severity_of (fst cp) |})
                (filter (fun p => search true p (Py.lower (patch_text f)))
                   (snd cp)))
           Config.SECURITY_PATTERNS
    else [].
Proof.
  unfold file_findings, triples. cbn [flat_map]. rewrite app_nil_r.
  generalize Config.SECURITY_PATTERNS as cats. intros cats.
  rewrite filter_flat_map, map_flat_map.
  destruct (Py.truthy (patch f)) eqn:Ht.
  - apply flat_map_ext. intros cp.
    rewrite filter_map_comm, map_map. cbn [triple_matches finding_of].
    rewrite Ht. cbn [andb]. reflexivity.
  - induction cats as [|cp cats IH]; cbn [flat_map]; [reflexivity|].
    rewrite IH, app_nil_r, filter_map_comm. cbn [triple_matches].
    rewrite Ht. cbn [andb].
    induction (snd cp) as [|q qs IHq]; simpl; [reflexivity|exact IHq].
Qed.

Lemma scan_from files acc :
  fold_left
    (fun vulnerabilities file =>
       if negb (Py.truthy (patch file)) then vulnerabilities
       else
         let patch_content := Py.lower (patch_text file) in
         let filename := filename file in
         fold_left
           (fun vulnerabilities '(category, patterns) =>
              scan_patterns category filename patch_content patterns
                vulnerabilities)
           Config.SECURITY_PATTERNS vulnerabilities)
    files acc
  = acc ++ flat_map file_findings files.
Proof.
  revert acc. induction files as [|f files IH]; intros acc.
  - simpl. now rewrite app_nil_r.
  - cbn [fold_left flat_map]. rewrite IH, file_findings_spec.
    destruct (Py.truthy (patch f)); cbn [negb].
    + cbv zeta. rewrite scan_categories_spec. now rewrite <- app_assoc.
    + reflexivity.
Qed.

Lemma findings_flat_map files :
  findings files = flat_map file_findings files.
Proof.
  unfold findings, file_findings, triples.
  rewrite filter_flat_map, map_flat_map.
  apply flat_map_ext. intros f. cbn [flat_map]. now rewrite app_nil_r.
Qed.

(** C5: the scan emits one finding per (file, category, pattern) triple
    whose file has patch text and whose pattern is found in the
    lower-cased patch, without deduplication, files in input order, then
    categories and patterns in catalog order; a finding is of severity
    high exactly when its category is hardcoded_secrets, and medium
    otherwise. *)
Theorem scan_for_vulnerabilities_spec (files : list FileChange) :
  scan_for_vulnerabilities files
  = map finding_of (filter triple_matches (triples files)) /\
  (forall v, In v (scan_for_vulnerabilities files) ->
     (severity v = "high" <-> ftype v = "hardcoded_secrets") /\
     (ftype v <> "hardcoded_secrets" -> severity v = "medium")).
Proof.
  assert (E : scan_for_vulnerabilities files = findings files).
  { unfold scan_for_vulnerabilities. rewrite scan_from, findings_flat_map.
    reflexivity. }
  split; [exact E|].
  intros v Hin. rewrite E in Hin. unfold findings in Hin.
  apply in_map_iff in Hin. destruct Hin as [[[f category] p] [Hv _]].
  subst v. cbn [finding_of severity ftype]. unfold severity_of.
  destruct (String.eqb_spec category "hardcoded_secrets") as [Heq|Hne].
  - split; [tauto|contradiction].
  - split; [split; [discriminate|contradiction]|reflexivity].
Qed.

Lemma scan_for_vulnerabilities_spec_witness :
  let v := {| ftype := "dangerous_functions"; ffile := "run.py";
              severity := "medium" |} in
  In v (scan_for_vulnerabilities [mkFile "run.py" None (Some "+EVAL (x)")]) /\
  ftype v <> "hardcoded_secrets" /\ severity v = "medium".
Proof.
  intros v.
  assert (Hin : In v (scan_for_vulnerabilities
                        [mkFile "run.py" None (Some "+EVAL (x)")]))
    by (vm_compute; left; reflexivity).
  assert (Hne : ftype v <> "hardcoded_secrets") by discriminate.
  split; [exact Hin|]. split; [exact Hne|].
  exact (proj2 (proj2 (scan_for_vulnerabilities_spec _) v Hin) Hne).
Defined.

End AnalyzerFacts.

(* ===================================================================== *)
(** * Properties of the event router *)
(* ===================================================================== *)

Module RouterFacts.
Import Spec Samples.
Local Open Scope handler_scope.

Lemma bind_ret {A B : Type} (a : A) (f : A -> M B) w tr :
  bind (ret a) f w tr = f a w tr.
Proof. reflexivity. Qed.

Lemma bind_item {A B : Type} (a : A) (f : A -> M B) w tr :
  bind (item (Some a)) f w tr = f a w tr.
Proof. reflexivity. Qed.

Lemma bind_assoc {A B C : Type} (m : M A) (f : A -> M B) (g : B -> M C) w tr :
  bind (bind m f) g w tr = bind m (fun a => bind (f a) g) w tr.
Proof. unfold bind. destruct (m w tr) as [[a|e] tr']; reflexivity. Qed.

(** Evaluates the comparisons of two literal texts. *)
Ltac eval_eqb :=
  repeat match goal with
    | |- context [String.eqb ?a ?b] =>
        let v := eval vm_compute in (String.eqb a b) in
        match v with
        | true => change (String.eqb a b) with true
        | false => change (String.eqb a b) with false
        end
    end.

Lemma bind_eq_run {A B : Type} (m m' : M A) (k : A -> M B) w tr :
  m w tr = m' w tr -> bind m k w tr = bind m' k w tr.
Proof. unfold bind. now intros ->. Qed.

(** A comment event reaches the command interpreter with the stripped
    body of the comment. *)
Lemma bot_webhook_command d repo number commenter text w tr :
  is_command d repo number commenter text ->
  Bot.webhook d w tr
  = (Bot.run_command repo number commenter text ;; ret 200) w tr.
Proof.
  intros [He [Ha [Hr [[i [Hi Hn]] [c [Hc [Hu Ht]]]]]]].
  unfold Bot.webhook. rewrite He, Ha, Hr, Hi, Hc. subst.
  reflexivity.
Qed.

Lemma app_webhook_command d repo number commenter text w tr :
  is_command d repo number commenter text ->
  GithubApp.no_installation (payload d) = false ->
  GithubApp.webhook d w tr
  = (GithubApp.run_command repo number text ;; ret 200) w tr.
Proof.
  intros [He [Ha [Hr [[i [Hi Hn]] [c [Hc [Hu Ht]]]]]]] Hinst.
  unfold GithubApp.webhook. rewrite Hinst, He, Ha, Hr, Hi, Hc. subst.
  reflexivity.
Qed.

(** C8: an event whose type and action are not a row of the routing
    table is answered with status 200, without any platform call. *)
Theorem unrouted_event_is_ignored (d : Delivery) (w : World) :
  well_formed d = true ->
  routed d = false ->
  Bot.webhook d w [] = (Ok 200, []) /\
  (GithubApp.no_installation (payload d) = false ->
   GithubApp.webhook d w [] = (Ok 200, [])).
Proof.
  destruct d as [[e|] [a r pr i c inst]]; [|discriminate].
  unfold well_formed, routed. cbn [event payload action repository_full_name
    pull_request issue comment fst snd installation_id routing_table existsb].
  destruct a as [a|]; [|discriminate].
  destruct r as [r|]; [|discriminate].
  cbn [present andb]. intros Hwf Hroute.
  unfold Bot.webhook, GithubApp.webhook.
  cbv beta iota zeta delta [bind item ret and_then is_event event payload
    action repository_full_name pull_request issue comment].
  destruct (String.eqb_spec e "pull_request") as [->|Hpr].
  - destruct pr as [pr|]; [|discriminate].
    change (String.eqb "pull_request" "pull_request") with true in Hroute.
    cbn [andb orb] in Hroute.
    destruct (String.eqb a "opened") eqn:Hop; [discriminate|].
    destruct (String.eqb a "closed") eqn:Hcl; [discriminate|].
    split; [reflexivity|]. intros ->. reflexivity.
  - destruct (String.eqb_spec e "issues") as [->|Hiss].
    + change (String.eqb "issues" "issues") with true in Hroute.
      rewrite !andb_false_l in Hroute. cbn [andb orb] in Hroute.
      destruct (String.eqb a "opened") eqn:Hop; [discriminate|].
      split; [reflexivity|]. intros ->. reflexivity.
    + destruct (String.eqb_spec e "issue_comment") as [->|Hic].
      * change (String.eqb "issue_comment" "issue_comment") with true
          in Hroute.
        rewrite !andb_false_l in Hroute. cbn [andb orb] in Hroute.
        destruct (String.eqb a "created") eqn:Hcr; [discriminate|].
        split; [reflexivity|]. intros ->. reflexivity.
      * split; [reflexivity|]. intros ->. reflexivity.
Qed.

Lemma unrouted_event_is_ignored_witness :
  well_formed push_delivery = true /\ routed push_delivery = false /\
  Bot.webhook push_delivery quiet_world [] = (Ok 200, []) /\
  GithubApp.webhook push_delivery quiet_world [] = (Ok 200, []).
Proof.
  assert (Hwf : well_formed push_delivery = true) by reflexivity.
  assert (Hr : routed push_delivery = false) by reflexivity.
  destruct (unrouted_event_is_ignored push_delivery quiet_world Hwf Hr)
    as [Hbot Happ].
  split; [exact Hwf|]. split; [exact Hr|]. split; [exact Hbot|].
  apply Happ. reflexivity.
Defined.

End RouterFacts.

(* ===================================================================== *)
(** * Facts about the text primitives *)
(* ===================================================================== *)

Module TextFacts.
Import Spec.

Ltac each_char c := destruct c as [[] [] [] [] [] [] [] []].

Lemma isspace_lower_char c : Py.isspace (Py.lower_char c) = Py.isspace c.
Proof. each_char c; vm_compute; reflexivity. Qed.

Lemma lower_char_slash c : Py.lower_char c = "/"%char -> c = "/"%char.
Proof.
  each_char c; vm_compute; intros H; solve [reflexivity | discriminate H].
Qed.

Lemma lstrip_head s c r : Py.lstrip s = String c r -> Py.isspace c = false.
Proof.
  induction s as [|c0 s IH]; simpl; [discriminate|].
  destruct (Py.isspace c0) eqn:Hc0; [exact IH|].
  intros H. injection H as -> _. exact Hc0.
Qed.

Lemma rstrip_head c r :
  Py.isspace c = false -> Py.rstrip (String c r) = String c (Py.rstrip r).
Proof. intros Hc. simpl. rewrite Hc. destruct (Py.rstrip r); reflexivity. Qed.

Lemma strip_head s c r : Py.strip s = String c r -> Py.isspace c = false.
Proof.
  unfold Py.strip. destruct (Py.lstrip s) as [|c0 r0] eqn:Hl; [discriminate|].
  pose proof (lstrip_head _ _ _ Hl) as Hc0.
  rewrite (rstrip_head _ _ Hc0). intros H. injection H as -> _. exact Hc0.
Qed.

Lemma split_head c r :
  Py.isspace c = false ->
  Py.split (String c r)
  = String c (fst (Py.split_run r)) :: snd (Py.split_run r).
Proof.
  intros Hc. unfold Py.split. simpl.
  destruct (Py.split_run r) as [t ts]. rewrite Hc. reflexivity.
Qed.

Lemma prefix_cons a p b s :
  String.prefix (String a p) (String b s) = Ascii.eqb a b && String.prefix p s.
Proof.
  cbn [String.prefix]. destruct (ascii_dec a b) as [->|Hne].
  - now rewrite Ascii.eqb_refl.
  - destruct (Ascii.eqb_spec a b); [contradiction|reflexivity].
Qed.

Lemma prefix_append p s :
  String.prefix p s = true -> exists r, s = (p ++ r)%string.
Proof.
  revert s. induction p as [|a p IH]; intros s.
  - intros _. exists s. reflexivity.
  - destruct s as [|b s]; [discriminate|]. rewrite prefix_cons.
    destruct (Ascii.eqb_spec a b) as [->|]; [|discriminate].
    intros H. destruct (IH s H) as [r ->]. exists r. reflexivity.
Qed.

(** The verb of a stripped comment starts where the comment starts: a
    verb with a leading slash means a comment with a leading slash. *)
Lemma verb_slash body cmd rest :
  Py.split (Py.lower (Py.strip body)) = cmd :: rest ->
  String.prefix "/" cmd = true ->
  Py.startswith (Py.strip body) "/" = true.
Proof.
  destruct (Py.strip body) as [|c r] eqn:Hs; [discriminate|].
  pose proof (strip_head _ _ _ Hs) as Hc.
  cbn [Py.lower]. rewrite split_head by (now rewrite isspace_lower_char).
  intros H. injection H as <- _. rewrite prefix_cons.
  destruct (Ascii.eqb_spec "/" (Py.lower_char c)) as [E|]; [|discriminate].
  intros _. symmetry in E. apply lower_char_slash in E. subst c.
  unfold Py.startswith. rewrite prefix_cons. now destruct r.
Qed.

Lemma contains_at_cons c s :
  Py.contains "@" (String c s) = Ascii.eqb c "@" || Py.contains "@" s.
Proof.
  cbn [Py.contains]. rewrite prefix_cons, Ascii.eqb_sym.
  destruct (Ascii.eqb c "@"); cbn [andb orb]; [|reflexivity].
  now destruct s.
Qed.

Lemma split_from_nonempty sep skip s : Py.split_from sep skip s <> [].
Proof.
  revert skip. induction s as [|c s IH]; intros skip; [discriminate|].
  cbn [Py.split_from]. destruct skip as [|k]; [|apply IH].
  destruct (String.prefix sep (String c s)); [discriminate|].
  destruct (Py.split_from sep 0 s); discriminate.
Qed.

Lemma split_on_at_cons c s :
  Py.split_on "@" (String c s)
  = if Ascii.eqb c "@" then EmptyString :: Py.split_on "@" s
    else match Py.split_on "@" s with
         | p :: ps => String c p :: ps
         | [] => [String c EmptyString]
         end.
Proof.
  unfold Py.split_on. cbn [Py.split_from].
  rewrite prefix_cons, Ascii.eqb_sym.
  destruct (Ascii.eqb c "@"); cbn [andb]; [|reflexivity].
  now destruct s.
Qed.

(** The pieces around the first [@]: the text before it, then the
    pieces of the text after it. *)
Lemma split_on_at_after text rest :
  after_first "@" text = Some rest ->
  exists before, Py.split_on "@" text = before :: Py.split_on "@" rest.
Proof.
  induction text as [|c s IH]; simpl; [discriminate|].
  rewrite split_on_at_cons.
  destruct (Ascii.eqb c "@").
  - intros H. injection H as ->. exists EmptyString. reflexivity.
  - intros H. destruct (IH H) as [before ->].
    exists (String c before). reflexivity.
Qed.

(** Where the characters after an [@], up to the next whitespace, hold
    no further [@], they start the first piece after it and are its
    first token. *)
Lemma first_piece_run rest :
  Py.contains "@" (until_space rest) = false ->
  exists piece pieces,
    Py.split_on "@" rest = piece :: pieces /\
    fst (Py.split_run piece) = until_space rest.
Proof.
  induction rest as [|c r IH]; intros Hno.
  - exists EmptyString, []. split; reflexivity.
  - rewrite split_on_at_cons. cbn [until_space] in Hno |- *.
    destruct (Py.isspace c) eqn:Hsp.
    + destruct (Ascii.eqb_spec c "@") as [->|Hne]; [discriminate Hsp|].
      destruct (Py.split_on "@" r) as [|p ps] eqn:Hr.
      * exists (String c EmptyString), []. split; [reflexivity|].
        simpl. now rewrite Hsp.
      * exists (String c p), ps. split; [reflexivity|].
        simpl. destruct (Py.split_run p). now rewrite Hsp.
    + rewrite contains_at_cons in Hno. apply orb_false_iff in Hno.
      destruct Hno as [Hc Hno]. rewrite Hc.
      destruct (IH Hno) as [p [ps [Hr Hrun]]]. rewrite Hr.
      exists (String c p), ps. split; [reflexivity|].
      simpl. destruct (Py.split_run p) as [t ts]. rewrite Hsp.
      simpl in Hrun |- *. now rewrite Hrun.
Qed.

(** A non-empty login without [@], written right after the first [@], is
    the login the assign branch reads. *)
Lemma mention_token text t :
  token_after_at text = Some t ->
  t <> EmptyString ->
  Py.contains "@" t = false ->
  mention text = Some t.
Proof.
  unfold token_after_at, mention.
  destruct (after_first "@" text) as [rest|] eqn:Hafter; [|discriminate].
  simpl. intros H. injection H as <-. intros Hne Hno.
  destruct (split_on_at_after _ _ Hafter) as [before ->].
  destruct (first_piece_run rest Hno) as [piece [pieces [-> Hrun]]].
  destruct rest as [|c r]; [contradiction|].
  cbn [until_space] in Hne, Hrun |- *.
  destruct (Py.isspace c) eqn:Hsp; [contradiction|].
  destruct piece as [|c0 p].
  - simpl in Hrun. discriminate Hrun.
  - simpl in Hrun. destruct (Py.split_run p) as [t ts] eqn:Hp.
    destruct (Py.isspace c0) eqn:Hsp0; [discriminate Hrun|].
    unfold Py.split. simpl. rewrite Hp, Hsp0. simpl.
    simpl in Hrun. now rewrite Hrun.
Qed.

(** A comment has an [@] exactly when [@] cuts it in two pieces or more. *)
Lemma contains_at_pieces text :
  Py.contains "@" text = true ->
  exists before after pieces,
    Py.split_on "@" text = before :: after :: pieces.
Proof.
  induction text as [|c s IH].
  - discriminate.
  - rewrite contains_at_cons, split_on_at_cons.
    destruct (Ascii.eqb c "@"); simpl.
    + intros _. destruct (Py.split_on "@" s) as [|p ps] eqn:Hs.
      * exfalso. exact (split_from_nonempty _ _ _ Hs).
      * exists EmptyString, p, ps. reflexivity.
    + intros H. destruct (IH H) as [b [a [ps ->]]].
      exists (String c b), a, ps. reflexivity.
Qed.

End TextFacts.

(* ===================================================================== *)
(** * Properties of the command interpreter *)
(* ===================================================================== *)

Module CommandFacts.
Import Spec Samples TextFacts RouterFacts.
Local Open Scope handler_scope.

Lemma is_command_stripped d repo number commenter text :
  is_command d repo number commenter text -> exists body, text = Py.strip body.
Proof.
  intros [_ [_ [_ [_ [c [_ [_ Ht]]]]]]]. exists (comment_body c). now symmetry.
Qed.

Lemma comment_delivery_command body :
  is_command (comment_delivery body) "octo/repo" 7 "dana" (Py.strip body).
Proof.
  repeat split.
  - exists (mkIssue 7 "Login fails" None). split; reflexivity.
  - exists (mkComment body "dana"). repeat split; reflexivity.
Qed.

Lemma no_at_no_mention text :
  Py.contains "@" text = false -> mention text = None.
Proof.
  unfold mention. intros H.
  assert (E : Py.split_on "@" text = [text]).
  { induction text as [|c s IH]; [reflexivity|].
    rewrite contains_at_cons in H. apply orb_false_iff in H.
    destruct H as [Hc Hs]. rewrite split_on_at_cons, Hc, (IH Hs).
    reflexivity. }
  now rewrite E.
Qed.

Lemma mention_has_at text t :
  mention text = Some t -> Py.contains "@" text = true.
Proof.
  intros H. destruct (Py.contains "@" text) eqn:E; [reflexivity|].
  rewrite (no_at_no_mention _ E) in H. discriminate H.
Qed.

(** The verb test of the interpreter, once the verb is known. *)
Lemma bot_run_verb repo number commenter body cmd rest w tr :
  Py.split (Py.lower (Py.strip body)) = cmd :: rest ->
  String.prefix "/" cmd = true ->
  Bot.run_command repo number commenter (Py.strip body) w tr
  = (if String.eqb cmd "/help"
     then send (PostComment repo number BHelp)
     else if Py.startswith cmd "/assign"
     then Bot.assign_command repo number (Py.strip body)
     else if Py.startswith cmd "/label"
     then Bot.label_command repo number (Py.strip body)
     else if String.eqb cmd "/close"
     then (send (PatchState repo number "closed") ;;
           send (PostComment repo number (BClosedBy commenter)))
     else if String.eqb cmd "/changelog"
     then (changelog <- Bot.generate_changelog repo ;;
           send (PostComment repo number changelog))
     else if String.eqb cmd "/joke"
     then (i <- Bot.random_choice Bot.jokes_count ;;
           send (PostComment repo number (BJoke i)))
     else if String.eqb cmd "/motivate"
     then (i <- Bot.random_choice Bot.quotes_count ;;
           send (PostComment repo number (BQuote i)))
     else ret tt) w tr.
Proof.
  intros Hsplit Hslash. unfold Bot.run_command.
  rewrite (verb_slash _ _ _ Hsplit Hslash), Hsplit. reflexivity.
Qed.

Lemma app_run_verb repo number body cmd rest w tr :
  Py.split (Py.lower (Py.strip body)) = cmd :: rest ->
  String.prefix "/" cmd = true ->
  String.eqb cmd "/help" = false ->
  GithubApp.run_command repo number (Py.strip body) w tr
  = (if Py.startswith cmd "/assign" && Py.contains "@" (Py.strip body)
     then GithubApp.assign_command repo number (Py.strip body)
     else if Py.startswith cmd "/label"
     then GithubApp.label_command repo number (Py.strip body)
     else if Py.startswith cmd "/assign"
     then ret tt
     else GithubApp.run_command repo number (Py.strip body)) w tr.
Proof.
  intros Hsplit Hslash Hhelp. unfold GithubApp.run_command.
  rewrite (verb_slash _ _ _ Hsplit Hslash), Hsplit.
  unfold index, bind, ret. cbn [nth_error]. rewrite Hhelp.
  destruct (Py.startswith cmd "/assign" && Py.contains "@" (Py.strip body));
    [reflexivity|].
  destruct (Py.startswith cmd "/label"); [reflexivity|].
  destruct (Py.startswith cmd "/assign") eqn:Hassign; [|reflexivity].
  apply prefix_append in Hassign. destruct Hassign as [r ->].
  reflexivity.
Qed.

Lemma assign_verb cmd :
  Py.startswith cmd "/assign" = true ->
  String.prefix "/" cmd = true /\ String.eqb cmd "/help" = false.
Proof.
  intros H. apply prefix_append in H. destruct H as [r ->].
  split; [|reflexivity]. simpl. now destruct r.
Qed.

Lemma label_verb cmd :
  Py.startswith cmd "/label" = true ->
  String.prefix "/" cmd = true /\ String.eqb cmd "/help" = false /\
  Py.startswith cmd "/assign" = false.
Proof.
  intros H. apply prefix_append in H. destruct H as [r ->].
  split; [|split; reflexivity]. simpl. now destruct r.
Qed.

(** What the two assign branches do with a comment that mentions [t]. *)
Lemma bot_assign_mention repo number text t w tr :
  mention text = Some t ->
  Bot.assign_command repo number text w tr
  = (send (PostAssignees repo number [t]) ;;
     send (PostComment repo number (BAssigned t))) w tr.
Proof.
  intros Hm. unfold Bot.assign_command. rewrite (mention_has_at _ _ Hm).
  unfold mention in Hm.
  destruct (Py.split_on "@" text) as [|before [|after pieces]];
    try discriminate Hm.
  destruct (Py.split after) as [|t' more] eqn:Hs; [discriminate Hm|].
  injection Hm as ->.
  unfold index, bind, ret. cbn [nth_error]. rewrite Hs. reflexivity.
Qed.

Lemma app_assign_mention repo number text t w tr :
  mention text = Some t ->
  GithubApp.assign_command repo number text w tr
  = send (PostAssignees repo number [t]) w tr.
Proof.
  intros Hm. unfold GithubApp.assign_command. unfold mention in Hm.
  destruct (Py.split_on "@" text) as [|before [|after pieces]];
    try discriminate Hm.
  destruct (Py.split after) as [|t' more] eqn:Hs; [discriminate Hm|].
  injection Hm as ->.
  unfold index, bind, ret. cbn [nth_error]. rewrite Hs. reflexivity.
Qed.

(** A comment with an [@] and no login after it makes both assign
    branches raise before any call. *)
Lemma assign_without_login repo number text w tr :
  Py.contains "@" text = true ->
  mention text = None ->
  Bot.assign_command repo number text w tr = (Raised IndexError, tr) /\
  GithubApp.assign_command repo number text w tr = (Raised IndexError, tr).
Proof.
  intros Hat Hm. unfold Bot.assign_command, GithubApp.assign_command.
  rewrite Hat. destruct (contains_at_pieces _ Hat) as [b [a [ps Hs]]].
  unfold mention in Hm. rewrite Hs in Hm.
  destruct (Py.split a) as [|t more] eqn:Ha; [|discriminate Hm].
  unfold index, bind, ret. rewrite Hs. cbn [nth_error]. rewrite Ha.
  split; reflexivity.
Qed.

(** C10 (amended): the verbs [/assign] and [/label] are recognised by
    prefix.  A comment whose first token starts with [/assign] and which
    has an [@] runs the assign branch; the assignee it adds is the first
    whitespace-delimited token of the text between the first [@] and the
    next one, which is the token written after the first [@] whenever
    that token is not empty and holds no further [@]; a first token that
    starts with [/label] runs the label branch. *)
Theorem verbs_match_by_prefix d w repo number commenter text cmd rest :
  is_command d repo number commenter text ->
  Py.split (Py.lower text) = cmd :: rest ->
  (Py.startswith cmd "/assign" = true ->
   Py.contains "@" text = true ->
   Bot.webhook d w []
   = (Bot.assign_command repo number text ;; ret 200) w [] /\
   (GithubApp.no_installation (payload d) = false ->
    GithubApp.webhook d w []
    = (GithubApp.assign_command repo number text ;; ret 200) w []) /\
   (forall t, mention text = Some t ->
      Bot.assign_command repo number text w []
      = (send (PostAssignees repo number [t]) ;;
         send (PostComment repo number (BAssigned t))) w [] /\
      GithubApp.assign_command repo number text w []
      = send (PostAssignees repo number [t]) w []) /\
   (forall t, token_after_at text = Some t -> t <> EmptyString ->
      Py.contains "@" t = false ->
      Bot.assign_command repo number text w []
      = (send (PostAssignees repo number [t]) ;;
         send (PostComment repo number (BAssigned t))) w [] /\
      GithubApp.assign_command repo number text w []
      = send (PostAssignees repo number [t]) w [])) /\
  (Py.startswith cmd "/label" = true ->
   Bot.webhook d w []
   = (Bot.label_command repo number text ;; ret 200) w [] /\
   (GithubApp.no_installation (payload d) = false ->
    GithubApp.webhook d w []
    = (GithubApp.label_command repo number text ;; ret 200) w [])).
Proof.
  intros Hcmd Hsplit.
  destruct (is_command_stripped _ _ _ _ _ Hcmd) as [body ->].
  split.
  - intros Hverb Hat. destruct (assign_verb _ Hverb) as [Hslash Hhelp].
    split; [|split; [|split]].
    + rewrite (bot_webhook_command _ _ _ _ _ _ _ Hcmd).
      apply bind_eq_run.
      rewrite (bot_run_verb _ _ _ _ _ _ _ _ Hsplit Hslash), Hhelp, Hverb.
      reflexivity.
    + intros Hinst. rewrite (app_webhook_command _ _ _ _ _ _ _ Hcmd Hinst).
      apply bind_eq_run.
      rewrite (app_run_verb _ _ _ _ _ _ _ Hsplit Hslash Hhelp), Hverb, Hat.
      reflexivity.
    + intros t Hm. split.
      * now apply bot_assign_mention.
      * now apply app_assign_mention.
    + intros t Ht Hne Hno. pose proof (mention_token _ _ Ht Hne Hno) as Hm.
      split.
      * now apply bot_assign_mention.
      * now apply app_assign_mention.
  - intros Hverb. destruct (label_verb _ Hverb) as [Hslash [Hhelp Hassign]].
    split.
    + rewrite (bot_webhook_command _ _ _ _ _ _ _ Hcmd).
      apply bind_eq_run.
      rewrite (bot_run_verb _ _ _ _ _ _ _ _ Hsplit Hslash), Hhelp, Hassign,
        Hverb.
      reflexivity.
    + intros Hinst. rewrite (app_webhook_command _ _ _ _ _ _ _ Hcmd Hinst).
      apply bind_eq_run.
      rewrite (app_run_verb _ _ _ _ _ _ _ Hsplit Hslash Hhelp), Hassign,
        Hverb.
      reflexivity.
Qed.

Lemma verbs_match_by_prefix_witness :
  Bot.webhook (comment_delivery "/assignees @bob please") quiet_world []
  = (Ok 200, [ PostAssignees "octo/repo" 7 ["bob"];
               PostComment "octo/repo" 7 (BAssigned "bob") ]) /\
  GithubApp.webhook (comment_delivery "/Labels: /label bug") quiet_world []
  = (Ok 200, [ PostLabels "octo/repo" 7 ["bug"] ]).
Proof.
  split.
  - destruct (verbs_match_by_prefix _ quiet_world _ _ _ _
                "/assignees" ["@bob"; "please"]
                (comment_delivery_command "/assignees @bob please") eq_refl)
      as [Hassign _].
    destruct (Hassign eq_refl eq_refl) as [Hbot _].
    rewrite Hbot. reflexivity.
  - destruct (verbs_match_by_prefix _ quiet_world _ _ _ _
                "/labels:" ["/label"; "bug"]
                (comment_delivery_command "/Labels: /label bug") eq_refl)
      as [_ Hlabel].
    destruct (Hlabel eq_refl) as [_ Happ].
    rewrite (Happ eq_refl). reflexivity.
Defined.

(** C6 (amended): for a comment whose first token is [/assign], without
    an [@] nothing is called; with a mention, the assignee added is the
    first token of the text between the first [@] and the next one,
    which is the token that follows the first [@] up to the next
    whitespace when that token is not empty and holds no further [@]. *)
Theorem assign_adds_mention d w repo number commenter text rest :
  is_command d repo number commenter text ->
  Py.split (Py.lower text) = "/assign" :: rest ->
  (Py.contains "@" text = false ->
   Bot.webhook d w [] = (Ok 200, []) /\
   (GithubApp.no_installation (payload d) = false ->
    GithubApp.webhook d w [] = (Ok 200, []))) /\
  (forall t, mention text = Some t ->
     Bot.webhook d w []
     = (send (PostAssignees repo number [t]) ;;
        send (PostComment repo number (BAssigned t)) ;; ret 200) w [] /\
     (GithubApp.no_installation (payload d) = false ->
      GithubApp.webhook d w []
      = (send (PostAssignees repo number [t]) ;; ret 200) w [])) /\
  (forall t, token_after_at text = Some t -> t <> EmptyString ->
     Py.contains "@" t = false ->
     Bot.webhook d w []
     = (send (PostAssignees repo number [t]) ;;
        send (PostComment repo number (BAssigned t)) ;; ret 200) w [] /\
     (GithubApp.no_installation (payload d) = false ->
      GithubApp.webhook d w []
      = (send (PostAssignees repo number [t]) ;; ret 200) w [])).
Proof.
  intros Hcmd Hsplit.
  destruct (is_command_stripped _ _ _ _ _ Hcmd) as [body ->].
  assert (Hslash : String.prefix "/" "/assign" = true) by reflexivity.
  assert (Hadds : forall t, mention (Py.strip body) = Some t ->
     Bot.webhook d w []
     = (send (PostAssignees repo number [t]) ;;
        send (PostComment repo number (BAssigned t)) ;; ret 200) w [] /\
     (GithubApp.no_installation (payload d) = false ->
      GithubApp.webhook d w []
      = (send (PostAssignees repo number [t]) ;; ret 200) w [])).
  { intros t Hm. pose proof (mention_has_at _ _ Hm) as Hat. split.
    - rewrite (bot_webhook_command _ _ _ _ _ _ _ Hcmd).
      rewrite <- bind_assoc. apply bind_eq_run.
      rewrite (bot_run_verb _ _ _ _ _ _ _ _ Hsplit Hslash).
      cbn [String.eqb]. now apply bot_assign_mention.
    - intros Hinst. rewrite (app_webhook_command _ _ _ _ _ _ _ Hcmd Hinst).
      apply bind_eq_run.
      rewrite (app_run_verb _ _ _ _ _ _ _ Hsplit Hslash eq_refl), Hat.
      now apply app_assign_mention. }
  split; [|split].
  - intros Hat. split.
    + rewrite (bot_webhook_command _ _ _ _ _ _ _ Hcmd).
      unfold bind at 1.
      rewrite (bot_run_verb _ _ _ _ _ _ _ _ Hsplit Hslash).
      cbn [String.eqb]. unfold Bot.assign_command. rewrite Hat.
      reflexivity.
    + intros Hinst. rewrite (app_webhook_command _ _ _ _ _ _ _ Hcmd Hinst).
      unfold bind at 1.
      rewrite (app_run_verb _ _ _ _ _ _ _ Hsplit Hslash eq_refl), Hat.
      reflexivity.
  - exact Hadds.
  - intros t Ht Hne Hno. apply Hadds. now apply mention_token.
Qed.

Lemma assign_adds_mention_witness :
  token_after_at "/assign @alice extra text" = Some "alice" /\
  Bot.webhook (comment_delivery "/assign @alice extra text") quiet_world []
  = (Ok 200, [ PostAssignees "octo/repo" 7 ["alice"];
               PostComment "octo/repo" 7 (BAssigned "alice") ]).
Proof.
  destruct (assign_adds_mention _ quiet_world _ _ _ _
              ["@alice"; "extra"; "text"]
              (comment_delivery_command "/assign @alice extra text") eq_refl)
    as [_ [_ Htoken]].
  assert (Ht : token_after_at "/assign @alice extra text" = Some "alice")
    by reflexivity.
  assert (Hne : "alice" <> EmptyString) by discriminate.
  split; [exact Ht|].
  destruct (Htoken "alice" Ht Hne eq_refl) as [Hbot _].
  rewrite Hbot. reflexivity.
Defined.

(** C10 as stated fails on the assignee: with the first token
    [/assignees] and an [@] in the comment, the token written after the
    first [@] is [alice@bob] and the assignee added is [alice]; and
    where nothing follows the [@] no assignee is added at all, both
    handlers raise before any call. *)
Lemma prefix_assign_counterexample :
  Py.split (Py.lower (Py.strip "/assignees @alice@bob"))
  = ["/assignees"; "@alice@bob"] /\
  Py.startswith "/assignees" "/assign" = true /\
  Py.contains "@" (Py.strip "/assignees @alice@bob") = true /\
  token_after_at (Py.strip "/assignees @alice@bob") = Some "alice@bob" /\
  Bot.webhook (comment_delivery "/assignees @alice@bob") quiet_world []
  = (Ok 200, [ PostAssignees "octo/repo" 7 ["alice"];
               PostComment "octo/repo" 7 (BAssigned "alice") ]) /\
  GithubApp.webhook (comment_delivery "/assignees @alice@bob") quiet_world []
  = (Ok 200, [ PostAssignees "octo/repo" 7 ["alice"] ]) /\
  Py.split (Py.lower (Py.strip "/assignees @")) = ["/assignees"; "@"] /\
  Py.contains "@" (Py.strip "/assignees @") = true /\
  Bot.webhook (comment_delivery "/assignees @") quiet_world []
  = (Raised IndexError, []) /\
  GithubApp.webhook (comment_delivery "/assignees @") quiet_world []
  = (Raised IndexError, []).
Proof. repeat split; vm_compute; reflexivity. Qed.

(** C6 as stated fails where a second [@] follows the first without
    whitespace in between: the token up to the next whitespace is
    [alice@bob], the assignee added is [alice]. *)
Lemma assign_token_counterexample :
  Py.split (Py.lower (Py.strip "/assign @alice@bob"))
  = ["/assign"; "@alice@bob"] /\
  Py.contains "@" (Py.strip "/assign @alice@bob") = true /\
  token_after_at (Py.strip "/assign @alice@bob") = Some "alice@bob" /\
  Bot.webhook (comment_delivery "/assign @alice@bob") quiet_world []
  = (Ok 200, [ PostAssignees "octo/repo" 7 ["alice"];
               PostComment "octo/repo" 7 (BAssigned "alice") ]) /\
  GithubApp.webhook (comment_delivery "/assign @alice@bob") quiet_world []
  = (Ok 200, [ PostAssignees "octo/repo" 7 ["alice"] ]).
Proof. repeat split; vm_compute; reflexivity. Qed.

(** C2: on the bare command [/label] both handlers raise [IndexError]
    before any platform call. *)
Theorem bare_label_raises d w repo number commenter :
  is_command d repo number commenter "/label" ->
  Bot.webhook d w [] = (Raised IndexError, []) /\
  (GithubApp.no_installation (payload d) = false ->
   GithubApp.webhook d w [] = (Raised IndexError, [])).
Proof.
  intros Hcmd. split.
  - rewrite (bot_webhook_command _ _ _ _ _ _ _ Hcmd). reflexivity.
  - intros Hinst. rewrite (app_webhook_command _ _ _ _ _ _ _ Hcmd Hinst).
    reflexivity.
Qed.

Lemma bare_label_raises_witness :
  Bot.webhook (comment_delivery "  /label ") quiet_world []
  = (Raised IndexError, []) /\
  GithubApp.webhook (comment_delivery "  /label ") quiet_world []
  = (Raised IndexError, []).
Proof.
  destruct (bare_label_raises _ quiet_world _ _ _
              (comment_delivery_command "  /label "))
    as [Hbot Happ].
  split; [exact Hbot|]. apply Happ. reflexivity.
Defined.

End CommandFacts.

(* ===================================================================== *)
(** * Properties of the issue labels *)
(* ===================================================================== *)

Module IssueFacts.
Import Spec Samples RouterFacts.
Local Open Scope handler_scope.

Ltac split_rules :=
  repeat match goal with
    | |- context [if ?b then _ ++ _ else _] => destruct b
    end.

Lemma bot_issue_opened_scan p repo i w tr :
  repository_full_name p = Some repo ->
  issue p = Some i ->
  Bot.issue_opened p w tr
  = label_issue repo i
      (keyword_scan bot_issue_rules (Py.lower (issue_title i))) w tr.
Proof.
  intros Hr Hi. unfold Bot.issue_opened, label_issue. rewrite Hr, Hi.
  unfold bind, item, ret. cbv zeta.
  unfold keyword_scan, bot_issue_rules.
  cbn [filter existsb map fst snd]. rewrite ?orb_false_r, ?orb_assoc.
  split_rules; reflexivity.
Qed.

Lemma app_issue_opened_scan p repo i w tr :
  repository_full_name p = Some repo ->
  issue p = Some i ->
  GithubApp.issue_opened p w tr
  = label_issue repo i
      (keyword_scan app_issue_rules (Py.lower (issue_title i))) w tr.
Proof.
  intros Hr Hi. unfold GithubApp.issue_opened, label_issue. rewrite Hr, Hi.
  unfold bind, item, ret. cbv zeta.
  unfold keyword_scan, app_issue_rules.
  cbn [filter existsb map fst snd].
  split_rules; reflexivity.
Qed.

(** C3 (amended): the labels of an opened issue are found by a keyword
    scan of the lower-cased title, each rule adding its own label; in
    [github_app.py] the keywords of [bug] are bug, error, broken and
    crash, in [bot.py] they are bug, error and broken. *)
Theorem issue_labels_scan_title d w repo i :
  is_issue_opened d repo i ->
  let title := Py.lower (issue_title i) in
  Bot.webhook d w []
  = (label_issue repo i (keyword_scan bot_issue_rules title) ;; ret 200) w [] /\
  (GithubApp.no_installation (payload d) = false ->
   GithubApp.webhook d w []
   = (label_issue repo i (keyword_scan app_issue_rules title) ;; ret 200) w []) /\
  (In "bug" (keyword_scan app_issue_rules title) <->
   Py.contains "bug" title = true \/ Py.contains "error" title = true \/
   Py.contains "broken" title = true \/ Py.contains "crash" title = true) /\
  (In "bug" (keyword_scan bot_issue_rules title) <->
   Py.contains "bug" title = true \/ Py.contains "error" title = true \/
   Py.contains "broken" title = true).
Proof.
  intros [He [Ha [Hr Hi]]] title. split; [|split; [|split]].
  - unfold Bot.webhook. rewrite He, Ha. unfold is_event. eval_eqb.
    apply bind_eq_run. rewrite bind_item. eval_eqb.
    now apply bot_issue_opened_scan.
  - intros Hinst. unfold GithubApp.webhook. rewrite Hinst, He, Ha.
    unfold is_event, and_then. eval_eqb.
    apply bind_eq_run. rewrite bind_assoc, bind_item, bind_ret. eval_eqb.
    now apply app_issue_opened_scan.
  - unfold keyword_scan, app_issue_rules. cbn [filter existsb fst snd].
    destruct (Py.contains "bug" title), (Py.contains "error" title),
      (Py.contains "broken" title), (Py.contains "crash" title);
      cbn [orb map In]; try (split; [intros _|intros _; left; reflexivity]; tauto).
    split.
    + intros Hin.
      repeat match type of Hin with
        | context [if ?b then _ else _] => destruct b
        end; simpl in Hin; intuition discriminate.
    + intuition discriminate.
  - unfold keyword_scan, bot_issue_rules. cbn [filter existsb fst snd].
    destruct (Py.contains "bug" title), (Py.contains "error" title),
      (Py.contains "broken" title);
      cbn [orb map In]; try (split; [intros _|intros _; left; reflexivity]; tauto).
    split.
    + intros Hin.
      repeat match type of Hin with
        | context [if ?b then _ else _] => destruct b
        end; simpl in Hin; intuition discriminate.
    + intuition discriminate.
Qed.

Lemma issue_labels_scan_title_witness :
  GithubApp.webhook (issue_delivery "App CRASH on start?" None) quiet_world []
  = (Ok 200, [ PostLabels "octo/repo" 12 ["bug"; "question"] ]).
Proof.
  assert (Hev : is_issue_opened (issue_delivery "App CRASH on start?" None)
                  "octo/repo" (mkIssue 12 "App CRASH on start?" None))
    by (repeat split; reflexivity).
  destruct (issue_labels_scan_title _ quiet_world _ _ Hev) as [_ [Happ _]].
  rewrite (Happ eq_refl). reflexivity.
Defined.

(** C3 as stated fails twice: in [bot.py] a title with [crash] gets no
    label, and neither handler looks at the body of the issue. *)
Lemma issue_labels_counterexample :
  Py.contains "crash" (Py.lower "App crash on start") = true /\
  Bot.webhook (issue_delivery "App crash on start" (Some "a bug, urgent"))
    quiet_world []
  = (Ok 200, []) /\
  GithubApp.webhook (issue_delivery "Startup fails" (Some "a bug, urgent"))
    quiet_world []
  = (Ok 200, []).
Proof. repeat split; vm_compute; reflexivity. Qed.

End IssueFacts.

(* ===================================================================== *)
(** * Properties of the reviewer request *)
(* ===================================================================== *)

Module ReviewerFacts.
Import Spec Samples RouterFacts.
Local Open Scope handler_scope.

Lemma set_add_In x y s : In x (Py.set_add y s) <-> x = y \/ In x s.
Proof.
  unfold Py.set_add. destruct (existsb (String.eqb y) s) eqn:E.
  - split; [tauto|]. intros [->|H]; [|exact H].
    apply existsb_exists in E. destruct E as [z [Hz E]].
    apply String.eqb_eq in E. now subst z.
  - rewrite in_app_iff. simpl. intuition.
Qed.

Lemma set_add_NoDup y s : NoDup s -> NoDup (Py.set_add y s).
Proof.
  intros Hnd. unfold Py.set_add.
  destruct (existsb (String.eqb y) s) eqn:E; [exact Hnd|].
  apply NoDup_app; [exact Hnd|repeat constructor; simpl; tauto|].
  intros x Hx [Hy|[]]. subst y.
  assert (existsb (String.eqb x) s = true) as Hex.
  { apply existsb_exists. exists x. split; [exact Hx|apply String.eqb_refl]. }
  rewrite Hex in E. discriminate E.
Qed.

(** The members added for one file are authors of its first three
    commits, other than the author of the pull request. *)
Lemma add_commit_authors_spec history author acc :
  let reviewers := Bot.add_commit_authors history author acc in
  (NoDup acc -> NoDup reviewers) /\
  (forall x, In x acc -> In x reviewers) /\
  (forall x, In x reviewers ->
     In x acc \/
     (x <> author /\ In (Some x) (map commit_author (firstn 3 history)))).
Proof.
  unfold Bot.add_commit_authors.
  generalize (firstn 3 history) as cs. intros cs. revert acc.
  induction cs as [|c cs IH]; intros acc; cbn [fold_left].
  - simpl. tauto.
  - destruct (commit_author c) as [login|] eqn:Hc.
    + destruct (String.eqb_spec login author) as [->|Hne]; cbn [negb].
      * destruct (IH acc) as [H1 [H2 H3]].
        split; [exact H1|]. split; [exact H2|].
        intros x Hx. destruct (H3 x Hx) as [H|[Hxa H]]; [now left|].
        right. split; [exact Hxa|]. simpl. now right.
      * destruct (IH (Py.set_add login acc)) as [H1 [H2 H3]].
        split; [|split].
        -- intros Hnd. apply H1. now apply set_add_NoDup.
        -- intros x Hx. apply H2. apply set_add_In. now right.
        -- intros x Hx. destruct (H3 x Hx) as [H|[Hxa H]].
           ++ apply set_add_In in H. destruct H as [->|H]; [|now left].
              right. split; [exact Hne|]. simpl. left. exact Hc.
           ++ right. split; [exact Hxa|]. simpl. now right.
    + destruct (IH acc) as [H1 [H2 H3]].
      split; [exact H1|]. split; [exact H2|].
      intros x Hx. destruct (H3 x Hx) as [H|[Hxa H]]; [now left|].
      right. split; [exact Hxa|]. simpl. now right.
Qed.

(** One turn of the loop: the two reads, in this order. *)
Lemma file_reviewers_run w repo author acc f tr :
  Bot.file_reviewers repo author acc f w tr
  = let asked := tr ++ [GetContents repo (filename f)] in
    match contents w (List.length tr) repo (filename f) with
    | Some true =>
        match commits w (List.length asked) repo (filename f) with
        | Some history =>
            (Ok (Bot.add_commit_authors history author acc),
             asked ++ [GetCommits repo (filename f) 5])
        | None => (Raised ApiError, asked ++ [GetCommits repo (filename f) 5])
        end
    | Some false => (Ok acc, asked)
    | None => (Raised ApiError, asked)
    end.
Proof.
  unfold Bot.file_reviewers, bind, get, ret. cbv zeta.
  destruct (contents w (List.length tr) repo (filename f)) as [[|]|];
    try reflexivity.
  destruct (commits w _ repo (filename f)); reflexivity.
Qed.

Lemma from_history_cons w repo f files author x :
  from_history w repo files author x ->
  from_history w repo (f :: files) author x.
Proof.
  intros [Hxa [file [k [h [Hf Hrest]]]]]. split; [exact Hxa|].
  exists file, k, h. split; [now right|exact Hrest].
Qed.

(** The loop over the files only reads from the platform, and every
    member of the set it builds comes from a commit history. *)
Lemma gather_loop_spec w repo author files acc tr :
  exists reads,
    snd (for_each files acc (Bot.file_reviewers repo author) w tr)
    = tr ++ reads /\
    Forall (fun r => is_mutation r = false) reads /\
    forall reviewers,
      fst (for_each files acc (Bot.file_reviewers repo author) w tr)
      = Ok reviewers ->
      (NoDup acc -> NoDup reviewers) /\
      (forall x, In x reviewers ->
         In x acc \/ from_history w repo files author x).
Proof.
  revert acc tr. induction files as [|f files IH]; intros acc tr.
  - exists []. cbn. rewrite app_nil_r. split; [reflexivity|].
    split; [constructor|]. intros reviewers H. injection H as <-. tauto.
  - cbn [for_each]. unfold bind. rewrite file_reviewers_run. cbv zeta.
    destruct (contents w (List.length tr) repo (filename f)) as [[|]|] eqn:Hb.
    + destruct (commits w _ repo (filename f)) as [history|] eqn:Hh.
      * destruct (IH (Bot.add_commit_authors history author acc)
                    ((tr ++ [GetContents repo (filename f)])
                       ++ [GetCommits repo (filename f) 5]))
          as [reads [Htr [Hreads Hset]]].
        exists (GetContents repo (filename f)
                :: GetCommits repo (filename f) 5 :: reads).
        split; [|split].
        -- rewrite Htr. now rewrite <- !app_assoc.
        -- repeat constructor. exact Hreads.
        -- intros reviewers Hout.
           destruct (Hset reviewers Hout) as [Hnd Hin].
           destruct (add_commit_authors_spec history author acc)
             as [H1 [_ H3]].
           split; [intros Hacc; apply Hnd, H1, Hacc|].
           intros x Hx. destruct (Hin x Hx) as [Hx'|Hx'].
           ++ destruct (H3 x Hx') as [H|[Hxa H]]; [now left|].
              right. split; [exact Hxa|].
              exists f, (List.length (tr ++ [GetContents repo (filename f)])),
                history.
              split; [now left|]. split; [exact Hh|exact H].
           ++ right. now apply from_history_cons.
      * exists [GetContents repo (filename f); GetCommits repo (filename f) 5].
        cbn [snd fst]. split; [now rewrite <- app_assoc|].
        split; [repeat constructor|]. discriminate.
    + destruct (IH acc (tr ++ [GetContents repo (filename f)]))
        as [reads [Htr [Hreads Hset]]].
      exists (GetContents repo (filename f) :: reads).
      split; [|split].
      * rewrite Htr. now rewrite <- app_assoc.
      * constructor; [reflexivity|exact Hreads].
      * intros reviewers Hout.
        destruct (Hset reviewers Hout) as [Hnd Hin].
        split; [exact Hnd|].
        intros x Hx. destruct (Hin x Hx) as [Hx'|Hx']; [now left|].
        right. now apply from_history_cons.
    + exists [GetContents repo (filename f)]. cbn [snd fst].
      split; [reflexivity|]. split; [repeat constructor|]. discriminate.
Qed.

Lemma NoDup_firstn {A : Type} (n : nat) (l : list A) :
  NoDup l -> NoDup (firstn n l).
Proof.
  intros H. rewrite <- (firstn_skipn n l) in H.
  now apply NoDup_app_remove_r in H.
Qed.

Lemma In_firstn {A : Type} (n : nat) (l : list A) x :
  In x (firstn n l) -> In x l.
Proof.
  intros H. rewrite <- (firstn_skipn n l). apply in_or_app. now left.
Qed.

(** The loop over one history adds its candidates, in their order. *)
Lemma add_commit_authors_candidates history author acc :
  Bot.add_commit_authors history author acc
  = fold_left (fun acc x => Py.set_add x acc) (candidates history author) acc.
Proof.
  unfold Bot.add_commit_authors, candidates.
  generalize (firstn 3 history) as cs. intros cs. revert acc.
  induction cs as [|c cs IH]; intros acc; [reflexivity|].
  cbn [fold_left flat_map]. rewrite fold_left_app, IH.
  destruct (commit_author c) as [login|]; [|reflexivity].
  destruct (String.eqb login author); reflexivity.
Qed.

Lemma gather_histories author histories : forall acc,
  fold_left (fun acc h => Bot.add_commit_authors h author acc) histories acc
  = fold_left (fun acc x => Py.set_add x acc)
      (flat_map (fun h => candidates h author) histories) acc.
Proof.
  induction histories as [|h histories IH]; intros acc; [reflexivity|].
  cbn [fold_left flat_map].
  rewrite fold_left_app, IH, add_commit_authors_candidates. reflexivity.
Qed.

(** Adding to a set one by one keeps the first occurrences, in order. *)
Lemma set_add_first_occurrences xs : forall acc seen,
  (forall x, existsb (String.eqb x) seen = existsb (String.eqb x) acc) ->
  fold_left (fun acc x => Py.set_add x acc) xs acc
  = acc ++ first_occurrences seen xs.
Proof.
  induction xs as [|x xs IH]; intros acc seen Hseen.
  - cbn. now rewrite app_nil_r.
  - cbn [fold_left first_occurrences]. unfold Py.set_add at 2.
    rewrite Hseen. destruct (existsb (String.eqb x) acc) eqn:E.
    + apply IH, Hseen.
    + rewrite (IH (acc ++ [x]) (x :: seen)).
      * rewrite <- app_assoc. reflexivity.
      * intros y. rewrite existsb_app. cbn [existsb].
        rewrite Hseen, Bool.orb_false_r. apply Bool.orb_comm.
Qed.

(** The set that the loop over the files builds is the set of the
    candidates of the histories that its calls were answered with. *)
Lemma gather_loop_exact w repo author files : forall acc tr,
  exists reads,
    snd (for_each files acc (Bot.file_reviewers repo author) w tr)
    = tr ++ reads /\
    forall reviewers,
      fst (for_each files acc (Bot.file_reviewers repo author) w tr)
      = Ok reviewers ->
      reviewers
      = fold_left (fun acc h => Bot.add_commit_authors h author acc)
          (histories_read w (List.length tr) reads) acc.
Proof.
  induction files as [|f files IH]; intros acc tr.
  - exists []. cbn. rewrite app_nil_r. split; [reflexivity|].
    intros reviewers H. now injection H as <-.
  - cbn [for_each]. unfold bind. rewrite file_reviewers_run. cbv zeta.
    destruct (contents w (List.length tr) repo (filename f)) as [[|]|] eqn:Hb.
    + destruct (commits w _ repo (filename f)) as [history|] eqn:Hh.
      * destruct (IH (Bot.add_commit_authors history author acc)
                    ((tr ++ [GetContents repo (filename f)])
                       ++ [GetCommits repo (filename f) 5]))
          as [reads [Htr Hset]].
        exists (GetContents repo (filename f)
                :: GetCommits repo (filename f) 5 :: reads).
        split; [rewrite Htr; now rewrite <- !app_assoc|].
        intros reviewers Hout. rewrite (Hset reviewers Hout).
        rewrite !length_app in *. cbn [List.length] in *.
        cbn [histories_read].
        replace (S (List.length tr)) with (List.length tr + 1)%nat by lia.
        rewrite Hh. cbn [fold_left].
        replace (S (List.length tr + 1)) with (List.length tr + 1 + 1)%nat
          by lia.
        reflexivity.
      * exists [GetContents repo (filename f); GetCommits repo (filename f) 5].
        cbn [snd fst]. split; [now rewrite <- app_assoc|]. discriminate.
    + destruct (IH acc (tr ++ [GetContents repo (filename f)]))
        as [reads [Htr Hset]].
      exists (GetContents repo (filename f) :: reads).
      split; [rewrite Htr; now rewrite <- app_assoc|].
      intros reviewers Hout. rewrite (Hset reviewers Hout).
      rewrite length_app. cbn [List.length histories_read].
      replace (S (List.length tr)) with (List.length tr + 1)%nat by lia.
      reflexivity.
    + exists [GetContents repo (filename f)]. cbn [snd fst].
      split; [reflexivity|]. discriminate.
Qed.

(** The calls of [auto_assign_reviewers]: the reads of the loop, then
    at most one request, for the first three of the set in its
    iteration order. *)
Lemma assign_reviewers_run w repo number files author before :
  exists reads,
    Forall (fun r => is_mutation r = false) reads /\
    (snd (Bot.auto_assign_reviewers repo number files author w before)
     = before ++ reads \/
     exists reviewers,
       NoDup reviewers /\
       (forall x, In x reviewers -> from_history w repo files author x) /\
       reviewers
       = candidate_set (histories_read w (List.length before) reads) author /\
       snd (Bot.auto_assign_reviewers repo number files author w before)
       = before ++ reads
           ++ [PostReviewers repo number
                 (firstn 3 (set_order w reviewers))]).
Proof.
  unfold Bot.auto_assign_reviewers, Bot.gather_reviewers.
  destruct (gather_loop_spec w repo author files [] before)
    as [reads [Htr [Hreads Hset]]].
  destruct (gather_loop_exact w repo author files [] before)
    as [reads' [Htr' Hexact]].
  assert (reads' = reads) as ->
    by (apply (app_inv_head before); now rewrite <- Htr, <- Htr').
  clear Htr'. exists reads. split; [exact Hreads|].
  unfold bind, ask, send, ret.
  destruct (for_each files [] (Bot.file_reviewers repo author) w before)
    as [[reviewers|e] tr] eqn:Hrun; cbn [fst snd] in Htr, Hset, Hexact;
    [|left; exact Htr].
  destruct (Py.nonempty reviewers); [|left; exact Htr].
  right. exists reviewers.
  destruct (Hset reviewers eq_refl) as [Hnd Hfrom].
  split; [apply Hnd; constructor|]. split.
  { intros x Hx. destruct (Hfrom x Hx) as [[]|H]. exact H. }
  split.
  { rewrite (Hexact reviewers eq_refl), gather_histories.
    rewrite (set_add_first_occurrences _ [] []); [reflexivity|reflexivity]. }
  rewrite Htr, <- app_assoc.
  destruct (accepts_mutation w _ _); reflexivity.
Qed.

(** C4 (amended): the reviewers requested are at most three, distinct,
    never the author of the pull request, and each is the author of one
    of the first three commits the platform returned for a changed
    file.  The request follows the reads of the loop; its list is the
    first three members, in the iteration order of the set, of the set
    of the candidates of the histories that these reads were answered
    with. *)
Theorem requested_reviewers_sound w repo number files author before
    repo' number' requested :
  set_order_ok w ->
  In (PostReviewers repo' number' requested)
     (snd (Bot.auto_assign_reviewers repo number files author w before)) ->
  In (PostReviewers repo' number' requested) before \/
  (repo' = repo /\ number' = number /\
   (List.length requested <= 3)%nat /\
   NoDup requested /\
   ~ In author requested /\
   (forall x, In x requested ->
      exists file k history,
        In file files /\
        commits w k repo (filename file) = Some history /\
        In (Some x) (map commit_author (firstn 3 history))) /\
   exists reads,
     snd (Bot.auto_assign_reviewers repo number files author w before)
     = before ++ reads ++ [PostReviewers repo number requested] /\
     Forall (fun r => is_mutation r = false) reads /\
     requested
     = firstn 3
         (set_order w
            (candidate_set (histories_read w (List.length before) reads)
               author))).
Proof.
  intros Hperm.
  destruct (assign_reviewers_run w repo number files author before)
    as [reads [Hreads Hrun]].
  assert (Hold : In (PostReviewers repo' number' requested) reads -> False).
  { intros Hin. rewrite Forall_forall in Hreads.
    specialize (Hreads _ Hin). discriminate Hreads. }
  destruct Hrun as [Hsnd|[reviewers [Hnd [Hfrom [Hset Hsnd]]]]].
  - rewrite Hsnd. intros Hin. left. apply in_app_or in Hin.
    destruct Hin as [Hin|Hin]; [exact Hin|destruct (Hold Hin)].
  - remember (firstn 3 (set_order w reviewers)) as picked eqn:Hpicked.
    rewrite Hsnd. intros Hin.
    apply in_app_or in Hin. destruct Hin as [Hin|Hin]; [now left|].
    apply in_app_or in Hin. destruct Hin as [Hin|[Hin|[]]];
      [destruct (Hold Hin)|].
    right. injection Hin as Hrepo Hnumber Hrequested.
    subst repo' number' requested.
    assert (Hsub : forall x, In x picked -> In x reviewers).
    { intros x Hx. rewrite Hpicked in Hx. apply In_firstn in Hx.
      exact (Permutation_in x (Hperm reviewers) Hx). }
    split; [reflexivity|]. split; [reflexivity|].
    split; [rewrite Hpicked; apply firstn_le_length|].
    split.
    { rewrite Hpicked. apply NoDup_firstn.
      apply (Permutation_NoDup (Permutation_sym (Hperm reviewers))), Hnd. }
    split.
    { intros Hin'. destruct (Hfrom _ (Hsub _ Hin')) as [Hne _].
      now apply Hne. }
    split.
    { intros x Hx. destruct (Hfrom _ (Hsub _ Hx)) as [_ H]. exact H. }
    exists reads. split; [reflexivity|]. split; [exact Hreads|].
    rewrite <- Hset. exact Hpicked.
Qed.

Lemma requested_reviewers_sound_witness :
  set_order_ok reversing_world /\
  In (PostReviewers "octo/repo" 7 ["bob"; "alice"])
     (snd (Bot.auto_assign_reviewers "octo/repo" 7
             [mkFile "a.py" (Some 4) None] "carol" reversing_world [])) /\
  NoDup ["bob"; "alice"] /\ ~ In "carol" ["bob"; "alice"] /\
  exists reads,
    snd (Bot.auto_assign_reviewers "octo/repo" 7
           [mkFile "a.py" (Some 4) None] "carol" reversing_world [])
    = [] ++ reads ++ [PostReviewers "octo/repo" 7 ["bob"; "alice"]] /\
    ["bob"; "alice"]
    = firstn 3
        (set_order reversing_world
           (candidate_set (histories_read reversing_world 0 reads) "carol")).
Proof.
  assert (Hperm : set_order_ok reversing_world)
    by (intros l; apply Permutation_sym, Permutation_rev).
  assert (Hin : In (PostReviewers "octo/repo" 7 ["bob"; "alice"])
                  (snd (Bot.auto_assign_reviewers "octo/repo" 7
                          [mkFile "a.py" (Some 4) None] "carol"
                          reversing_world [])))
    by (vm_compute; right; right; left; reflexivity).
  destruct (requested_reviewers_sound _ _ _ _ _ _ _ _ _ Hperm Hin)
    as [[]|[_ [_ [_ [Hnd [Hauthor [_ [reads [Hsnd [_ Hrequested]]]]]]]]]].
  split; [exact Hperm|]. split; [exact Hin|].
  split; [exact Hnd|]. split; [exact Hauthor|].
  exists reads. split; [exact Hsnd|exact Hrequested].
Defined.

(** C4 as stated fails on the order: alice is encountered before bob,
    the request lists bob first when the set is iterated that way. *)
Lemma reviewer_order_counterexample :
  set_order_ok reversing_world /\
  first_encountered [[mkCommit (Some "alice"); mkCommit (Some "bob")]] "carol"
  = ["alice"; "bob"] /\
  Bot.auto_assign_reviewers "octo/repo" 7 [mkFile "a.py" (Some 4) None]
    "carol" reversing_world []
  = (Ok tt, [ GetContents "octo/repo" "a.py";
              GetCommits "octo/repo" "a.py" 5;
              PostReviewers "octo/repo" 7 ["bob"; "alice"] ]).
Proof.
  split; [intros l; apply Permutation_sym, Permutation_rev|].
  split; vm_compute; reflexivity.
Qed.

End ReviewerFacts.

(* ===================================================================== *)
(** * Further properties of the analyzers of utils.py *)
(* ===================================================================== *)

Module UtilsFacts.
Import Re Utils Spec Samples ComplexityFacts AnalyzerFacts.

Lemma total_changes_perm files files' :
  Permutation files files' -> total_changes files = total_changes files'.
Proof.
  induction 1 as [|f l l' _ IH|f g l|l l' l'' _ IH1 _ IH2];
    cbn [total_changes]; lia.
Qed.

(** X1: the complexity signal does not depend on the order in which the
    platform lists the changed files. *)
Theorem complexity_order_independent files files' :
  Permutation files files' ->
  analyze_code_complexity files = analyze_code_complexity files'.
Proof.
  intros Hperm. unfold analyze_code_complexity.
  rewrite !sum_changes_total, (total_changes_perm _ _ Hperm),
    (Permutation_length Hperm).
  reflexivity.
Qed.

Lemma complexity_order_independent_witness :
  analyze_code_complexity (rev six_files) = analyze_code_complexity six_files.
Proof.
  apply complexity_order_independent. apply Permutation_sym, Permutation_rev.
Defined.

(** X2: the score lies between 0 and 5, and one more changed file whose
    change count is not negative never lowers it. *)
Theorem complexity_score_monotone f files :
  0 <= get_changes f ->
  0 <= score (analyze_code_complexity files) /\
  score (analyze_code_complexity files)
  <= score (analyze_code_complexity (f :: files)) /\
  score (analyze_code_complexity (f :: files)) <= 5.
Proof.
  intros Hf. rewrite !score_formula, sum_changes_cons.
  assert (Hlen : Z.of_nat (List.length (f :: files))
                 = Z.of_nat (List.length files) + 1)
    by (cbn [List.length]; lia).
  rewrite Hlen. unfold lines_bucket, files_bucket.
  split_tests; lia.
Qed.

Lemma complexity_score_monotone_witness :
  score (analyze_code_complexity six_files)
  <= score (analyze_code_complexity (mkFile "c.py" (Some 0) None :: six_files)).
Proof.
  assert (Hf : 0 <= get_changes (mkFile "c.py" (Some 0) None))
    by (cbn [get_changes changes]; lia).
  exact (proj1 (proj2 (complexity_score_monotone _ six_files Hf))).
Defined.

(** X3: breaking-change detection works file by file: the result for
    two lists put end to end is the two results put end to end, and it
    never has more paths than there are files. *)
Theorem detect_breaking_changes_app files files' :
  detect_breaking_changes (files ++ files')
  = detect_breaking_changes files ++ detect_breaking_changes files' /\
  (List.length (detect_breaking_changes files) <= List.length files)%nat.
Proof.
  unfold detect_breaking_changes. rewrite !detect_breaking_from. cbn [app].
  split.
  - now rewrite filter_app, map_app.
  - rewrite length_map. apply filter_length_le.
Qed.

(** X4: the vulnerability scan works file by file: the findings for two
    lists put end to end are the two lists of findings put end to end. *)
Theorem scan_for_vulnerabilities_app files files' :
  scan_for_vulnerabilities (files ++ files')
  = scan_for_vulnerabilities files ++ scan_for_vulnerabilities files'.
Proof.
  unfold scan_for_vulnerabilities. rewrite !scan_from. cbn [app].
  apply flat_map_app.
Qed.

Lemma file_findings_length f : (List.length (file_findings f) <= 10)%nat.
Proof.
  rewrite file_findings_spec. destruct (Py.truthy (patch f)); [|simpl; lia].
  change 10%nat with (List.length (flat_map snd Config.SECURITY_PATTERNS)).
  generalize Config.SECURITY_PATTERNS as cats.
  induction cats as [|cp cats IH]; cbn [flat_map]; [simpl; lia|].
  rewrite !length_app, length_map.
  pose proof (filter_length_le
                (fun p => search true p (Py.lower (patch_text f))) (snd cp)).
  lia.
Qed.

Lemma file_findings_origin f v :
  In v (file_findings f) ->
  Py.truthy (patch f) = true /\ ffile v = filename f /\
  In (ftype v) security_categories.
Proof.
  unfold file_findings, triples. cbn [flat_map]. rewrite app_nil_r.
  intros Hin. apply in_map_iff in Hin.
  destruct Hin as [[[g category] p] [Hv Hin]]. subst v.
  apply filter_In in Hin. destruct Hin as [Hin Hm].
  apply in_flat_map in Hin. destruct Hin as [cp [Hcp Hin]].
  apply in_map_iff in Hin. destruct Hin as [q [Hq _]].
  injection Hq as <- <- <-.
  cbn [triple_matches] in Hm. apply andb_true_iff in Hm.
  split; [exact (proj1 Hm)|]. split; [reflexivity|].
  cbn [finding_of ftype]. apply (in_map fst) in Hcp. exact Hcp.
Qed.

(** X5: a finding always names a file of the input that has patch text
    and one of the three categories of the catalog, and a scan yields at
    most ten findings per file. *)
Theorem scan_for_vulnerabilities_bounds files :
  (forall v, In v (scan_for_vulnerabilities files) ->
     In (ftype v) security_categories /\
     exists f, In f files /\ Py.truthy (patch f) = true /\
               ffile v = filename f) /\
  (List.length (scan_for_vulnerabilities files) <= 10 * List.length files)%nat.
Proof.
  unfold scan_for_vulnerabilities. rewrite scan_from. cbn [app]. split.
  - intros v Hin. apply in_flat_map in Hin. destruct Hin as [f [Hf Hin]].
    destruct (file_findings_origin _ _ Hin) as [Ht [Hname Hcat]].
    split; [exact Hcat|]. exists f. auto.
  - induction files as [|f files IH]; cbn [flat_map List.length]; [lia|].
    rewrite length_app. pose proof (file_findings_length f). lia.
Qed.

Lemma scan_for_vulnerabilities_bounds_witness :
  let v := {| ftype := "dangerous_functions"; ffile := "run.py";
              severity := "medium" |} in
  In v (scan_for_vulnerabilities [mkFile "run.py" None (Some "+EVAL (x)")]) /\
  In (ftype v) security_categories.
Proof.
  intros v.
  assert (Hin : In v (scan_for_vulnerabilities
                        [mkFile "run.py" None (Some "+EVAL (x)")]))
    by (vm_compute; left; reflexivity).
  split; [exact Hin|].
  exact (proj1 (proj1 (scan_for_vulnerabilities_bounds _) v Hin)).
Defined.

End UtilsFacts.

(* ===================================================================== *)
(** * Extensions, mentions and the helpers of utils.py *)
(* ===================================================================== *)

Module HelperFacts.
Import Re Utils Spec Samples TextFacts.

(** Splitting on one character. *)
Lemma contains_char_cons a c s :
  Py.contains (String a EmptyString) (String c s)
  = Ascii.eqb c a || Py.contains (String a EmptyString) s.
Proof.
  cbn [Py.contains]. rewrite prefix_cons, Ascii.eqb_sym.
  destruct (Ascii.eqb c a); cbn [andb orb]; [|reflexivity].
  now destruct s.
Qed.

Lemma split_on_char_cons a c s :
  Py.split_on (String a EmptyString) (String c s)
  = if Ascii.eqb c a then EmptyString :: Py.split_on (String a EmptyString) s
    else match Py.split_on (String a EmptyString) s with
         | p :: ps => String c p :: ps
         | [] => [String c EmptyString]
         end.
Proof.
  unfold Py.split_on. cbn [Py.split_from].
  rewrite prefix_cons, Ascii.eqb_sym.
  destruct (Ascii.eqb c a); cbn [andb]; [|reflexivity].
  now destruct s.
Qed.

Lemma split_on_char_none a s :
  Py.contains (String a EmptyString) s = false ->
  Py.split_on (String a EmptyString) s = [s].
Proof.
  induction s as [|c s IH]; [reflexivity|].
  rewrite contains_char_cons, split_on_char_cons.
  intros H. apply orb_false_iff in H. destruct H as [Hc Hs].
  now rewrite Hc, (IH Hs).
Qed.

(** A text with the separator falls in two pieces or more. *)
Lemma split_on_char_pieces a s :
  Py.contains (String a EmptyString) s = true ->
  (2 <= List.length (Py.split_on (String a EmptyString) s))%nat.
Proof.
  induction s as [|c s IH]; [discriminate|].
  rewrite contains_char_cons, split_on_char_cons.
  destruct (Ascii.eqb c a); cbn [orb].
  - intros _. destruct (Py.split_on (String a EmptyString) s) eqn:Hs;
      [exfalso; exact (split_from_nonempty _ _ _ Hs)|simpl; lia].
  - intros Hs. specialize (IH Hs).
    destruct (Py.split_on (String a EmptyString) s); simpl in *; lia.
Qed.

(** The last piece holds no separator, and the text is what comes
    before it, the separator, and that piece. *)
Lemma last_piece a s :
  Py.contains (String a EmptyString) s = true ->
  exists before rest,
    last (Py.split_on (String a EmptyString) s) EmptyString = rest /\
    s = (before ++ String a rest)%string /\
    Py.contains (String a EmptyString) rest = false.
Proof.
  induction s as [|c s IH]; [discriminate|].
  rewrite contains_char_cons, split_on_char_cons.
  destruct (Ascii.eqb_spec c a) as [->|Hne]; cbn [orb].
  - intros _.
    destruct (Py.contains (String a EmptyString) s) eqn:Hs.
    + destruct (IH eq_refl) as [before [rest [Hlast [Heq Hno]]]].
      exists (String a before), rest. split; [|split].
      * destruct (Py.split_on (String a EmptyString) s) as [|p ps] eqn:Hp.
        -- exfalso. exact (split_from_nonempty _ _ _ Hp).
        -- exact Hlast.
      * cbn [append]. now rewrite <- Heq.
      * exact Hno.
    + exists EmptyString, s. rewrite (split_on_char_none _ _ Hs).
      split; [reflexivity|]. split; [reflexivity|exact Hs].
  - intros Hs. destruct (IH Hs) as [before [rest [Hlast [Heq Hno]]]].
    pose proof (split_on_char_pieces _ _ Hs) as Hlen.
    exists (String c before), rest. split; [|split].
    + destruct (Py.split_on (String a EmptyString) s) as [|p [|q ps]];
        [simpl in Hlen; lia|simpl in Hlen; lia|exact Hlast].
    + cbn [append]. now rewrite <- Heq.
    + exact Hno.
Qed.

(** X6: the extension of a name without a dot is empty; otherwise it is
    the end of the name from its last dot on, so it starts with a dot
    and holds no other. *)
Theorem extension_is_last_dot (name : string) :
  (Py.contains "." name = false -> extension name = EmptyString) /\
  (Py.contains "." name = true ->
   exists before rest,
     extension name = String "." rest /\
     name = (before ++ extension name)%string /\
     Py.contains "." rest = false).
Proof.
  unfold extension. split; intros H; rewrite H; [reflexivity|].
  destruct (last_piece "." name H) as [before [rest [Hlast [Heq Hno]]]].
  exists before, rest. rewrite Hlast. auto.
Qed.

Lemma extension_is_last_dot_witness :
  extension "src/archive.tar.gz" = ".gz" /\
  exists before rest,
    extension "src/archive.tar.gz" = String "." rest /\
    "src/archive.tar.gz" = (before ++ extension "src/archive.tar.gz")%string /\
    Py.contains "." rest = false.
Proof.
  split; [reflexivity|].
  exact (proj2 (extension_is_last_dot "src/archive.tar.gz") eq_refl).
Defined.

(** The run of word characters that starts a text. *)
Lemma word_run_all_word s : all_word (word_run s) = true.
Proof.
  induction s as [|c s IH]; [reflexivity|]. cbn [word_run].
  destruct (isword c) eqn:Hc; [|reflexivity]. cbn [all_word].
  now rewrite Hc, IH.
Qed.

Lemma word_run_prefix s : String.prefix (word_run s) s = true.
Proof.
  induction s as [|c s IH]; [reflexivity|]. cbn [word_run].
  destruct (isword c); [|reflexivity].
  now rewrite prefix_cons, Ascii.eqb_refl, IH.
Qed.

Lemma contains_cons sub c s :
  Py.contains sub s = true -> Py.contains sub (String c s) = true.
Proof.
  intros H. cbn [Py.contains].
  destruct (String.prefix sub (String c s)); [reflexivity|exact H].
Qed.

Lemma mentions_from_spec skip text user :
  In user (mentions_from skip text) ->
  user <> EmptyString /\ all_word user = true /\
  Py.contains (String "@" user) text = true.
Proof.
  revert skip. induction text as [|c s IH]; intros skip; [intros []|].
  cbn [mentions_from]. destruct skip as [|k].
  - destruct (Ascii.eqb_spec c "@") as [->|Hne].
    + destruct (word_run s) as [|d w] eqn:Hw.
      * intros Hin. destruct (IH _ Hin) as [H1 [H2 H3]].
        split; [exact H1|]. split; [exact H2|]. now apply contains_cons.
      * intros [<-|Hin].
        -- split; [discriminate|]. split.
           ++ rewrite <- Hw. apply word_run_all_word.
           ++ cbn [Py.contains].
              rewrite prefix_cons, Ascii.eqb_refl, <- Hw, word_run_prefix.
              reflexivity.
        -- destruct (IH _ Hin) as [H1 [H2 H3]].
           split; [exact H1|]. split; [exact H2|]. now apply contains_cons.
    + intros Hin. destruct (IH _ Hin) as [H1 [H2 H3]].
      split; [exact H1|]. split; [exact H2|]. now apply contains_cons.
  - intros Hin. destruct (IH _ Hin) as [H1 [H2 H3]].
    split; [exact H1|]. split; [exact H2|]. now apply contains_cons.
Qed.

Lemma mentions_from_none skip text :
  Py.contains "@" text = false -> mentions_from skip text = [].
Proof.
  revert skip. induction text as [|c s IH]; intros skip H; [reflexivity|].
  rewrite contains_at_cons in H. apply orb_false_iff in H.
  destruct H as [Hc Hs]. cbn [mentions_from]. rewrite Hc.
  destruct skip; now apply IH.
Qed.

(** X8: every user that [extract_mentioned_users] returns is a non-empty
    run of word characters that the text shows right after an [@]; a
    text without [@] mentions nobody. *)
Theorem extract_mentioned_users_spec (text : string) :
  (forall user, In user (extract_mentioned_users text) ->
     user <> EmptyString /\ all_word user = true /\
     Py.contains (String "@" user) text = true) /\
  (Py.contains "@" text = false -> extract_mentioned_users text = []).
Proof.
  split.
  - intros user. apply mentions_from_spec.
  - apply mentions_from_none.
Qed.

Lemma extract_mentioned_users_spec_witness :
  extract_mentioned_users "cc @alice, @bob-smith (@ nobody)" = ["alice"; "bob"] /\
  all_word "bob" = true /\
  Py.contains "@bob" "cc @alice, @bob-smith (@ nobody)" = true.
Proof.
  assert (Hin : In "bob" (extract_mentioned_users
                            "cc @alice, @bob-smith (@ nobody)"))
    by (vm_compute; right; left; reflexivity).
  split; [reflexivity|].
  exact (proj2 (proj1 (extract_mentioned_users_spec _) "bob" Hin)).
Defined.

(** X7: [generate_issue_template_suggestion] raises exactly when the
    body is [None] and the title mentions a bug or a feature; otherwise
    it asks for more details exactly when the body is missing or shorter
    than 50 characters, and a body of 50 characters or more that says
    how to reproduce and why gets no suggestion, whatever the title. *)
Theorem issue_suggestion_edges (title : string) (body : option string) :
  (generate_issue_template_suggestion title body = None <->
   body = None /\
   (Py.contains "bug" (Py.lower title) = true \/
    Py.contains "feature" (Py.lower title) = true)) /\
  (forall suggestions,
     generate_issue_template_suggestion title body = Some suggestions ->
     (In MoreDetails suggestions <->
      match body with
      | Some b => (String.length b < 50)%nat
      | None => True
      end)) /\
  (forall b, body = Some b ->
     (50 <= String.length b)%nat ->
     Py.contains "reproduce" (Py.lower b) = true ->
     Py.contains "why" (Py.lower b) = true ->
     generate_issue_template_suggestion title body = Some []).
Proof.
  unfold generate_issue_template_suggestion, body_lower.
  split; [|split].
  - destruct body as [b|];
      destruct (Py.contains "bug" (Py.lower title));
      destruct (Py.contains "feature" (Py.lower title));
      split; try discriminate; try tauto;
      try (intros [H _]; discriminate H);
      try (intros [_ [H|H]]; discriminate H).
  - intros suggestions. destruct body as [b|].
    + assert (Hshort : negb (Py.truthy (Some b))
                       || (String.length b <? 50)%nat
                       = (String.length b <? 50)%nat).
      { destruct b; reflexivity. }
      rewrite Hshort.
      destruct (Nat.ltb_spec (String.length b) 50) as [Hlt|Hge];
        destruct (Py.contains "bug" (Py.lower title));
        destruct (Py.contains "feature" (Py.lower title));
        destruct (Py.contains "reproduce" (Py.lower b));
        destruct (Py.contains "why" (Py.lower b));
        cbn [negb app]; intros H; injection H as <-; simpl;
        split; intros H; try lia; try tauto;
        repeat (destruct H as [H|H]; try discriminate H); try lia;
        try contradiction.
    + destruct (Py.contains "bug" (Py.lower title)); [discriminate|].
      destruct (Py.contains "feature" (Py.lower title)); [discriminate|].
      cbn. intros H. injection H as <-. simpl. tauto.
  - intros b -> Hlen Hrep Hwhy. rewrite Hrep, Hwhy.
    assert (Hshort : negb (Py.truthy (Some b))
                     || (String.length b <? 50)%nat = false).
    { destruct b as [|c b]; [simpl in Hlen; lia|].
      cbn [Py.truthy negb orb]. apply Nat.ltb_ge. exact Hlen. }
    rewrite Hshort.
    destruct (Py.contains "bug" (Py.lower title));
      destruct (Py.contains "feature" (Py.lower title)); reflexivity.
Qed.

Lemma issue_suggestion_edges_witness :
  generate_issue_template_suggestion "Bug in login" None = None /\
  generate_issue_template_suggestion "Question" None = Some [MoreDetails] /\
  In MoreDetails [MoreDetails].
Proof.
  destruct (issue_suggestion_edges "Bug in login" None) as [[_ Hraise] _].
  destruct (issue_suggestion_edges "Question" None) as [_ [Hmore _]].
  split; [apply Hraise; split; [reflexivity|left; reflexivity]|].
  split; [reflexivity|].
  exact (proj2 (Hmore [MoreDetails] eq_refl) I).
Defined.

Lemma collect_stats_spec contributors stats :
  collect_stats contributors stats
  = if forallb complete contributors
    then Some (stats ++ map stat_of contributors) else None.
Proof.
  revert stats. induction contributors as [|c cs IH]; intros stats.
  - simpl. now rewrite app_nil_r.
  - cbn [collect_stats forallb map]. unfold complete at 1, stat_of at 1.
    destruct (c_login c), (c_contributions c), (c_avatar_url c);
      cbn [present andb]; try reflexivity.
    rewrite IH. destruct (forallb complete cs); [|reflexivity].
    now rewrite <- app_assoc.
Qed.

(** X9: [get_contributor_stats] never returns more than five entries and
    never raises; it gives the first five contributors in the order of
    the platform when each of them has its three keys, and nothing at
    all when the call fails or one of these five lacks a key. *)
Theorem contributor_stats_all_or_nothing
    (github_api_func : string -> string -> option (list Contributor))
    (repo : string) :
  let answer :=
    github_api_func "GET"
      ("/repos/" ++ repo ++ "/contributors?per_page=10")%string in
  (List.length (get_contributor_stats github_api_func repo) <= 5)%nat /\
  (answer = None -> get_contributor_stats github_api_func repo = []) /\
  (forall contributors, answer = Some contributors ->
     (forallb complete (firstn 5 contributors) = true ->
      get_contributor_stats github_api_func repo
      = map stat_of (firstn 5 contributors)) /\
     (forallb complete (firstn 5 contributors) = false ->
      get_contributor_stats github_api_func repo = [])).
Proof.
  intros answer. unfold get_contributor_stats. fold answer.
  destruct answer as [contributors|].
  - rewrite collect_stats_spec. cbn [app]. split; [|split].
    + destruct (forallb complete (firstn 5 contributors)); [|simpl; lia].
      rewrite length_map. apply firstn_le_length.
    + discriminate.
    + intros cs H. injection H as <-.
      split; intros ->; reflexivity.
  - split; [simpl; lia|]. split; [reflexivity|discriminate].
Qed.

Lemma contributor_stats_all_or_nothing_witness :
  get_contributor_stats
    (fun _ _ => Some [ mkContributor (Some "alice") (Some 12) (Some "a.png");
                       mkContributor (Some "bob") None (Some "b.png") ])
    "octo/repo"
  = [].
Proof.
  destruct (contributor_stats_all_or_nothing
              (fun _ _ => Some [ mkContributor (Some "alice") (Some 12)
                                   (Some "a.png");
                                 mkContributor (Some "bob") None
                                   (Some "b.png") ])
              "octo/repo") as [_ [_ Hanswer]].
  exact (proj2 (Hanswer _ eq_refl) eq_refl).
Defined.

(** X10: [format_time_ago] shows days only from one full day on; below
    that it shows 1 to 23 hours or 0 to 60 minutes, one hour exactly
    being 60 minutes; a timestamp up to one hour in the future is shown
    as 23 hours ago, and one that cannot be parsed as recently. *)
Theorem format_time_ago_ranges (dt now : Z) :
  let diff := now - dt in
  (day_us <= diff ->
   format_time_ago (Some dt) now = DaysAgo (diff / day_us) /\
   1 <= diff / day_us) /\
  (diff < day_us ->
   exists n,
     (format_time_ago (Some dt) now = HoursAgo n /\ 1 <= n <= 23) \/
     (format_time_ago (Some dt) now = MinutesAgo n /\ 0 <= n <= 60)) /\
  (3600 * 1000000 <= diff < 3601 * 1000000 ->
   format_time_ago (Some dt) now = MinutesAgo 60) /\
  (- (3600 * 1000000) <= diff < 0 ->
   format_time_ago (Some dt) now = HoursAgo 23) /\
  format_time_ago None now = Recently.
Proof.
  intros diff. unfold format_time_ago. fold diff. cbv zeta.
  unfold day_us.
  pose proof (Z.div_mod diff (86400 * 1000000) ltac:(lia)) as Hdm.
  pose proof (Z.mod_pos_bound diff (86400 * 1000000) ltac:(lia)) as Hmod.
  set (days := diff / (86400 * 1000000)) in *.
  set (rest := diff mod (86400 * 1000000)) in *.
  pose proof (Z.div_mod rest 1000000 ltac:(lia)) as Hsm.
  pose proof (Z.mod_pos_bound rest 1000000 ltac:(lia)) as Hsmod.
  set (seconds := rest / 1000000) in *.
  pose proof (Z.div_mod seconds 3600 ltac:(lia)) as Hh.
  pose proof (Z.mod_pos_bound seconds 3600 ltac:(lia)) as Hhmod.
  pose proof (Z.div_mod seconds 60 ltac:(lia)) as Hm.
  pose proof (Z.mod_pos_bound seconds 60 ltac:(lia)) as Hmmod.
  rewrite !Z.gtb_ltb.
  split; [|split; [|split; [|split]]].
  - intros Hd. assert (1 <= days) by lia.
    destruct (Z.ltb_spec 0 days); [split; [reflexivity|lia]|lia].
  - intros Hd. assert (days <= 0) by lia.
    destruct (Z.ltb_spec 0 days); [lia|].
    destruct (Z.ltb_spec 3600 seconds).
    + exists (seconds / 3600). left. split; [reflexivity|lia].
    + exists (seconds / 60). right. split; [reflexivity|lia].
  - intros Hd. assert (days = 0) by lia. assert (seconds = 3600) by lia.
    destruct (Z.ltb_spec 0 days); [lia|].
    destruct (Z.ltb_spec 3600 seconds); [lia|].
    f_equal. lia.
  - intros Hd. assert (days = -1) by lia.
    assert (82800 <= seconds <= 86399) by lia.
    destruct (Z.ltb_spec 0 days); [lia|].
    destruct (Z.ltb_spec 3600 seconds); [|lia].
    f_equal. lia.
  - reflexivity.
Qed.

Lemma format_time_ago_ranges_witness :
  format_time_ago (Some 1000000) 0 = HoursAgo 23 /\
  format_time_ago (Some 0) (3600 * 1000000) = MinutesAgo 60.
Proof.
  split.
  - apply (proj1 (proj2 (proj2 (proj2 (format_time_ago_ranges 1000000 0))))).
    lia.
  - apply (proj1 (proj2 (proj2 (format_time_ago_ranges 0 (3600 * 1000000))))).
    lia.
Defined.

End HelperFacts.

(* ===================================================================== *)
(** * Further properties of the two webhook handlers *)
(* ===================================================================== *)

Module HandlerFacts.
Import Spec Samples RouterFacts TextFacts CommandFacts.
Local Open Scope handler_scope.

(** X14: an event whose type is none of [pull_request], [issues] and
    [issue_comment] (or whose type header is absent) is answered 200 by
    [bot.py] without any call, whatever its payload has or lacks; so it
    is by [github_app.py] when the payload carries an installation
    id. *)
Theorem other_event_types_need_no_key (d : Delivery) (w : World)
    (tr : list Request) :
  is_event (event d) "pull_request" = false ->
  is_event (event d) "issues" = false ->
  is_event (event d) "issue_comment" = false ->
  Bot.webhook d w tr = (Ok 200, tr) /\
  (GithubApp.no_installation (payload d) = false ->
   GithubApp.webhook d w tr = (Ok 200, tr)).
Proof.
  intros Hpr Hiss Hic. unfold Bot.webhook, GithubApp.webhook.
  rewrite Hpr, Hiss, Hic. split; [reflexivity|]. now intros ->.
Qed.

Lemma other_event_types_need_no_key_witness :
  Bot.webhook (bare_delivery None) quiet_world [] = (Ok 200, []) /\
  GithubApp.webhook (bare_delivery (Some "ping")) quiet_world [] = (Ok 200, []).
Proof.
  split.
  - exact (proj1 (other_event_types_need_no_key (bare_delivery None)
                    quiet_world [] eq_refl eq_refl eq_refl)).
  - exact (proj2 (other_event_types_need_no_key (bare_delivery (Some "ping"))
                    quiet_world [] eq_refl eq_refl eq_refl) eq_refl).
Defined.

(** X15: a [pull_request] event that lacks the action, the repository
    or the pull request raises [KeyError] before any call, whatever its
    action is; so does an [issues] or [issue_comment] event that lacks
    the action. *)
Theorem missing_key_raises (d : Delivery) (w : World) (tr : list Request) :
  (is_event (event d) "pull_request" = true ->
   present (action (payload d))
   && present (repository_full_name (payload d))
   && present (pull_request (payload d)) = false ->
   Bot.webhook d w tr = (Raised KeyError, tr) /\
   (GithubApp.no_installation (payload d) = false ->
    GithubApp.webhook d w tr = (Raised KeyError, tr))) /\
  (is_event (event d) "issues" = true \/
   is_event (event d) "issue_comment" = true ->
   action (payload d) = None ->
   Bot.webhook d w tr = (Raised KeyError, tr) /\
   (GithubApp.no_installation (payload d) = false ->
    GithubApp.webhook d w tr = (Raised KeyError, tr))).
Proof.
  destruct d as [e [a r pr i c inst]]. cbn [event payload action
    repository_full_name pull_request]. split.
  - intros He Hkeys. unfold Bot.webhook, GithubApp.webhook.
    cbn [event payload action repository_full_name pull_request].
    rewrite He.
    destruct a as [a|]; [|split; [reflexivity|now intros ->]].
    destruct r as [r|]; [|split; [reflexivity|now intros ->]].
    destruct pr as [pr|]; [discriminate Hkeys|].
    split; [reflexivity|now intros ->].
  - intros He ->. unfold Bot.webhook, GithubApp.webhook.
    cbn [event payload action]. unfold is_event in *.
    destruct e as [e|]; [|destruct He; discriminate].
    destruct (String.eqb_spec e "pull_request") as [->|_];
      [destruct He as [He|He]; discriminate He|].
    destruct He as [He|He]; rewrite He.
    + split; [reflexivity|now intros ->].
    + destruct (String.eqb_spec e "issues") as [->|_]; [discriminate He|].
      split; [reflexivity|now intros ->].
Qed.

Lemma missing_key_raises_witness :
  Bot.webhook
    {| event := Some "pull_request";
       payload := mkPayload (Some "labeled") (Some "octo/repo") None
                    None None (Some 42) |}
    quiet_world []
  = (Raised KeyError, []) /\
  GithubApp.webhook (bare_delivery (Some "issues")) quiet_world []
  = (Raised KeyError, []).
Proof.
  split.
  - exact (proj1 (proj1 (missing_key_raises
                           {| event := Some "pull_request";
                              payload :=
                                mkPayload (Some "labeled") (Some "octo/repo")
                                  None None None (Some 42) |}
                           quiet_world []) eq_refl eq_refl)).
  - exact (proj2 (proj2 (missing_key_raises (bare_delivery (Some "issues"))
                           quiet_world [])
                    (or_introl eq_refl) eq_refl) eq_refl).
Defined.

Lemma recognised_false cmd :
  recognised cmd = false ->
  String.eqb cmd "/help" = false /\ String.eqb cmd "/close" = false /\
  String.eqb cmd "/changelog" = false /\ String.eqb cmd "/joke" = false /\
  String.eqb cmd "/motivate" = false /\
  Py.startswith cmd "/assign" = false /\ Py.startswith cmd "/label" = false.
Proof.
  unfold recognised. cbn [existsb].
  destruct (String.eqb cmd "/help"), (String.eqb cmd "/close"),
    (String.eqb cmd "/changelog"), (String.eqb cmd "/joke"),
    (String.eqb cmd "/motivate"), (Py.startswith cmd "/assign"),
    (Py.startswith cmd "/label");
    cbn [orb]; intros H; try discriminate H; repeat split; reflexivity.
Qed.

Lemma run_command_unstarted repo number commenter text w tr :
  Py.startswith text "/" = false ->
  Bot.run_command repo number commenter text w tr = (Ok tt, tr) /\
  GithubApp.run_command repo number text w tr = (Ok tt, tr).
Proof.
  intros H. unfold Bot.run_command, GithubApp.run_command. now rewrite H.
Qed.

Lemma run_command_unrecognised repo number commenter text cmd rest w tr :
  Py.split (Py.lower text) = cmd :: rest ->
  recognised cmd = false ->
  Bot.run_command repo number commenter text w tr = (Ok tt, tr) /\
  GithubApp.run_command repo number text w tr = (Ok tt, tr).
Proof.
  intros Hsplit Hrec.
  destruct (recognised_false _ Hrec)
    as [Hhelp [Hclose [Hlog [Hjoke [Hmot [Hassign Hlabel]]]]]].
  unfold Bot.run_command, GithubApp.run_command.
  destruct (Py.startswith text "/"); [|split; reflexivity].
  rewrite Hsplit. unfold index, bind, ret. cbn [nth_error].
  rewrite Hhelp, Hclose, Hlog, Hjoke, Hmot, Hassign, Hlabel.
  split; reflexivity.
Qed.

(** X16: a comment that does not start with a slash, or whose first
    token is none of the seven verbs ([/help], [/close], [/changelog],
    [/joke], [/motivate] exactly, [/assign] and [/label] as prefixes),
    is answered 200 without any call. *)
Theorem unrecognised_comment_is_ignored d w repo number commenter text :
  is_command d repo number commenter text ->
  (Py.startswith text "/" = false \/
   exists cmd rest,
     Py.split (Py.lower text) = cmd :: rest /\ recognised cmd = false) ->
  Bot.webhook d w [] = (Ok 200, []) /\
  (GithubApp.no_installation (payload d) = false ->
   GithubApp.webhook d w [] = (Ok 200, [])).
Proof.
  intros Hcmd Hcase.
  assert (Hrun : Bot.run_command repo number commenter text w [] = (Ok tt, [])
                 /\ GithubApp.run_command repo number text w [] = (Ok tt, [])).
  { destruct Hcase as [Hslash|[cmd [rest [Hsplit Hrec]]]].
    - now apply run_command_unstarted.
    - now apply (run_command_unrecognised _ _ _ _ cmd rest). }
  destruct Hrun as [Hbot Happ]. split.
  - rewrite (bot_webhook_command _ _ _ _ _ _ _ Hcmd).
    unfold bind. now rewrite Hbot.
  - intros Hinst. rewrite (app_webhook_command _ _ _ _ _ _ _ Hcmd Hinst).
    unfold bind. now rewrite Happ.
Qed.

Lemma unrecognised_comment_is_ignored_witness :
  Bot.webhook (comment_delivery "/reopen please") quiet_world []
  = (Ok 200, []) /\
  GithubApp.webhook (comment_delivery "thanks, /close this") quiet_world []
  = (Ok 200, []).
Proof.
  split.
  - assert (Hverb : Py.startswith "/reopen please" "/" = false \/
                    exists cmd rest,
                      Py.split (Py.lower "/reopen please") = cmd :: rest /\
                      recognised cmd = false)
      by (right; exists "/reopen", ["please"]; split; reflexivity).
    exact (proj1 (unrecognised_comment_is_ignored _ quiet_world _ _ _ _
                    (comment_delivery_command "/reopen please") Hverb)).
  - assert (Hverb : Py.startswith "thanks, /close this" "/" = false \/
                    exists cmd rest,
                      Py.split (Py.lower "thanks, /close this") = cmd :: rest /\
                      recognised cmd = false)
      by (left; reflexivity).
    exact (proj2 (unrecognised_comment_is_ignored _ quiet_world _ _ _ _
                    (comment_delivery_command "thanks, /close this") Hverb)
             eq_refl).
Defined.







(** X19: a closed pull request is thanked for, by one comment that
    names its author, when and only when it was merged; closed without
    [merged], or with [merged] false, it causes no call. *)
Theorem thanks_only_when_merged d w repo pr :
  event d = Some "pull_request" ->
  action (payload d) = Some "closed" ->
  repository_full_name (payload d) = Some repo ->
  pull_request (payload d) = Some pr ->
  (pr_merged pr = Some true ->
   Bot.webhook d w []
   = (send (PostComment repo (pr_number pr) (BThanks (pr_user_login pr))) ;;
      ret 200) w [] /\
   (GithubApp.no_installation (payload d) = false ->
    GithubApp.webhook d w []
    = (send (PostComment repo (pr_number pr) (BThanks (pr_user_login pr))) ;;
       ret 200) w [])) /\
  (pr_merged pr <> Some true ->
   Bot.webhook d w [] = (Ok 200, []) /\
   (GithubApp.no_installation (payload d) = false ->
    GithubApp.webhook d w [] = (Ok 200, []))).
Proof.
  intros He Ha Hr Hpr. unfold Bot.webhook, GithubApp.webhook.
  rewrite He, Ha, Hr, Hpr. unfold is_event. eval_eqb.
  unfold bind, item, ret. eval_eqb. cbn [andb]. split.
  - intros Hm. rewrite Hm. split; [reflexivity|]. now intros ->.
  - intros Hm.
    assert (Hf : match pr_merged pr with Some b => b | None => false end
                 = false)
      by (destruct (pr_merged pr) as [[|]|]; [contradiction|reflexivity..]).
    rewrite Hf. split; [reflexivity|]. now intros ->.
Qed.

Lemma thanks_only_when_merged_witness :
  Bot.webhook (closed_delivery (Some true)) quiet_world []
  = (Ok 200, [PostComment "octo/repo" 3 (BThanks "erin")]) /\
  GithubApp.webhook (closed_delivery None) quiet_world [] = (Ok 200, []).
Proof.
  split.
  - destruct (thanks_only_when_merged (closed_delivery (Some true))
                quiet_world "octo/repo"
                (mkPullRequest 3 "erin" (Some true) "Fix login")
                eq_refl eq_refl eq_refl eq_refl) as [Hmerged _].
    rewrite (proj1 (Hmerged eq_refl)). reflexivity.
  - destruct (thanks_only_when_merged (closed_delivery None)
                quiet_world "octo/repo"
                (mkPullRequest 3 "erin" None "Fix login")
                eq_refl eq_refl eq_refl eq_refl) as [_ Hnot].
    assert (Hm : pr_merged (mkPullRequest 3 "erin" None "Fix login")
                 <> Some true) by discriminate.
    exact (proj2 (Hnot Hm) eq_refl).
Defined.

(** X20: the review step of [github_app.py] never raises, whatever the
    suggester and the platform do; it makes one call at most, the
    review comment, and only with a key set and five files or fewer. *)
Theorem app_ai_review_never_raises files repo number w tr :
  exists added,
    GithubApp.ai_code_review files repo number w tr = (Ok tt, tr ++ added) /\
    (added = [] \/
     exists review,
       added = [PostComment repo number (BAIReview review)] /\
       OPENAI_KEY w = true /\ (List.length files <= 5)%nat).
Proof.
  unfold GithubApp.ai_code_review, bind, ask.
  destruct (OPENAI_KEY w) eqn:Hkey; cbn [negb orb].
  - rewrite Z.gtb_ltb.
    destruct (Z.ltb_spec 5 (Z.of_nat (List.length files))) as [Hmany|Hfew].
    + exists []. rewrite app_nil_r. split; [reflexivity|now left].
    + unfold try_pass, bind, ask, send, raise.
      destruct (suggest w _) as [review|].
      * exists [PostComment repo number (BAIReview review)].
        split; [destruct (accepts_mutation w _ _); reflexivity|].
        right. exists review. split; [reflexivity|]. split; [reflexivity|lia].
      * exists []. rewrite app_nil_r. split; [reflexivity|now left].
  - exists []. rewrite app_nil_r. split; [reflexivity|now left].
Qed.

(** Handlers that are left at the first rejected mutation. *)
Lemma mutations_read tr r :
  is_mutation r = false -> mutations (tr ++ [r]) = mutations tr.
Proof.
  intros H. unfold mutations. rewrite filter_app. cbn [filter].
  rewrite H. now rewrite app_nil_r.
Qed.

Lemma mutations_one tr r : (mutations (tr ++ [r]) <= mutations tr + 1)%nat.
Proof.
  unfold mutations. rewrite filter_app, length_app. cbn [filter].
  destruct (is_mutation r); simpl; lia.
Qed.

Lemma sar_pure {A : Type} w (m : M A) :
  (forall tr, snd (m w tr) = tr) -> stops_at_rejection w m.
Proof. intros H tr. rewrite H. split; [reflexivity|lia]. Qed.

Lemma sar_ret {A : Type} w (a : A) : stops_at_rejection w (ret a).
Proof. now apply sar_pure. Qed.

Lemma sar_raise {A : Type} w e : stops_at_rejection w (@raise A e).
Proof. now apply sar_pure. Qed.

Lemma sar_item {A : Type} w (o : option A) : stops_at_rejection w (item o).
Proof. apply sar_pure. now destruct o. Qed.

Lemma sar_index {A : Type} w (l : list A) i : stops_at_rejection w (index l i).
Proof. apply sar_pure. intros tr. unfold index. now destruct (nth_error l i). Qed.

Lemma sar_ask {A : Type} w (field : World -> A) :
  stops_at_rejection w (ask field).
Proof. now apply sar_pure. Qed.

Lemma sar_get {A : Type} w r (answer : World -> nat -> option A) :
  is_mutation r = false -> stops_at_rejection w (get r answer).
Proof.
  intros Hr tr. unfold get.
  destruct (answer w (List.length tr)); cbn [fst snd];
    rewrite (mutations_read _ _ Hr); split; try reflexivity; lia.
Qed.

Lemma sar_send w r : rejects_all w -> stops_at_rejection w (send r).
Proof.
  intros Hw tr. unfold send. rewrite Hw. cbn [fst snd].
  split; [discriminate|apply mutations_one].
Qed.

Lemma sar_bind {A B : Type} w (m : M A) (f : A -> M B) :
  stops_at_rejection w m -> (forall a, stops_at_rejection w (f a)) ->
  stops_at_rejection w (bind m f).
Proof.
  intros Hm Hf tr. unfold bind. destruct (Hm tr) as [Hok Hone].
  destruct (m w tr) as [[a|e] tr'] eqn:Hrun; cbn [fst snd] in *.
  - specialize (Hok a eq_refl). destruct (Hf a tr') as [Hok' Hone'].
    rewrite Hok in Hok', Hone'. split; assumption.
  - split; [discriminate|exact Hone].
Qed.

Lemma sar_for_each {A B : Type} w (l : list A) (body : B -> A -> M B) acc :
  (forall acc x, stops_at_rejection w (body acc x)) ->
  stops_at_rejection w (for_each l acc body).
Proof.
  intros Hbody. revert acc. induction l as [|x l IH]; intros acc.
  - apply sar_ret.
  - cbn [for_each]. apply sar_bind; [apply Hbody|exact IH].
Qed.

Ltac sar_step :=
  first
    [ apply sar_ret | apply sar_raise | apply sar_item | apply sar_index
    | apply sar_ask
    | apply sar_send; assumption
    | apply sar_get; reflexivity
    | apply sar_bind; [|intros ?]
    | apply sar_for_each; intros ? ?
    | match goal with
      | |- stops_at_rejection _ (if ?b then _ else _) => destruct b
      | |- stops_at_rejection _ (match ?x with _ => _ end) => destruct x
      end ].

Lemma bot_pr_opened_stops w repo number author :
  rejects_all w -> stops_at_rejection w (Bot.pr_opened repo number author).
Proof.
  intros Hw.
  unfold Bot.pr_opened, Bot.auto_label_pr, Bot.auto_assign_reviewers,
    Bot.gather_reviewers, Bot.welcome_contributor, Bot.check_pr_requirements,
    Bot.ai_code_review.
  cbv zeta. repeat sar_step.
Qed.

Lemma bot_run_command_stops w repo number commenter text :
  rejects_all w ->
  stops_at_rejection w (Bot.run_command repo number commenter text).
Proof.
  intros Hw.
  unfold Bot.run_command, Bot.assign_command, Bot.label_command,
    Bot.generate_changelog, Bot.random_choice.
  cbv zeta. repeat sar_step.
Qed.

Lemma bot_webhook_stops w d :
  rejects_all w -> stops_at_rejection w (Bot.webhook d).
Proof.
  intros Hw. unfold Bot.webhook. cbv zeta.
  apply sar_bind; [|intros ?; apply sar_ret].
  destruct (is_event (event d) "pull_request").
  - repeat (apply sar_bind; [apply sar_item|intros ?]).
    destruct (String.eqb _ "opened"); [now apply bot_pr_opened_stops|].
    repeat sar_step.
  - destruct (is_event (event d) "issues").
    + apply sar_bind; [apply sar_item|intros ?].
      destruct (String.eqb _ "opened"); [|apply sar_ret].
      unfold Bot.issue_opened. cbv zeta. repeat sar_step.
    + unfold and_then.
      apply sar_bind; [repeat sar_step|intros created].
      destruct created; [|apply sar_ret].
      repeat (apply sar_bind; [apply sar_item|intros ?]).
      now apply bot_run_command_stops.
Qed.

(** X18: when every [POST] and [PATCH] fails (its call raises), a
    delivery to [bot.py] is left at the first one attempted: the handler
    records one [POST] or [PATCH] at most, so no confirmation or later
    comment follows a failed call, and it answers only when it attempted
    none. *)
Theorem bot_stops_at_first_rejection (w : World) (d : Delivery) :
  rejects_all w ->
  (mutations (snd (Bot.webhook d w [])) <= 1)%nat /\
  (forall status,
     fst (Bot.webhook d w []) = Ok status ->
     mutations (snd (Bot.webhook d w [])) = 0%nat).
Proof.
  intros Hw. destruct (bot_webhook_stops w d Hw []) as [Hok Hone].
  split; [exact Hone|]. intros status Hs. exact (Hok status Hs).
Qed.

Lemma bot_stops_at_first_rejection_witness :
  rejects_all rejecting_world /\
  Bot.webhook (comment_delivery "/close") rejecting_world []
  = (Raised ApiError, [PatchState "octo/repo" 7 "closed"]) /\
  (mutations (snd (Bot.webhook (comment_delivery "/close")
                     rejecting_world [])) <= 1)%nat.
Proof.
  assert (Hw : rejects_all rejecting_world) by (intros k r; reflexivity).
  split; [exact Hw|]. split; [reflexivity|].
  exact (proj1 (bot_stops_at_first_rejection rejecting_world
                  (comment_delivery "/close") Hw)).
Defined.

End HandlerFacts.

(* ===================================================================== *)
(** * Properties of the labels of a pull request *)
(* ===================================================================== *)

Module LabelFacts.
Import Spec Samples RouterFacts ReviewerFacts.
Local Open Scope handler_scope.

Lemma set_add_length x l :
  (List.length (Py.set_add x l) <= List.length l + 1)%nat.
Proof.
  unfold Py.set_add. destruct (existsb (String.eqb x) l);
    [lia|rewrite length_app; simpl; lia].
Qed.

Lemma grown_from_base sizes base : grown_from sizes base 0 base.
Proof. repeat split; auto. lia. Qed.

Lemma grown_from_more sizes base n m l :
  grown_from sizes base n l -> (n <= m)%nat -> grown_from sizes base m l.
Proof. intros [H1 [H2 H3]] Hle. repeat split; auto. lia. Qed.

Lemma grown_from_add sizes base n l x :
  grown_from sizes base n l -> ~ In x sizes ->
  grown_from sizes base (S n) (Py.set_add x l).
Proof.
  intros [H1 [H2 H3]] Hx. split; [|split].
  - intros Hb. apply set_add_NoDup. auto.
  - intros s Hs Hin. apply set_add_In in Hin.
    destruct Hin as [->|Hin]; [contradiction|auto].
  - pose proof (set_add_length x l). lia.
Qed.

Lemma grown_from_trans sizes base n l m l' :
  grown_from sizes base n l -> grown_from sizes l m l' ->
  grown_from sizes base (n + m) l'.
Proof.
  intros [H1 [H2 H3]] [H1' [H2' H3']]. split; [|split]; auto. lia.
Qed.

(** Walks one chain of tests: every branch adds one label that is not
    a size label, or none. *)
Ltac chain sizes H :=
  repeat match goal with
    | |- grown_from _ _ _ (if ?c then _ else _) => destruct c
    end;
  first
    [ apply (grown_from_more _ _ _ _ _ H); lia
    | apply grown_from_add;
      [exact H|unfold sizes; simpl; intuition discriminate] ].

(** One turn of the loop of [bot.py]: three chains, each adding one
    label at most. *)
Lemma bot_label_step (step : list string * Z -> FileChange -> list string * Z)
    labels lines_changed file :
  step = (fun '(labels, lines_changed) file =>
            let lines_changed := lines_changed + Utils.get_changes file in
            let filename := Py.lower (filename file) in
            let labels :=
              if Py.endswith_any filename [".py"; ".pyx"]
              then Py.set_add "python" labels
              else if Py.endswith_any filename [".js"; ".jsx"; ".ts"; ".tsx"]
              then Py.set_add "javascript" labels
              else if Py.endswith_any filename [".java"; ".kt"]
              then Py.set_add "java" labels
              else if Py.endswith_any filename [".cpp"; ".c"; ".h"]
              then Py.set_add "c++" labels
              else if Py.endswith filename ".go" then Py.set_add "golang" labels
              else if Py.endswith filename ".rs" then Py.set_add "rust" labels
              else if Py.endswith filename ".rb" then Py.set_add "ruby" labels
              else if Py.endswith filename ".php" then Py.set_add "php" labels
              else if Py.endswith filename ".swift"
              then Py.set_add "swift" labels
              else labels in
            let labels :=
              if Py.endswith_any filename [".md"; ".txt"; ".rst"]
              then Py.set_add "documentation" labels
              else if Py.contains "test" filename
                      || Py.endswith_any filename [".test.js"; "_test.py"]
              then Py.set_add "tests" labels
              else if Py.endswith_any filename
                        [".yml"; ".yaml"; ".json"; ".toml"]
              then Py.set_add "config" labels
              else if Py.endswith_any filename [".css"; ".scss"; ".sass"]
              then Py.set_add "styling" labels
              else if Py.endswith_any filename [".html"; ".htm"]
              then Py.set_add "frontend" labels
              else if Py.contains "docker" filename
                      || String.eqb filename "dockerfile"
              then Py.set_add "docker" labels
              else if Py.endswith filename ".sql"
              then Py.set_add "database" labels
              else if Py.contains "api" filename
                      || Py.contains "endpoint" filename
              then Py.set_add "api" labels
              else if Py.contains "security" filename
                      || Py.contains "auth" filename
              then Py.set_add "security" labels
              else if Py.contains "performance" filename
                      || Py.contains "optimize" filename
              then Py.set_add "performance" labels
              else labels in
            let labels :=
              if Py.contains "/frontend/" filename
                 || Py.contains "/ui/" filename
              then Py.set_add "frontend" labels
              else if Py.contains "/backend/" filename
                      || Py.contains "/server/" filename
              then Py.set_add "backend" labels
              else if Py.contains "/mobile/" filename
                      || Py.contains "/android/" filename
                      || Py.contains "/ios/" filename
              then Py.set_add "mobile" labels
              else if Py.contains "/infra/" filename
                      || Py.contains "/deploy/" filename
              then Py.set_add "infrastructure" labels
              else labels in
            (labels, lines_changed)) ->
  exists labels',
    step (labels, lines_changed) file
    = (labels', lines_changed + Utils.get_changes file) /\
    grown_from bot_sizes labels 3 labels'.
Proof.
  intros ->. cbv beta iota zeta.
  set (name := Py.lower (filename file)).
  match goal with
  | |- exists labels', (if _ then Py.set_add _ ?c2 else _, _) = _ /\ _ =>
      match c2 with
      | if _ then Py.set_add _ ?c1 else _ => set (first := c1)
      end
  end.
  match goal with
  | |- exists labels', (if _ then Py.set_add _ ?c2 else _, _) = _ /\ _ =>
      set (second := c2)
  end.
  assert (H1 : grown_from bot_sizes labels 1 first).
  { subst first. pose proof (grown_from_base bot_sizes labels) as H0.
    chain bot_sizes H0. }
  assert (H2 : grown_from bot_sizes first 1 second).
  { subst second. pose proof (grown_from_base bot_sizes first) as H0.
    chain bot_sizes H0. }
  eexists. split; [reflexivity|].
  change 3%nat with (1 + 1 + 1)%nat.
  apply (grown_from_trans _ _ _ second);
    [exact (grown_from_trans _ _ _ _ _ _ H1 H2)|].
  pose proof (grown_from_base bot_sizes second) as H0.
  chain bot_sizes H0.
Qed.

Lemma label_loop sizes
    (step : list string * Z -> FileChange -> list string * Z) :
  (forall labels lines_changed file,
     exists labels',
       step (labels, lines_changed) file
       = (labels', lines_changed + Utils.get_changes file) /\
       grown_from sizes labels 3 labels') ->
  forall files labels lines_changed,
    exists labels',
      fold_left step files (labels, lines_changed)
      = (labels',
         fold_left (fun acc f => acc + Utils.get_changes f) files
           lines_changed) /\
      grown_from sizes labels (3 * List.length files) labels'.
Proof.
  intros Hstep. induction files as [|f files IH]; intros labels lc.
  - exists labels. split; [reflexivity|apply grown_from_base].
  - cbn [fold_left]. destruct (Hstep labels lc f) as [l1 [-> H1]].
    destruct (IH l1 (lc + Utils.get_changes f)) as [l2 [-> H2]].
    exists l2. split; [reflexivity|].
    apply (grown_from_more _ _ (3 + 3 * List.length files));
      [exact (grown_from_trans _ _ _ _ _ _ H1 H2)|cbn [List.length]; lia].
Qed.

Lemma nonempty_set_add x l : Py.nonempty (Py.set_add x l) = true.
Proof.
  unfold Py.set_add. destruct (existsb (String.eqb x) l) eqn:E.
  - destruct l; [discriminate E|reflexivity].
  - destruct l; reflexivity.
Qed.

(** What is sent once the size label joined the labels of the loop. *)
Lemma size_label_joins w sizes size loop n posted :
  set_order_ok w ->
  In size sizes ->
  grown_from sizes [] n loop ->
  posted = set_order w (Py.set_add size loop) ->
  NoDup posted /\
  (forall s, In s sizes -> (In s posted <-> s = size)) /\
  (forall l, In l posted <-> l = size \/ In l loop) /\
  (List.length posted <= n + 1)%nat.
Proof.
  intros Hperm Hsize [Hnd [Hout Hlen]] ->.
  pose proof (Hperm (Py.set_add size loop)) as Hp.
  assert (Hmem : forall l, In l (set_order w (Py.set_add size loop))
                           <-> l = size \/ In l loop).
  { intros l. rewrite <- set_add_In. split; intros H.
    - exact (Permutation_in l Hp H).
    - exact (Permutation_in l (Permutation_sym Hp) H). }
  split; [|split; [|split]].
  - apply (Permutation_NoDup (Permutation_sym Hp)).
    apply set_add_NoDup, Hnd. constructor.
  - intros s Hs. rewrite Hmem. split; [|now left].
    intros [->|Hin]; [reflexivity|]. destruct (Hout s Hs Hin).
  - exact Hmem.
  - rewrite (Permutation_length Hp).
    pose proof (set_add_length size loop). simpl in Hlen. lia.
Qed.

(** X11: [bot.py] always sends one label request for an opened pull
    request; its labels are distinct, at most three per file and one
    more, and exactly one of them is a size label: large above 500
    changed lines, medium above 100, small otherwise. *)
Theorem bot_labels_one_size w repo number files tr :
  set_order_ok w ->
  exists labels,
    snd (Bot.auto_label_pr repo number files w tr)
    = tr ++ [PostLabels repo number labels] /\
    NoDup labels /\
    (forall size, In size bot_sizes ->
       (In size labels <-> size = bot_size_label files)) /\
    (List.length labels <= 3 * List.length files + 1)%nat.
Proof.
  intros Hperm. unfold Bot.auto_label_pr.
  match goal with
  | |- context [fold_left ?f files ([], 0)] =>
      destruct (label_loop bot_sizes f
                  (fun l lc file => bot_label_step f l lc file eq_refl)
                  files [] 0) as [loop [Hfold Hgrown]];
      rewrite Hfold
  end.
  change (fold_left (fun acc f => acc + Utils.get_changes f) files 0)
    with (Utils.sum_changes files).
  assert (Hsize : In (bot_size_label files) bot_sizes).
  { unfold bot_size_label, bot_sizes.
    destruct (Utils.sum_changes files >? 500);
      [|destruct (Utils.sum_changes files >? 100)]; simpl; tauto. }
  assert (Hfinal :
    (if Utils.sum_changes files >? 500 then Py.set_add "large" loop
     else if Utils.sum_changes files >? 100 then Py.set_add "medium" loop
     else Py.set_add "small" loop)
    = Py.set_add (bot_size_label files) loop).
  { unfold bot_size_label.
    destruct (Utils.sum_changes files >? 500);
      [|destruct (Utils.sum_changes files >? 100)]; reflexivity. }
  cbv zeta. rewrite Hfinal, nonempty_set_add.
  exists (set_order w (Py.set_add (bot_size_label files) loop)).
  split.
  - unfold bind, ask, send. destruct (accepts_mutation w _ _); reflexivity.
  - destruct (size_label_joins w bot_sizes _ loop _ _ Hperm Hsize Hgrown
                eq_refl) as [Hnd [Hone [_ Hlen]]].
    split; [exact Hnd|]. split; [exact Hone|exact Hlen].
Qed.

Lemma bot_labels_one_size_witness :
  set_order_ok reversing_world /\
  exists labels,
    snd (Bot.auto_label_pr "octo/repo" 3 six_files reversing_world [])
    = [] ++ [PostLabels "octo/repo" 3 labels] /\
    NoDup labels /\
    (forall size, In size bot_sizes ->
       (In size labels <-> size = bot_size_label six_files)) /\
    (List.length labels <= 3 * List.length six_files + 1)%nat.
Proof.
  assert (Hperm : set_order_ok reversing_world)
    by (intros l; apply Permutation_sym, Permutation_rev).
  split; [exact Hperm|].
  exact (bot_labels_one_size reversing_world "octo/repo" 3 six_files []
           Hperm).
Defined.

Lemma substring_contains s : forall k p,
  substring k (String.length p) s = p -> Py.contains p s = true.
Proof.
  induction s as [|c s IH]; intros k p H.
  - assert (p = EmptyString) as ->
      by (destruct k, (String.length p); simpl in H; now subst p).
    reflexivity.
  - destruct k as [|k].
    + cbn [Py.contains].
      rewrite (proj2 (String.prefix_correct p (String c s)) H). reflexivity.
    + apply HelperFacts.contains_cons, (IH k). exact H.
Qed.

Lemma endswith_contains s e :
  Py.endswith s e = true -> Py.contains e s = true.
Proof.
  unfold Py.endswith. intros H.
  destruct (String.length e <=? String.length s)%nat; [|discriminate H].
  apply String.eqb_eq in H. exact (substring_contains s _ e H).
Qed.

Lemma add_all_In l xs : forall acc,
  In l (fold_left (fun acc x => Py.set_add x acc) xs acc)
  <-> In l acc \/ In l xs.
Proof.
  induction xs as [|x xs IH]; intros acc; cbn [fold_left].
  - simpl. tauto.
  - rewrite IH, set_add_In. simpl. intuition congruence.
Qed.

Lemma add_all_NoDup xs : forall acc,
  NoDup acc -> NoDup (fold_left (fun acc x => Py.set_add x acc) xs acc).
Proof.
  induction xs as [|x xs IH]; intros acc H; cbn [fold_left];
    [exact H|apply IH, set_add_NoDup, H].
Qed.

Lemma app_content_loop name cats : forall acc,
  fold_left
    (fun labels '(label, extensions) =>
       if existsb (fun e => Py.endswith name e || Py.contains e name)
            extensions
       then Py.set_add label labels
       else labels)
    cats acc
  = fold_left (fun acc x => Py.set_add x acc)
      (map fst
         (filter (fun rule => existsb (fun e => Py.contains e name) (snd rule))
            cats))
      acc.
Proof.
  induction cats as [|[label extensions] cats IH]; intros acc;
    [reflexivity|].
  cbn [fold_left filter snd].
  assert (Hany :
    existsb (fun e => Py.endswith name e || Py.contains e name) extensions
    = existsb (fun e => Py.contains e name) extensions).
  { induction extensions as [|e extensions IHe]; [reflexivity|].
    cbn [existsb]. rewrite IHe. f_equal.
    destruct (Py.endswith name e) eqn:E; [|reflexivity].
    rewrite (endswith_contains _ _ E). reflexivity. }
  rewrite Hany.
  destruct (existsb (fun e => Py.contains e name) extensions);
    cbn [map fst fold_left]; apply IH.
Qed.

Lemma app_label_loop
    (step : list string -> FileChange -> list string) :
  step = (fun labels file =>
            let filename := Py.lower (filename file) in
            let ext := Utils.extension filename in
            let labels :=
              match GithubApp.lookup ext Config.LANGUAGE_LABELS with
              | Some label => Py.set_add label labels
              | None => labels
              end in
            fold_left
              (fun labels '(label, extensions) =>
                 if existsb (fun e => Py.endswith filename e
                                      || Py.contains e filename) extensions
                 then Py.set_add label labels
                 else labels)
              Config.CONTENT_LABELS labels) ->
  forall files labels,
    fold_left step files labels
    = fold_left (fun acc x => Py.set_add x acc)
        (flat_map app_file_labels files) labels.
Proof.
  intros ->. induction files as [|f files IH]; intros labels;
    [reflexivity|].
  cbn [fold_left flat_map]. rewrite IH, fold_left_app. f_equal.
  cbv zeta. rewrite app_content_loop. unfold app_file_labels. cbv zeta.
  rewrite fold_left_app.
  destruct (GithubApp.lookup _ Config.LANGUAGE_LABELS); reflexivity.
Qed.

Lemma lookup_In key table label :
  GithubApp.lookup key table = Some label -> In label (map snd table).
Proof.
  unfold GithubApp.lookup.
  destruct (find _ table) as [kv|] eqn:E; [|discriminate].
  intros [= <-]. apply find_some in E. apply in_map, E.
Qed.

Lemma app_file_labels_catalog f l :
  In l (app_file_labels f) ->
  In l (map snd Config.LANGUAGE_LABELS ++ map fst Config.CONTENT_LABELS).
Proof.
  unfold app_file_labels. cbv zeta. rewrite !in_app_iff.
  intros [H|H].
  - left. destruct (GithubApp.lookup _ _) as [label|] eqn:E; [|destruct H].
    destruct H as [<-|[]]. exact (lookup_In _ _ _ E).
  - right. apply in_map_iff in H. destruct H as [rule [<- H]].
    apply filter_In in H. apply in_map, H.
Qed.

Lemma catalog_has_no_size l :
  In l (map snd Config.LANGUAGE_LABELS ++ map fst Config.CONTENT_LABELS) ->
  ~ In l app_sizes.
Proof.
  intros H Hs.
  assert (existsb (String.eqb l) app_sizes = true) as Hsize
    by (apply existsb_exists; exists l; split;
        [exact Hs|apply String.eqb_refl]).
  clear Hs.
  cbn [Config.LANGUAGE_LABELS Config.CONTENT_LABELS map snd fst app] in H.
  cbn [In] in H.
  repeat (destruct H as [<-|H]; [discriminate Hsize|]). exact H.
Qed.

(** X12: [github_app.py] always sends one label request for an opened
    pull request; its labels are distinct, and they are the size label
    of the total of changed lines (the only size label among them)
    together with the language of each file's extension and each
    content label one of whose matchers occurs anywhere in the
    lower-cased name. *)
Theorem app_labels_characterised w repo number files tr :
  set_order_ok w ->
  exists labels,
    snd (GithubApp.auto_label_pr repo number files w tr)
    = tr ++ [PostLabels repo number labels] /\
    NoDup labels /\
    (forall l, In l labels <->
       l = app_size_label files \/
       exists f, In f files /\ In l (app_file_labels f)) /\
    (forall size, In size app_sizes ->
       (In size labels <-> size = app_size_label files)).
Proof.
  intros Hperm. unfold GithubApp.auto_label_pr. cbv zeta.
  match goal with
  | |- context [fold_left ?f files []] =>
      rewrite (app_label_loop f eq_refl files [])
  end.
  set (loop := fold_left (fun acc x => Py.set_add x acc)
                 (flat_map app_file_labels files) []).
  assert (Hloop : forall l, In l loop <->
                    exists f, In f files /\ In l (app_file_labels f)).
  { intros l. unfold loop. rewrite add_all_In, in_flat_map. simpl. tauto. }
  assert (Hgrown : grown_from app_sizes [] (List.length loop) loop).
  { split; [|split].
    - intros H. apply add_all_NoDup, H.
    - intros s Hs Hin. apply Hloop in Hin. destruct Hin as [f [_ Hin]].
      destruct (catalog_has_no_size s (app_file_labels_catalog f s Hin) Hs).
    - simpl. lia. }
  assert (Hsize : In (app_size_label files) app_sizes).
  { unfold app_size_label, app_sizes.
    destruct (Utils.sum_changes files >? 500);
      [|destruct (Utils.sum_changes files >? 100)]; simpl; tauto. }
  assert (Hfinal :
    (if Utils.sum_changes files >? 500 then Py.set_add "size/large" loop
     else if Utils.sum_changes files >? 100
          then Py.set_add "size/medium" loop
          else Py.set_add "size/small" loop)
    = Py.set_add (app_size_label files) loop).
  { unfold app_size_label.
    destruct (Utils.sum_changes files >? 500);
      [|destruct (Utils.sum_changes files >? 100)]; reflexivity. }
  rewrite Hfinal, nonempty_set_add.
  exists (set_order w (Py.set_add (app_size_label files) loop)).
  split.
  - unfold bind, ask, send. destruct (accepts_mutation w _ _); reflexivity.
  - destruct (size_label_joins w app_sizes _ loop _ _ Hperm Hsize Hgrown
                eq_refl) as [Hnd [Hone [Hmem _]]].
    split; [exact Hnd|]. split; [|exact Hone].
    intros l. rewrite Hmem, Hloop. tauto.
Qed.

Lemma app_labels_characterised_witness :
  set_order_ok reversing_world /\
  exists labels,
    snd (GithubApp.auto_label_pr "octo/repo" 3 six_files reversing_world [])
    = [] ++ [PostLabels "octo/repo" 3 labels] /\
    NoDup labels /\
    (forall l, In l labels <->
       l = app_size_label six_files \/
       exists f, In f six_files /\ In l (app_file_labels f)) /\
    (forall size, In size app_sizes ->
       (In size labels <-> size = app_size_label six_files)).
Proof.
  assert (Hperm : set_order_ok reversing_world)
    by (intros l; apply Permutation_sym, Permutation_rev).
  split; [exact Hperm|].
  exact (app_labels_characterised reversing_world "octo/repo" 3 six_files []
           Hperm).
Defined.

End LabelFacts.

(** * The checks of [bot.py] on an opened pull request *)

Module CheckFacts.
Import Spec Samples.

Lemma security_step
    (step : list SecurityIssue -> FileChange -> list SecurityIssue) :
  step = (fun security_issues file =>
            if Py.truthy (patch file)
            then
              let patch := Py.lower (Utils.patch_text file) in
              let security_issues :=
                if Py.contains "password" patch && Py.contains "=" patch
                then security_issues ++ [PotentialPassword (filename file)]
                else security_issues in
              let security_issues :=
                if Py.contains "api_key" patch || Py.contains "secret" patch
                then security_issues ++ [PotentialSecret (filename file)]
                else security_issues in
              let security_issues :=
                if Py.contains "eval(" patch || Py.contains "exec(" patch
                then security_issues ++ [DangerousEval (filename file)]
                else security_issues in
              let security_issues :=
                if Py.contains "sql" patch
                   && (Py.contains "drop" patch || Py.contains "delete" patch)
                then security_issues ++ [SqlRisk (filename file)]
                else security_issues in
              security_issues
            else security_issues) ->
  forall issues file,
    step issues file = issues ++ step [] file /\
    (List.length (step [] file) <= 4)%nat /\
    (forall issue, In issue (step [] file) ->
       Py.truthy (patch file) = true /\ issue_file issue = filename file).
Proof.
  intros -> issues file. cbv beta zeta.
  destruct (Py.truthy (patch file));
    [|rewrite app_nil_r; simpl; intuition lia].
  set (text := Py.lower (Utils.patch_text file)).
  destruct (Py.contains "password" text && Py.contains "=" text);
    destruct (Py.contains "api_key" text || Py.contains "secret" text);
    destruct (Py.contains "eval(" text || Py.contains "exec(" text);
    destruct (Py.contains "sql" text
              && (Py.contains "drop" text || Py.contains "delete" text));
    rewrite <- ?app_assoc, ?app_nil_r; cbn [app];
    (split; [reflexivity|]);
    (split; [cbn [List.length]; lia|]);
    cbn [In]; intros issue H;
    repeat (destruct H as [<-|H]; [split; reflexivity|]); destruct H.
Qed.

Lemma security_loop
    (step : list SecurityIssue -> FileChange -> list SecurityIssue) :
  (forall issues file,
     step issues file = issues ++ step [] file /\
     (List.length (step [] file) <= 4)%nat /\
     (forall issue, In issue (step [] file) ->
        Py.truthy (patch file) = true /\
        issue_file issue = filename file)) ->
  forall files issues,
    fold_left step files issues
    = issues ++ flat_map (step []) files.
Proof.
  intros Hstep. induction files as [|f files IH]; intros issues.
  - cbn [fold_left flat_map]. now rewrite app_nil_r.
  - cbn [fold_left flat_map].
    rewrite IH, (proj1 (Hstep issues f)), <- app_assoc. reflexivity.
Qed.

(** X21: the keyword scan of [bot.py] works file by file: the issues of
    two lists put end to end are the two results put end to end; every
    issue names a file of the input that carries patch text, and a file
    gives four issues at most. *)
Theorem security_scan_pr_spec files files' :
  Bot.security_scan_pr (files ++ files')
  = Bot.security_scan_pr files ++ Bot.security_scan_pr files' /\
  (forall issue, In issue (Bot.security_scan_pr files) ->
     exists f, In f files /\ Py.truthy (patch f) = true /\
               issue_file issue = filename f) /\
  (List.length (Bot.security_scan_pr files) <= 4 * List.length files)%nat.
Proof.
  unfold Bot.security_scan_pr.
  match goal with
  | |- context [fold_left ?f files []] =>
      set (step := f);
      pose proof (security_step step eq_refl) as Hstep
  end.
  rewrite !(security_loop step Hstep). cbn [app].
  split; [apply flat_map_app|]. split.
  - intros issue H. apply in_flat_map in H. destruct H as [f [Hf H]].
    exists f. split; [exact Hf|]. exact (proj2 (proj2 (Hstep [] f)) issue H).
  - clear files'. induction files as [|f files IH]; [simpl; lia|].
    cbn [flat_map List.length]. rewrite length_app.
    pose proof (proj1 (proj2 (Hstep [] f))). lia.
Qed.

Lemma firstn_nonempty {A} (l : list A) :
  Py.nonempty l = true -> firstn 3 l <> [] /\ (List.length (firstn 3 l) <= 3)%nat.
Proof.
  destruct l as [|x l]; [discriminate|]. intros _.
  split; [discriminate|]. rewrite length_firstn. lia.
Qed.

Lemma firstn_In {A} n (l : list A) x : In x (firstn n l) -> In x l.
Proof.
  revert l. induction n as [|n IH]; intros [|y l]; simpl; try tauto.
  intros [->|H]; [now left|right; apply IH, H].
Qed.

(** X22: the requirements check of [bot.py] sends one comment at most,
    and none for an empty list of files; the comment has one to three
    entries, and its entry on large files names one to three files,
    each of them a file of the pull request with more than 300
    changes. *)
Theorem check_pr_requirements_spec repo number files w tr :
  exists added,
    snd (Bot.check_pr_requirements repo number files w tr) = tr ++ added /\
    (files = [] -> added = []) /\
    (added = [] \/
     exists issues,
       added = [PostComment repo number (BPRReview issues)] /\
       issues <> [] /\ (List.length issues <= 3)%nat /\
       forall names, In (LargeFilesDetected names) issues ->
         names <> [] /\ (List.length names <= 3)%nat /\
         forall name, In name names ->
           exists f, In f files /\ filename f = name /\
                     300 < Utils.get_changes f).
Proof.
  unfold Bot.check_pr_requirements. cbv zeta.
  set (large := map filename
                  (filter (fun f => Utils.get_changes f >? 300) files)).
  assert (Hlarge : forall name, In name (firstn 3 large) ->
            exists f, In f files /\ filename f = name /\
                      300 < Utils.get_changes f).
  { intros name H. apply firstn_In, in_map_iff in H.
    destruct H as [f [Hname H]]. apply filter_In in H.
    exists f. split; [tauto|]. split; [exact Hname|]. lia. }
  assert (Hcase : files = [] \/ files <> [])
    by (destruct files; [left|right]; congruence).
  destruct Hcase as [Hnil|Hne].
  { subst files. exists []. rewrite app_nil_r. simpl. tauto. }
  destruct (existsb _ files && negb (existsb _ files));
    destruct (Py.nonempty large) eqn:Enonempty;
    destruct ((Z.of_nat (List.length files) >? 5) && negb (existsb _ files));
    cbn [app Py.nonempty];
    try (exists []; rewrite app_nil_r; split; [reflexivity|];
         split; [reflexivity|]; left; reflexivity);
    (eexists; split;
     [unfold send; destruct (accepts_mutation w _ _); reflexivity|]);
    (split; [intros Hnil; destruct (Hne Hnil)|]); right; eexists;
    (split; [reflexivity|]); (split; [discriminate|]);
    (split; [cbn [List.length]; lia|]);
    intros names Hin; cbn [In] in Hin;
    assert (Hnames : names = firstn 3 large /\ Py.nonempty large = true)
      by (repeat (destruct Hin as [Hin|Hin];
                  [first [discriminate Hin
                         |injection Hin as <-;
                          split; [reflexivity|exact Enonempty]]|]);
          destruct Hin);
    destruct Hnames as [-> Hnonempty];
    (split; [apply firstn_nonempty, Hnonempty|]);
    (split; [apply firstn_nonempty, Hnonempty|]);
    exact Hlarge.
Qed.

End CheckFacts.
